(** * HDRView image I/O (HDRImageIO.cpp)

    A shallow embedding of the loader and saver of HDRView: the bit
    unpackers of packed raw sensor samples, the colour pipeline of the raw
    developer, the format cascade of [HDRImage::load] and the quantiser of
    [HDRImage::save], followed by the properties proved about them.

    Conventions.
    - C++ [int], [size_t] and [unsigned] values are integers of [Z]; the
      bit operations are those of [Z].  Overflow of [int] is undefined in
      C++ and is not modelled.
    - [float] is a parameter of the development, the class [FloatArith].
      Two instances are given: [binary32], IEEE single precision with
      round-to-nearest-even (the arithmetic the program runs on), and
      [exact], the rationals, in which no operation rounds.
    - Library code that the file calls but does not define (stb_image,
      TinyNPY, OpenEXR, tinydng, Eigen, the colour-space helpers, the
      demosaic kernel) appears as parameters: what a codec finds in a file
      is the record [File], the functions are the class [Externals].
    - Exceptions inside a [try] block are values of the error monad [exc]. *)

From Stdlib Require Import ZArith Lia String Ascii.
From Stdlib Require Import Strings.Byte.
From Stdlib Require Import QArith Qcanon.
From Stdlib Require Import Floats.SpecFloat.
From stdpp Require Import base list list_numbers strings pretty.

Local Open Scope Z_scope.

(* ================================================================== *)
(** * Loops and vectors *)
(* ================================================================== *)

(** [for (int i = lo; i < hi; ++i) body(i)] over a state [S]. *)
Definition for_loop {S : Type} (lo hi : Z) (body : Z -> S -> S) (s : S) : S :=
  foldl (fun acc i => body i acc) s (seqZ lo (hi - lo)).

(** [parallel_for(lo, hi, body)] of ParallelFor.h.  Every body in this file
    writes cells that no other iteration reads or writes, so each schedule
    yields the state of the sequential one, which is the one modelled. *)
Definition parallel_for {S : Type} (lo hi : Z) (body : Z -> S -> S) (s : S) : S :=
  for_loop lo hi body s.

(** [v[i]] on a [std::vector] or a raw pointer; [d] stands for the
    unspecified value of a read outside the buffer. *)
Definition vec_at {A : Type} (d : A) (v : list A) (i : Z) : A :=
  if 0 <=? i then default d (v !! Z.to_nat i) else d.

(** [v[i] = x]. *)
Definition vec_set {A : Type} (v : list A) (i : Z) (x : A) : list A :=
  if 0 <=? i then <[Z.to_nat i := x]> v else v.

(** [v.resize(n)]: the first [n] elements are kept, new ones are [d]. *)
Definition vec_resize {A : Type} (d : A) (n : Z) (v : list A) : list A :=
  resize (Z.to_nat n) d v.

(** A byte of the input buffer as an [unsigned char]. *)
Definition byte_val (b : byte) : Z := Z.of_N (Byte.to_N b).

Definition byte_at (data : list byte) (i : Z) : Z :=
  vec_at 0 (byte_val <$> data) i.

(* ================================================================== *)
(** * Floating-point arithmetic *)
(* ================================================================== *)

(** The operations the program applies to [float] values. *)
Class FloatArith (F : Type) := {
  of_int : Z -> F;                (* static_cast<float>(n); an int operand promoted *)
  of_ratio : Z -> positive -> F;  (* a decimal literal n/d, e.g. 1000.f, 0.5f *)
  fneg : F -> F;
  fadd : F -> F -> F;
  fsub : F -> F -> F;
  fmul : F -> F -> F;
  fdiv : F -> F -> F;
  flt : F -> F -> bool;           (* a < b *)
  fle : F -> F -> bool;           (* a <= b *)
  fround : F -> Z;                (* (int) std::round(a) *)
  ftrunc : F -> Z;                (* (unsigned char) a, (int) a *)
  FLT_MAX : F
}.

(** ** IEEE 754 single precision *)
Module Binary32.

Definition prec : Z := 24.
Definition emax : Z := 128.

Definition of_Z (n : Z) : spec_float := binary_normalize prec emax n 0 false.

(** The quotient [n / d] of two integers rounded once, which is how a
    decimal literal is read. *)
Definition round_ratio (s : bool) (n d : positive) : spec_float :=
  let '(mz, ez, lz) := SFdiv_core_binary prec emax (Zpos n) 0 (Zpos d) 0 in
  binary_round_aux prec emax s mz ez lz.

Definition of_ratio (n : Z) (d : positive) : spec_float :=
  match n with
  | Z0 => S754_zero false
  | Zpos p => round_ratio false p d
  | Zneg p => round_ratio true p d
  end.

(** Conversion to an integer type: the fraction is discarded. *)
Definition trunc (x : spec_float) : Z :=
  match x with
  | S754_finite s m e =>
      cond_Zopp s
        match e with
        | Z0 => Zpos m
        | Zpos p => Zpos m * 2 ^ Zpos p
        | Zneg p => Zpos m / 2 ^ Zpos p
        end
  | _ => 0
  end.

(** [std::round]: to the nearest integer, halves away from zero. *)
Definition round (x : spec_float) : Z :=
  match x with
  | S754_finite s m e =>
      cond_Zopp s
        match e with
        | Z0 => Zpos m
        | Zpos p => Zpos m * 2 ^ Zpos p
        | Zneg p => (2 * Zpos m + 2 ^ Zpos p) / (2 * 2 ^ Zpos p)
        end
  | _ => 0
  end.

Definition max_float : spec_float := S754_finite false 16777215 104.

(** The number a finite float stands for. *)
Definition value (x : spec_float) : Q :=
  match x with
  | S754_finite s m e =>
      let q := match e with
               | Z0 => inject_Z (Zpos m)
               | Zpos p => inject_Z (Zpos m * 2 ^ Zpos p)
               | Zneg p => Qmake (Zpos m) (2 ^ p)
               end in
      if s then Qopp q else q
  | _ => 0%Q
  end.

End Binary32.

#[export] Instance binary32 : FloatArith spec_float := {
  of_int := Binary32.of_Z;
  of_ratio := Binary32.of_ratio;
  fneg := SFopp;
  fadd := SFadd Binary32.prec Binary32.emax;
  fsub := SFsub Binary32.prec Binary32.emax;
  fmul := SFmul Binary32.prec Binary32.emax;
  fdiv := SFdiv Binary32.prec Binary32.emax;
  flt := SFltb;
  fle := SFleb;
  fround := Binary32.round;
  ftrunc := Binary32.trunc;
  FLT_MAX := Binary32.max_float
}.

(** ** Exact arithmetic on the rationals *)
Module Exact.

Definition of_Z (n : Z) : Qc := Q2Qc (inject_Z n).
Definition of_ratio (n : Z) (d : positive) : Qc := Q2Qc (n # d).

Definition ltb (x y : Qc) : bool :=
  match (x ?= y)%Qc with Lt => true | _ => false end.
Definition leb (x y : Qc) : bool :=
  match (x ?= y)%Qc with Gt => false | _ => true end.

Definition trunc (x : Qc) : Z := Z.quot (Qnum x) (Zpos (Qden x)).

Definition round (x : Qc) : Z :=
  let n := Qnum x in
  let d := Zpos (Qden x) in
  if 0 <=? n then (2 * n + d) / (2 * d) else - ((2 * (- n) + d) / (2 * d)).

Definition max_float : Qc := of_Z (16777215 * 2 ^ 104).

End Exact.

#[export] Instance exact : FloatArith Qc := {
  of_int := Exact.of_Z;
  of_ratio := Exact.of_ratio;
  fneg := Qcopp;
  fadd := Qcplus;
  fsub := Qcminus;
  fmul := Qcmult;
  fdiv := Qcdiv;
  flt := Exact.ltb;
  fle := Exact.leb;
  fround := Exact.round;
  ftrunc := Exact.trunc;
  FLT_MAX := Exact.max_float
}.

(* ================================================================== *)
(** * Bit unpacker *)
(* ================================================================== *)

Section BitUnpacker.
Context {F : Type} {FA : FloatArith F}.

(** An [unsigned short] read through a pointer cast of the byte buffer,
    [reinterpret_cast<unsigned short *>(data)[i]], on a little-endian
    host: the byte at offset [2*i] is the low one. *)
Definition ushort_at (data : list byte) (i : Z) : Z :=
  byte_at data (2 * i) + 256 * byte_at data (2 * i + 1).

(** [endianSwap]: the two bytes of [val] are stored high byte first and
    read back as an [unsigned short] of the little-endian host. *)
Definition endianSwap (val : Z) : Z :=
  let x := val in
  let buf1 := Z.land x 255 in
  let buf0 := Z.land (Z.shiftr x 8) 255 in
  Z.lor buf0 (Z.shiftl buf1 8).

(** [int offsets[2][2]] and [int bitShifts[2]] of [decode12BitToFloat]. *)
Definition offsets12 : list (list Z) := [[0; 1]; [1; 2]].
Definition bitShifts12 : list Z := [4; 0].

(** [int offsets[4][3]] and [int bitShifts[4]] of [decode14BitToFloat]. *)
Definition offsets14 : list (list Z) := [[0; 0; 1]; [1; 2; 3]; [3; 4; 5]; [5; 5; 6]].
Definition bitShifts14 : list Z := [2; 4; 6; 0].

Definition table2 (t : list (list Z)) (i j : Z) : Z := vec_at 0 (vec_at [] t i) j.

(** The body of the inner loop of [decode12BitToFloat]: the value stored
    at [image[y * width + x]]. *)
Definition decode12_sample (data : list byte) (width : Z) (swapEndian : bool)
    (y x : Z) : F :=
  let n := y * width + x in
  let n2 := Z.rem n 2 in
  let addr3 := Z.quot n 2 * 3 in
  let odd := Z.rem addr3 2 in
  let bit_shift := vec_at 0 bitShifts12 n2 in
  let offset0 := table2 offsets12 n2 0 in
  let offset1 := table2 offsets12 n2 1 in
  let buf :=
    if swapEndian then
      if negb (odd =? 0) then
        [byte_at data (addr3 - 1); byte_at data (addr3 + 2); byte_at data (addr3 + 1)]
      else
        [byte_at data (addr3 + 1); byte_at data (addr3 + 0); byte_at data (addr3 + 3)]
    else
      [byte_at data (addr3 + 0); byte_at data (addr3 + 1); byte_at data (addr3 + 2)] in
  let b0 := Z.land (vec_at 0 buf offset0) 255 in
  let b1 := Z.land (vec_at 0 buf offset1) 255 in
  let val := Z.lor (Z.shiftl b0 8) b1 in
  let val := Z.land 4095 (Z.shiftr val bit_shift) in
  of_int val.

Definition decode12BitToFloat (image : list F) (data : list byte)
    (width height : Z) (swapEndian : bool) : list F :=
  let image := vec_resize (of_int 0) (width * height) image in
  parallel_for 0 height (fun y image =>
    for_loop 0 width (fun x image =>
      vec_set image (y * width + x) (decode12_sample data width swapEndian y x))
      image) image.

Definition decode14_sample (data : list byte) (width : Z) (swapEndian : bool)
    (y x : Z) : F :=
  let n := y * width + x in
  let n4 := Z.rem n 4 in
  let addr7 := Z.quot n 4 * 7 in
  let odd := Z.rem addr7 2 in
  let offset0 := table2 offsets14 n4 0 in
  let offset1 := table2 offsets14 n4 1 in
  let offset2 := table2 offsets14 n4 2 in
  let bit_shift := vec_at 0 bitShifts14 n4 in
  let buf :=
    if swapEndian then
      if negb (odd =? 0) then
        [byte_at data (addr7 - 1); byte_at data (addr7 + 2); byte_at data (addr7 + 1);
         byte_at data (addr7 + 4); byte_at data (addr7 + 3); byte_at data (addr7 + 6);
         byte_at data (addr7 + 5)]
      else
        [byte_at data (addr7 + 1); byte_at data (addr7 + 0); byte_at data (addr7 + 3);
         byte_at data (addr7 + 2); byte_at data (addr7 + 5); byte_at data (addr7 + 4);
         byte_at data (addr7 + 7)]
    else
      (fun k => byte_at data (addr7 + k)) <$> seqZ 0 7 in
  let b0 := Z.land (vec_at 0 buf offset0) 255 in
  let b1 := Z.land (vec_at 0 buf offset1) 255 in
  let b2 := Z.land (vec_at 0 buf offset2) 255 in
  let val := Z.lor (Z.lor (Z.shiftl b0 16) (Z.shiftl b1 8)) b2 in
  let val := Z.land 16383 (Z.shiftr val bit_shift) in
  of_int val.

Definition decode14BitToFloat (image : list F) (data : list byte)
    (width height : Z) (swapEndian : bool) : list F :=
  let image := vec_resize (of_int 0) (width * height) image in
  parallel_for 0 height (fun y image =>
    for_loop 0 width (fun x image =>
      vec_set image (y * width + x) (decode14_sample data width swapEndian y x))
      image) image.

Definition decode16_sample (data : list byte) (width : Z) (swapEndian : bool)
    (y x : Z) : F :=
  let val := ushort_at data (y * width + x) in
  let val := if swapEndian then endianSwap val else val in
  of_int val.

Definition decode16BitToFloat (image : list F) (data : list byte)
    (width height : Z) (swapEndian : bool) : list F :=
  let image := vec_resize (of_int 0) (width * height) image in
  parallel_for 0 height (fun y image =>
    for_loop 0 width (fun x image =>
      vec_set image (y * width + x) (decode16_sample data width swapEndian y x))
      image) image.

End BitUnpacker.

(* ================================================================== *)
(** * Colours, vectors and matrices *)
(* ================================================================== *)

(** [Color4]: the channels [r], [g], [b], [a] of a pixel. *)
Record Color4 (F : Type) := mkColor4 { red : F; green : F; blue : F; alpha : F }.
Arguments mkColor4 {F} _ _ _ _.
Arguments red {F} _.
Arguments green {F} _.
Arguments blue {F} _.
Arguments alpha {F} _.

(** [Eigen::Vector3f] and [Eigen::Matrix3f] (three rows). *)
Definition Vector3f (F : Type) : Type := F * F * F.
Definition Matrix3f (F : Type) : Type := Vector3f F * Vector3f F * Vector3f F.

Section ColourOps.
Context {F : Type} {FA : FloatArith F}.

(** Modelled from the spec: Color.h is not under src; the arithmetic of
    [Color4] acts on each channel, a scalar operand acts on all four. *)
Definition color_map (f : F -> F) (c : Color4 F) : Color4 F :=
  mkColor4 (f (red c)) (f (green c)) (f (blue c)) (f (alpha c)).

Definition color_zip (f : F -> F -> F) (c d : Color4 F) : Color4 F :=
  mkColor4 (f (red c) (red d)) (f (green c) (green d))
           (f (blue c) (blue d)) (f (alpha c) (alpha d)).

(** [c[k]]. *)
Definition channel (c : Color4 F) (k : Z) : F :=
  if k =? 0 then red c else if k =? 1 then green c
  else if k =? 2 then blue c else alpha c.

(** The scalar [max] and [min] behind [.max(s)] and [.min(s)]:
    [(a < b) ? b : a] and [(b < a) ? b : a]. *)
Definition fmax (a b : F) : F := if flt a b then b else a.
Definition fmin (a b : F) : F := if flt b a then b else a.

(** Modelled from the spec: Common.h is not under src; [clamp(a, l, h)]
    limits [a] to the interval from [l] to [h]. *)
Definition clamp (a l h : F) : F :=
  if fle l a then (if fle a h then a else h) else l.

(** [v(0)], [v(1)], [v(2)], also written [v.x()], [v.y()], [v.z()]. *)
Definition vec_x (v : Vector3f F) : F := fst (fst v).
Definition vec_y (v : Vector3f F) : F := snd (fst v).
Definition vec_z (v : Vector3f F) : F := snd v.

Definition cwiseQuotient (u v : Vector3f F) : Vector3f F :=
  (fdiv (vec_x u) (vec_x v), fdiv (vec_y u) (vec_y v), fdiv (vec_z u) (vec_z v)).

Definition cwiseProduct (u v : Vector3f F) : Vector3f F :=
  (fmul (vec_x u) (vec_x v), fmul (vec_y u) (vec_y v), fmul (vec_z u) (vec_z v)).

(** [v.asDiagonal()]. *)
Definition asDiagonal (v : Vector3f F) : Matrix3f F :=
  let z := of_int 0 in
  ((vec_x v, z, z), (z, vec_y v, z), (z, z, vec_z v)).

(** A decimal literal with seven digits after the point. *)
Definition lit7 (n : Z) : F := of_ratio n 10000000.
Definition lit4 (n : Z) : F := of_ratio n 10000.

(** The reference matrices of the file. *)
Definition XYZD65TosRGB : Matrix3f F :=
  ((lit4 32406, lit4 (-15372), lit4 (-4986)),
   (lit4 (-9689), lit4 18758, lit4 415),
   (lit4 557, lit4 (-2040), lit4 10570)).

Definition XYZD50ToXYZD65 : Matrix3f F :=
  ((lit7 9555766, lit7 (-230393), lit7 631636),
   (lit7 (-282895), lit7 10099416, lit7 210077),
   (lit7 122982, lit7 (-204830), lit7 13299098)).

(** The last entry is written without the [f] suffix in the source. *)
Definition XYZD50TosRGB : Matrix3f F :=
  ((lit7 32404542, lit7 (-15371385), lit7 (-4985314)),
   (lit7 (-9692660), lit7 18760108, lit7 415560),
   (lit7 556434, lit7 (-2040259), lit7 10572252)).

End ColourOps.

(* ================================================================== *)
(** * The image container *)
(* ================================================================== *)

(** Modelled from the spec: HDRImage.h is not under src.  The canonical
    image is a grid of [width] by [height] pixels of four floats, origin
    top left, stored row after row: pixel [(x, y)] is element
    [x + y * width]. *)
Record HDRImage (F : Type) := mkImage {
  width : Z;
  height : Z;
  pixels : list (Color4 F)
}.
Arguments mkImage {F} _ _ _.
Arguments width {F} _.
Arguments height {F} _.
Arguments pixels {F} _.

Section Image.
Context {F : Type} {FA : FloatArith F}.

Definition black : Color4 F := mkColor4 (of_int 0) (of_int 0) (of_int 0) (of_int 0).

(** The image whose pixel [(x, y)] is [f x y]. *)
Definition tabulate (w h : Z) (f : Z -> Z -> Color4 F) : HDRImage F :=
  mkImage w h ((fun i => f (i `mod` w) (i `div` w)) <$> seqZ 0 (Z.max 0 w * Z.max 0 h)).

(** [img(x, y)] read and written. *)
Definition get_pixel (img : HDRImage F) (x y : Z) : Color4 F :=
  vec_at black (pixels img) (x + y * width img).

Definition set_pixel (img : HDRImage F) (x y : Z) (c : Color4 F) : HDRImage F :=
  mkImage (width img) (height img) (vec_set (pixels img) (x + y * width img) c).

(** An image holds one pixel per cell. *)
Definition well_formed (img : HDRImage F) : Prop :=
  0 <= width img /\ 0 <= height img /\
  length (pixels img) = Z.to_nat (width img * height img).

(** [resize(w, h)]: a grid of the requested size.  The storage is kept
    when the number of cells does not change; the content is unspecified
    otherwise, for which the old cells padded with [black] stand. *)
Definition resize_image (w h : Z) (img : HDRImage F) : HDRImage F :=
  mkImage w h (vec_resize black (w * h) (pixels img)).

(** [HDRImage(w, h)]; [black] stands for the unspecified content. *)
Definition new_image (w h : Z) : HDRImage F := tabulate w h (fun _ _ => black).

Definition empty_image : HDRImage F := mkImage 0 0 [].

(** Modelled from the spec: the geometric operations of the container,
    each returning a new image.  [block(i, j, p, q)] is the rectangle of
    [p] columns and [q] rows whose top left pixel is [(i, j)]. *)
Definition block (img : HDRImage F) (startRow startCol nRows nCols : Z) : HDRImage F :=
  tabulate nRows nCols (fun x y => get_pixel img (startRow + x) (startCol + y)).

Definition flippedHorizontal (img : HDRImage F) : HDRImage F :=
  tabulate (width img) (height img)
    (fun x y => get_pixel img (width img - 1 - x) y).

Definition flippedVertical (img : HDRImage F) : HDRImage F :=
  tabulate (width img) (height img)
    (fun x y => get_pixel img x (height img - 1 - y)).

Definition rotated90CW (img : HDRImage F) : HDRImage F :=
  tabulate (height img) (width img)
    (fun x y => get_pixel img y (height img - 1 - x)).

Definition rotated90CCW (img : HDRImage F) : HDRImage F :=
  tabulate (height img) (width img)
    (fun x y => get_pixel img (width img - 1 - y) x).

(** The loop nest shared by the pixel passes of the file: for every row
    [y] below [h], in parallel, and every [x] below [w], the statement
    [img(x, y) = g(x, y, img(x, y))]. *)
Definition sweep_pixels (w h : Z) (g : Z -> Z -> Color4 F -> Color4 F)
    (img : HDRImage F) : HDRImage F :=
  parallel_for 0 h (fun y img =>
    for_loop 0 w (fun x img =>
      set_pixel img x y (g x y (get_pixel img x y))) img) img.

(** The same with the bounds [img.width()] and [img.height()]. *)
Definition update_pixels (g : Z -> Z -> Color4 F -> Color4 F) (img : HDRImage F)
    : HDRImage F :=
  sweep_pixels (width img) (height img) g img.

End Image.

(* ================================================================== *)
(** * Library code *)
(* ================================================================== *)

(** Functions of the collaborators that the file calls. *)
Class Externals (F : Type) := {
  (* Colorspace.h *)
  SRGBToLinear : Color4 F -> Color4 F;
  LinearToSRGB : Color4 F -> Color4 F;
  (* Color.h, [c.pow(e)] *)
  color_pow : Color4 F -> Color4 F -> Color4 F;
  (* Eigen: matrix product, matrix times vector, [m.inverse()] *)
  mat_mul : Matrix3f F -> Matrix3f F -> Matrix3f F;
  mat_vec : Matrix3f F -> Vector3f F -> Vector3f F;
  mat_inverse : Matrix3f F -> Matrix3f F;
  (* HDRImage::demosaicAHD, in place *)
  demosaicAHD : HDRImage F -> Z * Z -> Matrix3f F -> HDRImage F;
  (* DitherMatrix256.h, 256 * 256 entries *)
  dither_matrix256 : Z -> Z;
  (* OpenEXR's half: a float stored into a channel of Imf::Rgba, read back *)
  to_half : F -> F;
  (* the C++ standard library: what() of the std::out_of_range of
     vector::at and of the std::length_error of vector::resize *)
  out_of_range_what : string;
  length_error_what : string
}.

(** ** The error monad of the [try] blocks *)

(** [p != NULL] for a result that is a pointer. *)
Definition is_Some_bool {A : Type} (o : option A) : bool :=
  match o with Some _ => true | None => false end.

Definition exc (A : Type) : Type := string + A.
Definition throw {A : Type} (what : string) : exc A := inl what.
Definition ret {A : Type} (a : A) : exc A := inr a.
Definition bind {A B : Type} (m : exc A) (k : A -> exc B) : exc B :=
  match m with inl e => inl e | inr a => k a end.

Notation "'try!' x <- m ; k" := (bind m (fun x => k))
  (at level 10, x name, m at level 100, k at level 200).

(* ================================================================== *)
(** * Strings of the dispatcher *)
(* ================================================================== *)

Definition tab : string := String "009"%char EmptyString.
Definition newline : string := String "010"%char EmptyString.
Definition dquote : string := String "034"%char EmptyString.

(** [::tolower] on one character and on a string. *)
Definition tolower (c : ascii) : ascii :=
  let n := nat_of_ascii c in
  if (65 <=? n)%nat && (n <=? 90)%nat then ascii_of_nat (n + 32) else c.

Fixpoint tolower_string (s : string) : string :=
  match s with
  | EmptyString => EmptyString
  | String c s' => String (tolower c) (tolower_string s')
  end.

Fixpoint after_last_dot (s : string) : option string :=
  match s with
  | EmptyString => None
  | String c s' =>
      match after_last_dot s' with
      | Some e => Some e
      | None => if Ascii.eqb c "."%char then Some s' else None
      end
  end.

(** Modelled from the spec: Common.h is not under src; [getExtension] is
    the text after the last dot of the file name, empty without a dot. *)
Definition getExtension (filename : string) : string :=
  default EmptyString (after_last_dot filename).

(** [filename.size() > 5 && filename.substr(filename.size() - 4) == suffix]
    for a suffix of four characters. *)
Definition has_suffix4 (filename suffix : string) : bool :=
  (5 <? String.length filename)%nat &&
  String.eqb (substring (String.length filename - 4) 4 filename) suffix.

(* ================================================================== *)
(** * Channel normalisation: copyPixelsFromArray *)
(* ================================================================== *)

Section CopyPixels.
Context {F : Type} {FA : FloatArith F} {EX : Externals F}.

(** [turboRGBf[256][3]], each entry in units of 10^-5. *)
Definition turboRGBf_table : list (Z * Z * Z) :=
 [
  (18995, 7176, 23217); (19483, 8339, 26149); (19956, 9498, 29024);
  (20415, 10652, 31844); (20860, 11802, 34607); (21291, 12947, 37314);
  (21708, 14087, 39964); (22111, 15223, 42558); (22500, 16354, 45096);
  (22875, 17481, 47578); (23236, 18603, 50004); (23582, 19720, 52373);
  (23915, 20833, 54686); (24234, 21941, 56942); (24539, 23044, 59142);
  (24830, 24143, 61286); (25107, 25237, 63374); (25369, 26327, 65406);
  (25618, 27412, 67381); (25853, 28492, 69300); (26074, 29568, 71162);
  (26280, 30639, 72968); (26473, 31706, 74718); (26652, 32768, 76412);
  (26816, 33825, 78050); (26967, 34878, 79631); (27103, 35926, 81156);
  (27226, 36970, 82624); (27334, 38008, 84037); (27429, 39043, 85393);
  (27509, 40072, 86692); (27576, 41097, 87936); (27628, 42118, 89123);
  (27667, 43134, 90254); (27691, 44145, 91328); (27701, 45152, 92347);
  (27698, 46153, 93309); (27680, 47151, 94214); (27648, 48144, 95064);
  (27603, 49132, 95857); (27543, 50115, 96594); (27469, 51094, 97275);
  (27381, 52069, 97899); (27273, 53040, 98461); (27106, 54015, 98930);
  (26878, 54995, 99303); (26592, 55979, 99583); (26252, 56967, 99773);
  (25862, 57958, 99876); (25425, 58950, 99896); (24946, 59943, 99835);
  (24427, 60937, 99697); (23874, 61931, 99485); (23288, 62923, 99202);
  (22676, 63913, 98851); (22039, 64901, 98436); (21382, 65886, 97959);
  (20708, 66866, 97423); (20021, 67842, 96833); (19326, 68812, 96190);
  (18625, 69775, 95498); (17923, 70732, 94761); (17223, 71680, 93981);
  (16529, 72620, 93161); (15844, 73551, 92305); (15173, 74472, 91416);
  (14519, 75381, 90496); (13886, 76279, 89550); (13278, 77165, 88580);
  (12698, 78037, 87590); (12151, 78896, 86581); (11639, 79740, 85559);
  (11167, 80569, 84525); (10738, 81381, 83484); (10357, 82177, 82437);
  (10026, 82955, 81389); (9750, 83714, 80342); (9532, 84455, 79299);
  (9377, 85175, 78264); (9287, 85875, 77240); (9267, 86554, 76230); (9320, 87211, 75237);
  (9451, 87844, 74265); (9662, 88454, 73316); (9958, 89040, 72393);
  (10342, 89600, 71500); (10815, 90142, 70599); (11374, 90673, 69651);
  (12014, 91193, 68660); (12733, 91701, 67627); (13526, 92197, 66556);
  (14391, 92680, 65448); (15323, 93151, 64308); (16319, 93609, 63137);
  (17377, 94053, 61938); (18491, 94484, 60713); (19659, 94901, 59466);
  (20877, 95304, 58199); (22142, 95692, 56914); (23449, 96065, 55614);
  (24797, 96423, 54303); (26180, 96765, 52981); (27597, 97092, 51653);
  (29042, 97403, 50321); (30513, 97697, 48987); (32006, 97974, 47654);
  (33517, 98234, 46325); (35043, 98477, 45002); (36581, 98702, 43688);
  (38127, 98909, 42386); (39678, 99098, 41098); (41229, 99268, 39826);
  (42778, 99419, 38575); (44321, 99551, 37345); (45854, 99663, 36140);
  (47375, 99755, 34963); (48879, 99828, 33816); (50362, 99879, 32701);
  (51822, 99910, 31622); (53255, 99919, 30581); (54658, 99907, 29581);
  (56026, 99873, 28623); (57357, 99817, 27712); (58646, 99739, 26849);
  (59891, 99638, 26038); (61088, 99514, 25280); (62233, 99366, 24579);
  (63323, 99195, 23937); (64362, 98999, 23356); (65394, 98775, 22835);
  (66428, 98524, 22370); (67462, 98246, 21960); (68494, 97941, 21602);
  (69525, 97610, 21294); (70553, 97255, 21032); (71577, 96875, 20815);
  (72596, 96470, 20640); (73610, 96043, 20504); (74617, 95593, 20406);
  (75617, 95121, 20343); (76608, 94627, 20311); (77591, 94113, 20310);
  (78563, 93579, 20336); (79524, 93025, 20386); (80473, 92452, 20459);
  (81410, 91861, 20552); (82333, 91253, 20663); (83241, 90627, 20788);
  (84133, 89986, 20926); (85010, 89328, 21074); (85868, 88655, 21230);
  (86709, 87968, 21391); (87530, 87267, 21555); (88331, 86553, 21719);
  (89112, 85826, 21880); (89870, 85087, 22038); (90605, 84337, 22188);
  (91317, 83576, 22328); (92004, 82806, 22456); (92666, 82025, 22570);
  (93301, 81236, 22667); (93909, 80439, 22744); (94489, 79634, 22800);
  (95039, 78823, 22831); (95560, 78005, 22836); (96049, 77181, 22811);
  (96507, 76352, 22754); (96931, 75519, 22663); (97323, 74682, 22536);
  (97679, 73842, 22369); (98000, 73000, 22161); (98289, 72140, 21918);
  (98549, 71250, 21650); (98781, 70330, 21358); (98986, 69382, 21043);
  (99163, 68408, 20706); (99314, 67408, 20348); (99438, 66386, 19971);
  (99535, 65341, 19577); (99607, 64277, 19165); (99654, 63193, 18738);
  (99675, 62093, 18297); (99672, 60977, 17842); (99644, 59846, 17376);
  (99593, 58703, 16899); (99517, 57549, 16412); (99419, 56386, 15918);
  (99297, 55214, 15417); (99153, 54036, 14910); (98987, 52854, 14398);
  (98799, 51667, 13883); (98590, 50479, 13367); (98360, 49291, 12849);
  (98108, 48104, 12332); (97837, 46920, 11817); (97545, 45740, 11305);
  (97234, 44565, 10797); (96904, 43399, 10294); (96555, 42241, 9798);
  (96187, 41093, 9310); (95801, 39958, 8831); (95398, 38836, 8362); (94977, 37729, 7905);
  (94538, 36638, 7461); (94084, 35566, 7031); (93612, 34513, 6616); (93125, 33482, 6218);
  (92623, 32473, 5837); (92105, 31489, 5475); (91572, 30530, 5134); (91024, 29599, 4814);
  (90463, 28696, 4516); (89888, 27824, 4243); (89298, 26981, 3993); (88691, 26152, 3753);
  (88066, 25334, 3521); (87422, 24526, 3297); (86760, 23730, 3082); (86079, 22945, 2875);
  (85380, 22170, 2677); (84662, 21407, 2487); (83926, 20654, 2305); (83172, 19912, 2131);
  (82399, 19182, 1966); (81608, 18462, 1809); (80799, 17753, 1660); (79971, 17055, 1520);
  (79125, 16368, 1387); (78260, 15693, 1264); (77377, 15028, 1148); (76476, 14374, 1041);
  (75556, 13731, 942); (74617, 13098, 851); (73661, 12477, 769); (72686, 11867, 695);
  (71692, 11268, 629); (70680, 10680, 571); (69650, 10102, 522); (68602, 9536, 481);
  (67535, 8980, 449); (66449, 8436, 424); (65345, 7902, 408); (64223, 7380, 401);
  (63082, 6868, 401); (61923, 6367, 410); (60746, 5878, 427); (59550, 5399, 453);
  (58336, 4931, 486); (57103, 4474, 529); (55852, 4028, 579); (54583, 3593, 638);
  (53295, 3169, 705); (51989, 2756, 780); (50664, 2354, 863); (49321, 1963, 955);
  (47960, 1583, 1055)
 ].

Definition turboRGBf (i : Z) : F * F * F :=
  let '(t0, t1, t2) := vec_at (0, 0, 0) turboRGBf_table i in
  (of_ratio t0 100000, of_ratio t1 100000, of_ratio t2 100000).

(** The first pair of loops of the one-channel branch: the least and the
    greatest positive sample. *)
Definition min_max_positive (data : list F) (w h : Z) : F * F :=
  for_loop 0 h (fun y mm =>
    for_loop 0 w (fun x mm =>
      let '(minVal, maxVal) := mm in
      let p := vec_at (of_int 0) data (x + y * w) in
      if fle p (of_int 0) then mm
      else
        let minVal := if flt p minVal then p else minVal in
        let maxVal := if flt maxVal p then p else maxVal in
        (minVal, maxVal)) mm) (FLT_MAX, fneg FLT_MAX).

(** In the one-channel branch the conversion [(int)std::round(q)] and the
    read of [turboRGBf] at the result are undefined in the source when [q]
    is NaN or an infinity (the positive samples are all equal, or a
    product overflows) or rounds to an index outside the table; there the
    program may read outside the table or stop, and the colour the model
    stores stands for nothing.  [one_channel_defined] below says that
    every read of a run is defined. *)
Definition copyPixelsFromArray (img : HDRImage F) (data : list F) (w h n : Z)
    (convertToLinear flip : bool) : exc (HDRImage F) :=
  if negb (n =? 1) && negb (n =? 3) && negb (n =? 4) then
    throw "Only 1- 3- and 4-channel images are supported."
  else if n =? 1 then
    let '(minVal, maxVal) := min_max_positive data w h in
    let delta := fsub maxVal minVal in
    ret (parallel_for 0 h (fun y img =>
      for_loop 0 w (fun x img =>
        let p := vec_at (of_int 0) data (x + y * w) in
        if fle p (of_int 0) then
          set_pixel img x (if flip then h - y - 1 else y)
            (mkColor4 (of_int 0) (of_int 0) (of_int 0) (of_int 0))
        else
          let '(t0, t1, t2) :=
            turboRGBf (fround (fdiv (fmul (of_int 255) (fsub p minVal)) delta)) in
          let c := mkColor4 t2 t1 t0 (of_int 1) in
          set_pixel img x (if flip then h - y - 1 else y) (SRGBToLinear c)) img) img)
  else
    ret (parallel_for 0 h (fun y img =>
      for_loop 0 w (fun x img =>
        let c := mkColor4 (vec_at (of_int 0) data (n * (x + y * w) + 0))
                          (vec_at (of_int 0) data (n * (x + y * w) + 1))
                          (vec_at (of_int 0) data (n * (x + y * w) + 2))
                          (if n =? 3 then of_int 1
                           else vec_at (of_int 0) data (4 * (x + y * w) + 3)) in
        set_pixel img x (if flip then h - y - 1 else y)
          (if convertToLinear then SRGBToLinear c else c)) img) img).

End CopyPixels.

(* ================================================================== *)
(** * Raw capture metadata, colour-matrix builder and raw developer *)
(* ================================================================== *)

(** [tinydng::DNGImage], the fields the loader reads (the CFA and tile
    fields are only printed). *)
Module tinydng.
Record DNGImage (F : Type) := mkDNGImage {
  width : Z;
  height : Z;
  bits_per_sample : Z;
  samples_per_pixel : Z;
  black_level : list Z;
  white_level : list Z;
  active_area : list Z;
  orientation : Z;
  data : list byte;
  color_matrix1 : Matrix3f F;
  color_matrix2 : Matrix3f F;
  forward_matrix1 : Matrix3f F;
  forward_matrix2 : Matrix3f F;
  camera_calibration1 : Matrix3f F;
  camera_calibration2 : Matrix3f F;
  analog_balance : Vector3f F;
  as_shot_neutral : Vector3f F
}.
Arguments mkDNGImage {F}.
Arguments width {F} _.
Arguments height {F} _.
Arguments bits_per_sample {F} _.
Arguments samples_per_pixel {F} _.
Arguments black_level {F} _.
Arguments white_level {F} _.
Arguments active_area {F} _.
Arguments orientation {F} _.
Arguments data {F} _.
Arguments color_matrix1 {F} _.
Arguments color_matrix2 {F} _.
Arguments forward_matrix1 {F} _.
Arguments forward_matrix2 {F} _.
Arguments camera_calibration1 {F} _.
Arguments camera_calibration2 {F} _.
Arguments analog_balance {F} _.
Arguments as_shot_neutral {F} _.
End tinydng.

Section RawDeveloper.
Context {F : Type} {FA : FloatArith F} {EX : Externals F}.

Definition computeCameraToXYZD50 (param : tinydng.DNGImage F) : Matrix3f F :=
  if false then
    let FM := tinydng.forward_matrix2 param in
    let CC := tinydng.camera_calibration2 param in
    let AB := asDiagonal (tinydng.analog_balance param) in
    let CameraNeutral := tinydng.as_shot_neutral param in
    let ReferenceNeutral := mat_vec (mat_inverse (mat_mul AB CC)) CameraNeutral in
    let D := mat_inverse (asDiagonal ReferenceNeutral) in
    let CameraToXYZ := mat_mul (mat_mul FM D) (mat_inverse (mat_mul AB CC)) in
    CameraToXYZ
  else
    let CM := tinydng.color_matrix2 param in
    let CameraToXYZ := mat_inverse CM in
    CameraToXYZ.

(** The body of the first pass of [develop]: the pixel stored at
    [(x, y)] of an image [developed_width] wide. *)
Definition develop_mosaic_pixel (raw : list F) (developed_width blackLevel : Z)
    (invScale : F) (wb : Vector3f F) (x y : Z) : Color4 F :=
  let v := clamp (fmul (fsub (vec_at (of_int 0) raw (y * developed_width + x))
                             (of_int blackLevel)) invScale)
                 (of_int 0) (of_int 1) in
  let rgb := (v, v, v) in
  let rgb := cwiseQuotient rgb wb in
  mkColor4 (vec_x rgb) (vec_y rgb) (vec_z rgb) (of_int 1).

(** The body of the second pass: the colour that replaces [old]. *)
Definition develop_correct_pixel (CameraTosRGB : Matrix3f F) (wb : Vector3f F)
    (old : Color4 F) : Color4 F :=
  let rgb := (red old, green old, blue old) in
  let rgb := cwiseProduct rgb wb in
  let sRGB := mat_vec CameraTosRGB rgb in
  mkColor4 (vec_x sRGB) (vec_y sRGB) (vec_z sRGB) (of_int 1).

Definition develop (raw : list F) (param1 param2 : tinydng.DNGImage F) : HDRImage F :=
  let width_ := tinydng.width param1 in
  let height_ := tinydng.height param1 in
  let blackLevel := vec_at 0 (tinydng.black_level param1) 0 in
  let whiteLevel := vec_at 0 (tinydng.white_level param1) 0 in
  let redOffset := (Z.rem (vec_at 0 (tinydng.active_area param1) 1) 2,
                    Z.rem (vec_at 0 (tinydng.active_area param1) 0) 2) in
  let developed := new_image width_ height_ in
  let CameraToXYZD50 := computeCameraToXYZD50 param2 in
  let CameraTosRGB := mat_mul XYZD50TosRGB CameraToXYZD50 in
  let wb := tinydng.as_shot_neutral param2 in
  let invScale := fdiv (of_int 1) (of_int (whiteLevel - blackLevel)) in
  let developed :=
    update_pixels (fun x y _ =>
      develop_mosaic_pixel raw (width developed) blackLevel invScale wb x y) developed in
  let developed := demosaicAHD developed redOffset (mat_mul XYZD50ToXYZD65 CameraToXYZD50) in
  let developed :=
    update_pixels (fun x y old => develop_correct_pixel CameraTosRGB wb old) developed in
  developed.

End RawDeveloper.

(* ================================================================== *)
(** * What the codecs find in a file *)
(* ================================================================== *)

(** [stbi_loadf(filename, &w, &h, &n, 4)]: the values left in [w], [h] and
    [n] and the pixel data, four floats per pixel, or [NULL]. *)
Record StbImage (F : Type) := mkStbImage {
  stb_w : Z; stb_h : Z; stb_n : Z;
  stb_data : option (list F)
}.
Arguments mkStbImage {F}.
Arguments stb_w {F} _.
Arguments stb_h {F} _.
Arguments stb_n {F} _.
Arguments stb_data {F} _.

(** [stbi__load_main(&s, &w, &h, &n, 1, &ri, 8)]: the values left in [w],
    [h], [n] and [ri.bits_per_channel], and the samples behind the result
    read as [uint16_t]. *)
Record StbMain := mkStbMain {
  main_w : Z; main_h : Z; main_n : Z;
  bits_per_channel : Z;
  data16 : list Z
}.

(** [loadPFMImage]: an exception, [NULL], or the data with [w], [h], [n]. *)
Inductive PfmResult (F : Type) :=
  | PfmThrows (what : string)
  | PfmNull
  | PfmLoaded (w h n : Z) (float_data : list F).
Arguments PfmThrows {F}.
Arguments PfmNull {F}.
Arguments PfmLoaded {F}.

(** [NpyArray]: the result of [LoadNPY] ([None] is the [NULL] of success),
    [Shape()], [ValueType()] and [Data()]. *)
Inductive NpyType := NpyFloat | NpyUInt8 | NpyOther.

#[export] Instance NpyType_eq_dec : EqDecision NpyType.
Proof. solve_decision. Defined.

Record NpyArray (F : Type) := mkNpyArray {
  LoadNPY : option string;
  Shape : list Z;
  ValueType : NpyType;
  Data : list F
}.
Arguments mkNpyArray {F}.
Arguments LoadNPY {F} _.
Arguments Shape {F} _.
Arguments ValueType {F} _.
Arguments Data {F} _.

(** [Imf::RgbaInputFile]: the data window and the pixels that [readPixels]
    stores, row after row, or the exception it throws. *)
Record ExrFile (F : Type) := mkExrFile {
  dw_min_x : Z; dw_min_y : Z; dw_max_x : Z; dw_max_y : Z;
  readPixels : exc (list (Color4 F))
}.
Arguments mkExrFile {F}.
Arguments dw_min_x {F} _.
Arguments dw_min_y {F} _.
Arguments dw_max_x {F} _.
Arguments dw_max_y {F} _.
Arguments readPixels {F} _.

(** A file as the codecs see it. *)
Record File (F : Type) := mkFile {
  filename : string;
  isSTBImage : bool;
  stbi_loadf : StbImage F;
  stbi_failure_reason : string;
  stbi_load_main : StbMain;
  stbi_is_hdr : bool;
  isPFMImage : bool;
  loadPFMImage : PfmResult F;
  npy : NpyArray F;
  isOpenExrFile : bool;
  RgbaInputFile : exc (ExrFile F);
  LoadDNG : exc (list (tinydng.DNGImage F))
}.
Arguments mkFile {F}.
Arguments filename {F} _.
Arguments isSTBImage {F} _.
Arguments stbi_loadf {F} _.
Arguments stbi_failure_reason {F} _.
Arguments stbi_load_main {F} _.
Arguments stbi_is_hdr {F} _.
Arguments isPFMImage {F} _.
Arguments loadPFMImage {F} _.
Arguments npy {F} _.
Arguments isOpenExrFile {F} _.
Arguments RgbaInputFile {F} _.
Arguments LoadDNG {F} _.

(** How a call of [load] ends: the value returned, or an exception that
    leaves the function. *)
Inductive Outcome := Returned (b : bool) | Thrown (what : string).

(** The result of [load]: the outcome, the image afterwards and the
    messages sent to [console->error] (debug messages carry timings and are
    left out). *)
Record LoadResult (F : Type) := mkLoadResult {
  outcome : Outcome;
  image : HDRImage F;
  console_error : list string
}.
Arguments mkLoadResult {F}.
Arguments outcome {F} _.
Arguments image {F} _.
Arguments console_error {F} _.

(** A block of the cascade either leaves [load] or falls through to the
    next block with the image and the error text so far. *)
Inductive Step (F : Type) :=
  | Done (r : LoadResult F)
  | Next (this : HDRImage F) (errors : string).
Arguments Done {F}.
Arguments Next {F}.

(* ================================================================== *)
(** * HDRImage::load *)
(* ================================================================== *)

Section Load.
Context {F : Type} {FA : FloatArith F} {EX : Externals F}.

(** The loop of the depth-PNG branch over [data16], [w * h] scalars. *)
Definition depth_scalars (data16 : list Z) (w h : Z) : list F :=
  for_loop 0 (w * h) (fun i data =>
    let data := vec_set data i (fdiv (of_int (vec_at 0 data16 i)) (of_int 1000)) in
    if flt (of_int 5) (vec_at (of_int 0) data i)
    then vec_set data i (of_int 0)
    else data)
    (vec_resize (of_int 0) (w * h) []).

(** The end of the stb block: [if (float_data) ... else ...]. *)
Definition load_stb_float (f : File F) (this : HDRImage F) (errors : string)
    (w h : Z) : Step F :=
  match stb_data (stbi_loadf f) with
  | Some float_data =>
      let this := resize_image w h this in
      let convertToLinear := negb (stbi_is_hdr f) in
      match copyPixelsFromArray this float_data w h 4 convertToLinear false with
      | inr this => Done (mkLoadResult (Returned true) this [])
      | inl what => Done (mkLoadResult (Thrown what) this [])
      end
  | None =>
      Next this (errors +:+ tab +:+ stbi_failure_reason f +:+ newline)
  end.

(** [if (isSTBImage(filename)) { ... }]. *)
Definition load_stb (f : File F) (this : HDRImage F) (errors : string) : Step F :=
  if isSTBImage f then
    let w := stb_w (stbi_loadf f) in
    let h := stb_h (stbi_loadf f) in
    let n := stb_n (stbi_loadf f) in
    if (n =? 1) && has_suffix4 (filename f) ".png" then
      let w := main_w (stbi_load_main f) in
      let h := main_h (stbi_load_main f) in
      let n := main_n (stbi_load_main f) in
      if bits_per_channel (stbi_load_main f) =? 16 then
        let this := resize_image w h this in
        let data := depth_scalars (data16 (stbi_load_main f)) w h in
        match copyPixelsFromArray this data w h n false true with
        | inr this => Done (mkLoadResult (Returned true) this [])
        | inl what => Done (mkLoadResult (Thrown what) this [])
        end
      else load_stb_float f this errors w h
    else load_stb_float f this errors w h
  else Next this errors.

(** The [try] block of the PFM attempt; the value is the image at
    [return true]. *)
Definition try_pfm (f : File F) (this : HDRImage F) : exc (HDRImage F) :=
  match loadPFMImage f with
  | PfmThrows what => throw what
  | PfmNull => throw "Could not load PFM image."
  | PfmLoaded w h n float_data =>
      if (n =? 3) || (n =? 1) then
        let this := resize_image w h this in
        copyPixelsFromArray this float_data w h n false true
      else throw "Only 3-channel or 1-channel PFMs are currently supported."
  end.

Definition load_pfm (f : File F) (this : HDRImage F) (errors : string) : Step F :=
  if isPFMImage f then
    match try_pfm f this with
    | inr this => Done (mkLoadResult (Returned true) this [])
    | inl what =>
        let this := resize_image 0 0 this in
        Next this (errors +:+ tab +:+ what +:+ newline)
    end
  else Next this errors.

(** The [try] block of the NPY attempt. *)
Definition try_npy (f : File F) (this : HDRImage F) : exc (HDRImage F) :=
  let arr := npy f in
  if is_Some_bool (LoadNPY arr) then throw "Could not load NPY image."
  else if (Z.of_nat (length (Shape arr)) <? 2) || (3 <? Z.of_nat (length (Shape arr)))
  then throw "NPY not an image."
  else
    let w := vec_at 0 (Shape arr) 1 in
    let h := vec_at 0 (Shape arr) 0 in
    let n := if Z.of_nat (length (Shape arr)) =? 2 then 1 else vec_at 0 (Shape arr) 2 in
    if ((n =? 3) || (n =? 4) || (n =? 1)) && bool_decide (ValueType arr = NpyFloat) then
      let this := resize_image w h this in
      copyPixelsFromArray this (Data arr) w h n false false
    else if negb (n =? 4) || negb (bool_decide (ValueType arr = NpyUInt8)) then
      throw "Only 1- 3- 4-channel float NPYs are currently supported."
    else ret this.

Definition load_npy (f : File F) (this : HDRImage F) (errors : string) : Step F :=
  if has_suffix4 (filename f) ".npy" then
    match try_npy f this with
    | inr this => Done (mkLoadResult (Returned true) this [])
    | inl what =>
        let this := resize_image 0 0 this in
        Next this (errors +:+ tab +:+ what +:+ newline)
    end
  else Next this errors.

(** The [try] block of the OpenEXR attempt. *)
Definition try_exr (f : File F) (this : HDRImage F) : exc (HDRImage F) :=
  try! file <- RgbaInputFile f;
  let w := dw_max_x file - dw_min_x file + 1 in
  let h := dw_max_y file - dw_min_y file + 1 in
  try! pixels <- readPixels file;
  let this := resize_image w h this in
  ret (sweep_pixels w h (fun x y _ =>
         let p := vec_at black pixels (y * w + x) in
         mkColor4 (red p) (green p) (blue p) (alpha p)) this).

Definition load_exr (f : File F) (this : HDRImage F) (errors : string) : Step F :=
  if isOpenExrFile f then
    match try_exr f this with
    | inr this => Done (mkLoadResult (Returned true) this [])
    | inl what =>
        let this := resize_image 0 0 this in
        Next this (errors +:+ tab +:+ what +:+ newline)
    end
  else Next this errors.

(** ** The raw sensor container *)

Definition zero_vector : Vector3f F := (of_int 0, of_int 0, of_int 0).
Definition zero_matrix : Matrix3f F := (zero_vector, zero_vector, zero_vector).

(** Stands for the unspecified value of [images[i]] outside the vector. *)
Definition no_image : tinydng.DNGImage F :=
  tinydng.mkDNGImage 0 0 0 0 [] [] [] 0 []
    zero_matrix zero_matrix zero_matrix zero_matrix zero_matrix zero_matrix
    zero_vector zero_vector.

Definition image_at (images : list (tinydng.DNGImage F)) (i : Z) : tinydng.DNGImage F :=
  vec_at no_image images i.

(** The orientation stored in any of the images, the last one that is set. *)
Definition find_orientation (images : list (tinydng.DNGImage F)) : Z :=
  for_loop 0 (Z.of_nat (length images)) (fun i orientation =>
    if negb (tinydng.orientation (image_at images i) =? 0)
    then tinydng.orientation (image_at images i)
    else orientation) 0.

(** The index of the widest image. *)
Definition find_largest (images : list (tinydng.DNGImage F)) : Z :=
  fst (for_loop 0 (Z.of_nat (length images)) (fun i st =>
    let '(largest, largestWidth) := st in
    if largestWidth <? tinydng.width (image_at images i)
    then (i, tinydng.width (image_at images i))
    else st) (0, tinydng.width (image_at images 0))).

(** [&(image.data.at(0))]: the buffer, or the exception of [at] when the
    vector is empty. *)
Definition data_from_0 (image : tinydng.DNGImage F) : exc (list byte) :=
  match tinydng.data image with
  | [] => throw out_of_range_what
  | _ => ret (tinydng.data image)
  end.

(** [image.resize(static_cast<size_t>(width * height))], the first
    statement of the three unpackers, for a negative product: the size
    wraps to more than [max_size()] and [resize] throws
    [std::length_error].  The unpackers themselves are modelled for sizes
    that are not negative; the exception is raised here, where [load]
    calls them inside its [try] block. *)
Definition checked_resize (n : Z) : exc unit :=
  if n <? 0 then throw length_error_what else ret tt.

(** The choice of the unpacker by [bits_per_sample]. *)
Definition unpack (image : tinydng.DNGImage F) (w h spp : Z) : exc (list F) :=
  let endianSwap := false in
  let hdr : list F := [] in
  if tinydng.bits_per_sample image =? 12 then
    try! data <- data_from_0 image;
    try! resized <- checked_resize (w * (h * spp));
    ret (decode12BitToFloat hdr data w (h * spp) endianSwap)
  else if tinydng.bits_per_sample image =? 14 then
    try! data <- data_from_0 image;
    try! resized <- checked_resize (w * (h * spp));
    ret (decode14BitToFloat hdr data w (h * spp) endianSwap)
  else if tinydng.bits_per_sample image =? 16 then
    try! data <- data_from_0 image;
    try! resized <- checked_resize (w * (h * spp));
    ret (decode16BitToFloat hdr data w (h * spp) endianSwap)
  else throw ("Error loading DNG: Unsupported bits_per_sample : " +:+ pretty spp).

(** The branch [spp == 3]. *)
Definition develop_spp3 (hdr : list F) (w h : Z) (invScale : F) (this : HDRImage F)
    : HDRImage F :=
  let hdr := parallel_for 0 (Z.of_nat (length hdr)) (fun i hdr =>
               vec_set hdr i (fmul (vec_at (of_int 0) hdr i) invScale)) hdr in
  let this := resize_image w h this in
  sweep_pixels w h (fun x y _ =>
    let index := 3 * y * w + x in
    mkColor4 (fadd (fmul (vec_at (of_int 0) hdr index) invScale) (of_int 0))
             (fadd (fmul (vec_at (of_int 0) hdr index) invScale) (of_int 1))
             (fadd (fmul (vec_at (of_int 0) hdr index) invScale) (of_int 2))
             (of_int 1)) this.

(** [clamp] of Common.h at type [int]. *)
Definition clamp_int (a l h : Z) : Z :=
  if l <=? a then (if a <=? h then a else h) else l.

(** The crop to the active area. *)
Definition crop_active_area (image : tinydng.DNGImage F) (w h : Z) (this : HDRImage F)
    : HDRImage F :=
  let startRow := clamp_int (vec_at 0 (tinydng.active_area image) 1) 0 w in
  let endRow := clamp_int (vec_at 0 (tinydng.active_area image) 3) 0 w in
  let startCol := clamp_int (vec_at 0 (tinydng.active_area image) 0) 0 h in
  let endCol := clamp_int (vec_at 0 (tinydng.active_area image) 2) 0 h in
  block this startRow startCol (endRow - startRow) (endCol - startCol).

Definition ORIENTATION_TOPLEFT : Z := 1.
Definition ORIENTATION_TOPRIGHT : Z := 2.
Definition ORIENTATION_BOTRIGHT : Z := 3.
Definition ORIENTATION_BOTLEFT : Z := 4.
Definition ORIENTATION_LEFTTOP : Z := 5.
Definition ORIENTATION_RIGHTTOP : Z := 6.
Definition ORIENTATION_RIGHTBOT : Z := 7.
Definition ORIENTATION_LEFTBOT : Z := 8.

(** [switch (orientation)]. *)
Definition apply_orientation (orientation : Z) (this : HDRImage F) : HDRImage F :=
  if orientation =? ORIENTATION_TOPRIGHT then flippedHorizontal this
  else if orientation =? ORIENTATION_BOTRIGHT then flippedHorizontal (flippedVertical this)
  else if orientation =? ORIENTATION_BOTLEFT then flippedVertical this
  else if orientation =? ORIENTATION_LEFTTOP then flippedVertical (rotated90CCW this)
  else if orientation =? ORIENTATION_RIGHTTOP then rotated90CW this
  else if orientation =? ORIENTATION_RIGHTBOT then flippedVertical (rotated90CW this)
  else if orientation =? ORIENTATION_LEFTBOT then rotated90CCW this
  else this.

(** The last [try] block. *)
Definition try_dng (f : File F) (this : HDRImage F) : exc (HDRImage F) :=
  try! images <- match LoadDNG f with
                 | inl err => throw ("Failed to load DNG. " +:+ err)
                 | inr images => ret images
                 end;
  let orientation := find_orientation images in
  let imageIndex := find_largest images in
  let image := image_at images imageIndex in
  let w := tinydng.width image in
  let h := tinydng.height image in
  let spp := tinydng.samples_per_pixel image in
  try! hdr <- unpack image w h spp;
  let invScale := fdiv (of_int 1) (of_int (Z.shiftl 1 (tinydng.bits_per_sample image))) in
  try! this <- (if spp =? 3 then ret (develop_spp3 hdr w h invScale this)
                else if spp =? 1 then ret (develop hdr image (List.last images no_image))
                else throw ("Error loading DNG: Unsupported samples per pixel: "
                            +:+ pretty spp));
  let this := crop_active_area image w h this in
  ret (apply_orientation orientation this).

(** The message of the final [console->error]. *)
Definition unable_to_read (filename errors : string) : string :=
  "ERROR: Unable to read image file " +:+ dquote +:+ filename +:+ dquote
  +:+ ":" +:+ newline +:+ errors.

Definition load (f : File F) (this : HDRImage F) : LoadResult F :=
  let errors := EmptyString in
  let extension := tolower_string (getExtension (filename f)) in
  match load_stb f this errors with
  | Done r => r
  | Next this errors =>
  match load_pfm f this errors with
  | Done r => r
  | Next this errors =>
  match load_npy f this errors with
  | Done r => r
  | Next this errors =>
  match load_exr f this errors with
  | Done r => r
  | Next this errors =>
  match try_dng f this with
  | inr this => mkLoadResult (Returned true) this []
  | inl what =>
      let this := resize_image 0 0 this in
      let errors := if String.eqb extension "dng"
                    then errors +:+ tab +:+ what +:+ newline
                    else errors in
      mkLoadResult (Returned false) this [unable_to_read (filename f) errors]
  end end end end end.

End Load.

(* ================================================================== *)
(** * HDRImage::save *)
(* ================================================================== *)

(** The call of the write codec that [save] ends in.  The value [save]
    returns is the one the codec reports, which is outside this file. *)
Inductive WriteCall (F : Type) :=
  | stbi_write_hdr (w h comp : Z) (data : list (Color4 F))
  | writePFMImage (w h comp : Z) (data : list (Color4 F))
  | RgbaOutputFile (w h : Z) (exr_pixels : list (Color4 F))
  | writePPMImage (w h comp : Z) (data : list Z)
  | stbi_write_png (w h comp : Z) (data : list Z) (stride_bytes : Z)
  | stbi_write_bmp (w h comp : Z) (data : list Z)
  | stbi_write_tga (w h comp : Z) (data : list Z)
  | stbi_write_jpg (w h comp : Z) (data : list Z) (quality : Z).
Arguments stbi_write_hdr {F}.
Arguments writePFMImage {F}.
Arguments RgbaOutputFile {F}.
Arguments writePPMImage {F}.
Arguments stbi_write_png {F}.
Arguments stbi_write_bmp {F}.
Arguments stbi_write_tga {F}.
Arguments stbi_write_jpg {F}.

Inductive SaveResult (F : Type) :=
  | Writes (call : WriteCall F)
  | SaveThrows (what : string).
Arguments Writes {F}.
Arguments SaveThrows {F}.

Section Save.
Context {F : Type} {FA : FloatArith F} {EX : Externals F}.

(** [a != b] on floats. *)
Definition fne (a b : F) : bool := negb (fle a b && fle b a).

(** An expression applied to every pixel of an image. *)
Definition map_image (g : Color4 F -> Color4 F) (img : HDRImage F) : HDRImage F :=
  mkImage (width img) (height img) (g <$> pixels img).

(** The tone mapping at the head of [save]: the image that [img] points
    to afterwards. *)
Definition tonemap (this : HDRImage F) (hdrFormat : bool) (gain gamma : F)
    (sRGB : bool) : HDRImage F :=
  if fne gain (of_int 1) || sRGB || fne gamma (of_int 1) then
    let gainC := mkColor4 gain gain gain (of_int 1) in
    let gammaC := mkColor4 (fdiv (of_int 1) gamma) (fdiv (of_int 1) gamma)
                           (fdiv (of_int 1) gamma) (of_int 1) in
    let imgCopy := this in
    let imgCopy := if fne gain (of_int 1)
                   then map_image (fun c => color_zip fmul c gainC) imgCopy
                   else imgCopy in
    if negb hdrFormat then
      if sRGB then map_image LinearToSRGB imgCopy
      else if fne gamma (of_int 1) then map_image (fun c => color_pow c gammaC) imgCopy
      else imgCopy
    else imgCopy
  else this.

(** The dither offset of pixel [(x, y)]. *)
Definition ditherValue (x y : Z) : F :=
  let xmod := Z.rem x 256 in
  let ymod := Z.rem y 256 in
  fdiv (fsub (fdiv (of_int (dither_matrix256 (xmod + ymod * 256))) (of_int 65536))
             (of_ratio 1 2))
       (of_int 255).

(** The colour of pixel [(x, y)] brought to the range from 0 to 255. *)
Definition quantize_pixel (dither : bool) (x y : Z) (c : Color4 F) : Color4 F :=
  let c := if dither
           then color_zip fadd c
                  (mkColor4 (ditherValue x y) (ditherValue x y) (ditherValue x y) (of_int 0))
           else c in
  color_map (fun v => fmin (fmax (fmul v (of_int 255)) (of_int 0)) (of_int 255)) c.

(** The loop that fills the 8-bit buffer [data]. *)
Definition to_8bit (this img : HDRImage F) (dither : bool) : list Z :=
  let data := replicate (Z.to_nat (width this * height this * 3)) 0 in
  parallel_for 0 (height this) (fun y data =>
    for_loop 0 (width this) (fun x data =>
      let c := quantize_pixel dither x y (get_pixel img x y) in
      let data := vec_set data (3 * x + 3 * y * width this + 0) (ftrunc (channel c 0)) in
      let data := vec_set data (3 * x + 3 * y * width this + 1) (ftrunc (channel c 1)) in
      let data := vec_set data (3 * x + 3 * y * width this + 2) (ftrunc (channel c 2)) in
      data) data) data.

(** The pixels handed to the OpenEXR writer.  The channels of [Imf::Rgba]
    are of type [half]: each float is rounded to half precision when it is
    stored. *)
Definition to_rgba (this img : HDRImage F) : list (Color4 F) :=
  let pixels := replicate (Z.to_nat (height this * width this)) black in
  parallel_for 0 (height this) (fun y pixels =>
    for_loop 0 (width this) (fun x pixels =>
      let c := get_pixel img x y in
      vec_set pixels (y * width this + x)
        (mkColor4 (to_half (channel c 0)) (to_half (channel c 1))
                  (to_half (channel c 2)) (to_half (channel c 3))))
      pixels) pixels.

Definition save (this : HDRImage F) (filename : string) (gain gamma : F)
    (sRGB dither : bool) : SaveResult F :=
  let extension := tolower_string (getExtension filename) in
  let hdrFormat := String.eqb extension "hdr" || String.eqb extension "pfm"
                   || String.eqb extension "exr" in
  let img := tonemap this hdrFormat gain gamma sRGB in
  if String.eqb extension "hdr" then
    Writes (stbi_write_hdr (width this) (height this) 4 (pixels img))
  else if String.eqb extension "pfm" then
    Writes (writePFMImage (width this) (height this) 4 (pixels img))
  else if String.eqb extension "exr" then
    Writes (RgbaOutputFile (width this) (height this) (to_rgba this img))
  else
    let data := to_8bit this img dither in
    if String.eqb extension "ppm" then
      Writes (writePPMImage (width this) (height this) 3 data)
    else if String.eqb extension "png" then
      Writes (stbi_write_png (width this) (height this) 3 data (1 * width this * 3))
    else if String.eqb extension "bmp" then
      Writes (stbi_write_bmp (width this) (height this) 3 data)
    else if String.eqb extension "tga" then
      Writes (stbi_write_tga (width this) (height this) 3 data)
    else if String.eqb extension "jpg" || String.eqb extension "jpeg" then
      Writes (stbi_write_jpg (width this) (height this) 3 data 100)
    else SaveThrows "Could not determine desired file type from extension.".

End Save.

(* ================================================================== *)
(** * A stand-in for the library code *)
(* ================================================================== *)

Section StandIn.
Context {F : Type} {FA : FloatArith F}.

Definition dot3 (u v : Vector3f F) : F :=
  let '(u0, u1, u2) := u in let '(v0, v1, v2) := v in
  fadd (fadd (fmul u0 v0) (fmul u1 v1)) (fmul u2 v2).

Definition column (m : Matrix3f F) (j : Z) : Vector3f F :=
  let '((a, b, c), (d, e, f), (g, h, i)) := m in
  if j =? 0 then (a, d, g) else if j =? 1 then (b, e, h) else (c, f, i).

Definition product_vector (m : Matrix3f F) (v : Vector3f F) : Vector3f F :=
  let '(r0, r1, r2) := m in (dot3 r0 v, dot3 r1 v, dot3 r2 v).

Definition product (m n : Matrix3f F) : Matrix3f F :=
  let '(r0, r1, r2) := m in
  let row r := (dot3 r (column n 0), dot3 r (column n 1), dot3 r (column n 2)) in
  (row r0, row r1, row r2).

Definition determinant (m : Matrix3f F) : F :=
  let '((a, b, c), (d, e, f), (g, h, i)) := m in
  fadd (fsub (fmul a (fsub (fmul e i) (fmul f h)))
             (fmul b (fsub (fmul d i) (fmul f g))))
       (fmul c (fsub (fmul d h) (fmul e g))).

(** The inverse by cofactors. *)
Definition inverse (m : Matrix3f F) : Matrix3f F :=
  let '((a, b, c), (d, e, f), (g, h, i)) := m in
  let t := determinant m in
  let q x y z w := fdiv (fsub (fmul x y) (fmul z w)) t in
  ((q e i f h, q c h b i, q b f c e),
   (q f g d i, q a i c g, q c d a f),
   (q d h e g, q b g a h, q a e b d)).

(** An implementation of the library functions with which the model can
    be run: the colour-space curves, the demosaic kernel and the conversion
    to half are the identity, a power is its base, the matrix operations
    are the textbook ones, the dither table is [table], and the exception
    texts are those of libstdc++. *)
Definition stand_in (table : Z -> Z) : Externals F := {|
  SRGBToLinear := fun c => c;
  LinearToSRGB := fun c => c;
  color_pow := fun c _ => c;
  mat_mul := product;
  mat_vec := product_vector;
  mat_inverse := inverse;
  demosaicAHD := fun img _ _ => img;
  dither_matrix256 := table;
  to_half := fun x => x;
  out_of_range_what :=
    "vector::_M_range_check: __n (which is 0) >= this->size() (which is 0)";
  length_error_what := "vector::_M_default_append"
|}.

End StandIn.

(* ================================================================== *)
(** * Predicates used by the proofs *)
(* ================================================================== *)

(** The state of a loop nest that rewrites the cells of a buffer in
    increasing order: the cells below [k] hold their final value [R i old],
    the others their initial one. *)
Definition filled_upto {St A : Type} (cells : St -> list A) (Inv : St -> Prop) (d : A)
    (n : Z) (R : Z -> A -> A) (s0 : St) (k : Z) (s : St) : Prop :=
  Inv s /\ length (cells s) = length (cells s0) /\
  forall i, 0 <= i < n ->
    vec_at d (cells s) i =
      if i <? k then R i (vec_at d (cells s0) i) else vec_at d (cells s0) i.

(** [f k && f (k + 1) && ...], [n] terms. *)
Fixpoint all_from (f : Z -> bool) (n : nat) (k : Z) : bool :=
  match n with
  | O => true
  | S n' => f k && all_from f n' (k + 1)
  end.

(* ================================================================== *)
(** * The raw developer as the specification words it *)
(* ================================================================== *)

Section DevelopSpec.
Context {F : Type} {FA : FloatArith F} {EX : Externals F}.

(** Step 1: a raw sample between the black and the white level. *)
Definition normalize (raw : list F) (blackLevel whiteLevel : Z) (i : Z) : F :=
  clamp (fdiv (fsub (vec_at (of_int 0) raw i) (of_int blackLevel))
              (of_int (whiteLevel - blackLevel)))
        (of_int 0) (of_int 1).

(** The same with the quotient taken as the product with the reciprocal
    of the divisor. *)
Definition normalize_by_reciprocal (raw : list F) (blackLevel whiteLevel : Z) (i : Z) : F :=
  clamp (fmul (fsub (vec_at (of_int 0) raw i) (of_int blackLevel))
              (fdiv (of_int 1) (of_int (whiteLevel - blackLevel))))
        (of_int 0) (of_int 1).

(** Steps 1 and 2: the mosaic handed to the demosaic kernel, each sample
    normalised by [norm] and divided by the white balance, alpha 1. *)
Definition white_balanced_mosaic (norm : list F -> Z -> Z -> Z -> F) (raw : list F)
    (param1 param2 : tinydng.DNGImage F) : HDRImage F :=
  let wb := tinydng.as_shot_neutral param2 in
  tabulate (tinydng.width param1) (tinydng.height param1) (fun x y =>
    let v := norm raw (vec_at 0 (tinydng.black_level param1) 0)
               (vec_at 0 (tinydng.white_level param1) 0)
               (y * tinydng.width param1 + x) in
    mkColor4 (fdiv v (vec_x wb)) (fdiv v (vec_y wb)) (fdiv v (vec_z wb)) (of_int 1)).

(** Step 4: a demosaiced pixel times the white balance, through the
    camera to sRGB matrix, alpha 1. *)
Definition to_sRGB (param2 : tinydng.DNGImage F) (c : Color4 F) : Color4 F :=
  let wb := tinydng.as_shot_neutral param2 in
  let M := mat_mul XYZD50TosRGB (mat_inverse (tinydng.color_matrix2 param2)) in
  let sRGB := mat_vec M (fmul (red c) (vec_x wb), fmul (green c) (vec_y wb),
                         fmul (blue c) (vec_z wb)) in
  mkColor4 (vec_x sRGB) (vec_y sRGB) (vec_z sRGB) (of_int 1).

(** Steps 1 to 5 in sequence. *)
Definition developed (norm : list F -> Z -> Z -> Z -> F) (raw : list F)
    (param1 param2 : tinydng.DNGImage F) : HDRImage F :=
  let redOffset := (Z.rem (vec_at 0 (tinydng.active_area param1) 1) 2,
                    Z.rem (vec_at 0 (tinydng.active_area param1) 0) 2) in
  let hint := mat_mul XYZD50ToXYZD65 (mat_inverse (tinydng.color_matrix2 param2)) in
  let demosaiced := demosaicAHD (white_balanced_mosaic norm raw param1 param2) redOffset hint in
  tabulate (tinydng.width param1) (tinydng.height param1) (fun x y =>
    to_sRGB param2 (get_pixel demosaiced x y)).

(** The contract of the demosaic kernel: an image of the same size. *)
Definition demosaic_keeps_size : Prop :=
  forall (img : HDRImage F) (redOffset : Z * Z) (hint : Matrix3f F),
    well_formed img ->
    well_formed (demosaicAHD img redOffset hint) /\
    width (demosaicAHD img redOffset hint) = width img /\
    height (demosaicAHD img redOffset hint) = height img.

(** Multiplying by a reciprocal is dividing: true of arithmetic that
    does not round. *)
Definition reciprocal_law : Prop :=
  forall x k : F, fmul x (fdiv (of_int 1) k) = fdiv x k.

End DevelopSpec.

(* ================================================================== *)
(** * Inputs on which the model is run *)
(* ================================================================== *)

Module Examples.

(** Exact arithmetic with the stand-in library code and a dither table
    of zeros. *)
Definition exact_lib : Externals Qc := stand_in (fun _ => 0).

(** Single precision with the stand-in library code and a dither table
    whose entry [i] is [i]. *)
Definition binary32_lib : Externals spec_float := stand_in (fun i => i).

(** The packed buffer of the specification and the buffer that holds
    0xABC and 0x123 most significant bits first. *)
Definition packed_spec : list byte := [xbc; x2a; x13].
Definition packed_msb_first : list byte := [xab; xc1; x23].

(** Two 16-bit samples, 0x1234 and 0xFFFF, low byte first. *)
Definition two_shorts : list byte := [x34; x12; xff; xff].

Definition identity_matrix {F : Type} {FA : FloatArith F} : Matrix3f F :=
  ((of_int 1, of_int 0, of_int 0),
   (of_int 0, of_int 1, of_int 0),
   (of_int 0, of_int 0, of_int 1)).

(** A raw capture of [w] by [h] samples with the levels 0 and 10, a full
    active area and the white balance (2, 1, 4). *)
Definition capture {F : Type} {FA : FloatArith F} (w h bits spp orientation : Z)
    (data : list byte) : tinydng.DNGImage F :=
  tinydng.mkDNGImage w h bits spp [0] [10] [0; 0; h; w] orientation data
    identity_matrix identity_matrix identity_matrix identity_matrix
    identity_matrix identity_matrix
    (of_int 1, of_int 1, of_int 1) (of_int 2, of_int 1, of_int 4).

(** A 2 by 2 image with four different pixels. *)
Definition four_pixels {F : Type} {FA : FloatArith F} : HDRImage F :=
  mkImage 2 2
    [mkColor4 (of_int 1) (of_int 0) (of_int 0) (of_int 1);
     mkColor4 (of_int 0) (of_int 1) (of_int 0) (of_int 1);
     mkColor4 (of_int 0) (of_int 0) (of_int 1) (of_int 1);
     mkColor4 (of_int 1) (of_int 1) (of_int 1) (of_int 1)].

End Examples.

Module DevelopExamples.

(** One raw sample, 464, of a capture of 1 by 1 pixels with the levels 0
    and 1023, a full active area, identity matrices and the white balance
    (1, 1, 1). *)
Definition ten_bit_raw : list spec_float := [of_int 464].

Definition ten_bit_capture : tinydng.DNGImage spec_float :=
  tinydng.mkDNGImage 1 1 16 1 [0] [1023] [0; 0; 1; 1] 0 []
    Examples.identity_matrix Examples.identity_matrix Examples.identity_matrix
    Examples.identity_matrix Examples.identity_matrix Examples.identity_matrix
    (of_int 1, of_int 1, of_int 1) (of_int 1, of_int 1, of_int 1).

End DevelopExamples.

(* ================================================================== *)
(** * The load dispatcher as the specification words it *)
(* ================================================================== *)




Section Attempts.
Context {F : Type} {FA : FloatArith F} {EX : Externals F}.

(** The file is a one-channel PNG that decodes at 16 bits per channel. *)
Definition depth_png (f : File F) : bool :=
  (stb_n (stbi_loadf f) =? 1) && has_suffix4 (filename f) ".png"
  && (bits_per_channel (stbi_load_main f) =? 16).









(** A file that no codec recognises. *)
Definition unrecognised (name : string) : File F :=
  mkFile name false (mkStbImage 0 0 0 None) "unknown image type"
    (mkStbMain 0 0 0 0 []) false false PfmNull
    (mkNpyArray (Some "cannot open") [] NpyOther []) false
    (inl "Cannot read image file.") (inl "File not found or cannot open file").

End Attempts.

(* ================================================================== *)
(** * The pixel formulas of the raw paths *)
(* ================================================================== *)

Section RawFormulas.
Context {F : Type} {FA : FloatArith F}.

(** The branch for three samples per pixel as the specification words it:
    channel [c] of pixel [(x, y)] is [raw[3 y w + x] * invScale + c]. *)
Definition spp3_channel_spec (raw : list F) (w : Z) (invScale : F) (x y c : Z) : F :=
  fadd (fmul (vec_at (of_int 0) raw (3 * y * w + x)) invScale) (of_int c).

(** What the branch computes: the sample is scaled twice. *)
Definition spp3_channel (raw : list F) (w : Z) (invScale : F) (x y c : Z) : F :=
  fadd (fmul (fmul (vec_at (of_int 0) raw (3 * y * w + x)) invScale) invScale) (of_int c).

Definition spp3_pixel (raw : list F) (w : Z) (invScale : F) (x y : Z) : Color4 F :=
  mkColor4 (spp3_channel raw w invScale x y 0) (spp3_channel raw w invScale x y 1)
           (spp3_channel raw w invScale x y 2) (of_int 1).

(** The scalar of the depth-PNG branch for the 16-bit sample [raw16]. *)
Definition depth_value (raw16 : Z) : F :=
  let v := fdiv (of_int raw16) (of_int 1000) in
  if flt (of_int 5) v then of_int 0 else v.

End RawFormulas.

Module LoadExamples.

(** A file named [name] that only TinyNPY can read: an array of [h] by
    [w] by 4 bytes. *)
Definition npy_rgba8 {F : Type} {FA : FloatArith F} (name : string) (w h : Z) : File F :=
  mkFile name false (mkStbImage 0 0 0 None) "unknown image type"
    (mkStbMain 0 0 0 0 []) false false PfmNull
    (mkNpyArray None [h; w; 4] NpyUInt8 []) false
    (inl "Cannot read image file.") (inl "File not found or cannot open file").

(** A one-channel PNG of 2 by 1 pixels at 16 bits per channel with the
    samples 1500 and 7000. *)
Definition depth_file {F : Type} {FA : FloatArith F} : File F :=
  mkFile "depth_0001.png" true
    (mkStbImage 2 1 1 (Some (replicate 8 (of_int 0)))) EmptyString
    (mkStbMain 2 1 1 16 [1500; 7000]) false false PfmNull
    (mkNpyArray (Some "cannot open") [] NpyOther []) false
    (inl "Cannot read image file.") (inl "File not found or cannot open file").

(** A raw container with one image of 1 by 1 pixels, three 16-bit samples
    per pixel, the first of them 0x8000. *)
Definition rgb_samples : list byte := [x00; x80; x00; x00; x00; x00].

Definition rgb_dng {F : Type} {FA : FloatArith F} : File F :=
  mkFile "frame.dng" false (mkStbImage 0 0 0 None) "unknown image type"
    (mkStbMain 0 0 0 0 []) false false PfmNull
    (mkNpyArray (Some "cannot open") [] NpyOther []) false
    (inl "Cannot read image file.")
    (inr [Examples.capture 1 1 16 3 0 rgb_samples]).

End LoadExamples.

(* ================================================================== *)
(** * The 8-bit quantiser as the specification words it *)
(* ================================================================== *)

Section QuantizeSpec.
Context {F : Type} {FA : FloatArith F} {EX : Externals F}.

(** The byte the specification gives for a channel value [c] of pixel
    [(x, y)]: truncate(clamp(255 c + d, 0, 255)), [d] the dither offset or 0. *)
Definition quantized_spec (dither : bool) (x y : Z) (c : F) : Z :=
  ftrunc (clamp (fadd (fmul (of_int 255) c) (if dither then ditherValue x y else of_int 0))
                (of_int 0) (of_int 255)).

(** The byte the program writes: the offset is added to [c] before the
    scaling by 255. *)
Definition quantized (dither : bool) (x y : Z) (c : F) : Z :=
  ftrunc (fmin (fmax (fmul (if dither then fadd c (ditherValue x y) else c) (of_int 255))
                     (of_int 0))
               (of_int 255)).

(** The extensions that [save] writes with 8 bits per channel. *)
Definition eight_bit_extension (extension : string) : bool :=
  String.eqb extension "ppm" || String.eqb extension "png" || String.eqb extension "bmp"
  || String.eqb extension "tga" || String.eqb extension "jpg" || String.eqb extension "jpeg".

(** The channel count and the buffer handed to an 8-bit writer. *)
Definition written_bytes (r : SaveResult F) : option (Z * list Z) :=
  match r with
  | Writes (writePPMImage _ _ comp data) => Some (comp, data)
  | Writes (stbi_write_png _ _ comp data _) => Some (comp, data)
  | Writes (stbi_write_bmp _ _ comp data) => Some (comp, data)
  | Writes (stbi_write_tga _ _ comp data) => Some (comp, data)
  | Writes (stbi_write_jpg _ _ comp data _) => Some (comp, data)
  | _ => None
  end.

End QuantizeSpec.

Module SaveExamples.

(** One pixel of three quarters in every colour channel. *)
Definition grey_pixel {F : Type} {FA : FloatArith F} : HDRImage F :=
  mkImage 1 1 [mkColor4 (of_ratio 3 4) (of_ratio 3 4) (of_ratio 3 4) (of_int 1)].

End SaveExamples.

(* ================================================================== *)
(** * The packed sample formats, as arithmetic *)
(* ================================================================== *)

(** The buffer with the two bytes of every 16-bit word exchanged. *)
Fixpoint swap_pairs (data : list byte) : list byte :=
  match data with
  | a :: b :: rest => b :: a :: swap_pairs rest
  | _ => data
  end.

(** The offset of the other byte of the 16-bit word that holds byte [i]. *)
Definition partner (i : Z) : Z := if Z.even i then i + 1 else i - 1.

(** The [n] bytes from offset [a] on, read as one number, first byte most
    significant. *)
Fixpoint big_endian (data : list byte) (a : Z) (n : nat) : Z :=
  match n with
  | O => 0
  | S n' => 256 ^ Z.of_nat n' * byte_at data a + big_endian data (a + 1) n'
  end.

(** Sample [i] of a stream of [bits]-bit fields packed most significant
    bit first, [per] fields to a group of [bytes] bytes. *)
Definition bit_field (bits per : Z) (bytes : nat) (data : list byte) (i : Z) : Z :=
  (big_endian data (Z.of_nat bytes * (i `div` per)) bytes
     `div` 2 ^ (bits * (per - 1 - i `mod` per))) `mod` 2 ^ bits.

Module UnpackerExamples.

(** Four 14-bit samples, 0x3FFF, 0x0000, 0x2AAA and 0x1555, packed most
    significant bit first, and a byte that pads the buffer to whole words. *)
Definition four_samples14 : list byte := [xff; xfc; x00; x0a; xaa; x95; x55; x00].

(** Two 12-bit samples, 0xABC and 0x123, and a padding byte. *)
Definition two_samples12 : list byte := [xab; xc1; x23; x00].

End UnpackerExamples.

(* ================================================================== *)
(** * The pixels that copyPixelsFromArray stores *)
(* ================================================================== *)

Section CopiedPixels.
Context {F : Type} {FA : FloatArith F} {EX : Externals F}.

(** The colour stored for the sample [p] of a one-channel array whose
    least positive sample is [minVal] and whose positive samples span
    [delta]. *)
Definition false_colour (minVal delta p : F) : Color4 F :=
  if fle p (of_int 0) then mkColor4 (of_int 0) (of_int 0) (of_int 0) (of_int 0)
  else
    let t := turboRGBf (fround (fdiv (fmul (of_int 255) (fsub p minVal)) delta)) in
    SRGBToLinear (mkColor4 (snd t) (snd (fst t)) (fst (fst t)) (of_int 1)).

(** The colour stored for element [k] of an array of [n] interleaved
    channels, [n] being 3 or 4. *)
Definition interleaved_colour (data : list F) (n : Z) (convertToLinear : bool) (k : Z)
    : Color4 F :=
  let c := mkColor4 (vec_at (of_int 0) data (n * k))
                    (vec_at (of_int 0) data (n * k + 1))
                    (vec_at (of_int 0) data (n * k + 2))
                    (if n =? 3 then of_int 1 else vec_at (of_int 0) data (4 * k + 3)) in
  if convertToLinear then SRGBToLinear c else c.

End CopiedPixels.

(** A float that is a number: neither NaN nor an infinity. *)
Definition is_number (q : spec_float) : bool :=
  match q with
  | S754_zero _ | S754_finite _ _ _ => true
  | _ => false
  end.

(** The read [turboRGBf[(int)std::round(q)]] is defined: [q] is a number
    and rounds to an index of the table, 0 to 255. *)
Definition table_read_defined (q : spec_float) : bool :=
  is_number q && (0 <=? fround q) && (fround q <=? 255).

(** A run of the one-channel branch of [copyPixelsFromArray] in single
    precision in which every read of the colour table is defined: for each
    positive sample [p] among the [w * h] samples, the quotient
    [255 (p - minVal) / delta] is a number that rounds into the table. *)
Definition one_channel_defined (data : list spec_float) (w h : Z) : Prop :=
  forall x y, 0 <= x < w -> 0 <= y < h ->
    fle (vec_at (of_int 0) data (x + y * w)) (of_int 0) = false ->
    table_read_defined
      (fdiv (fmul (of_int 255)
               (fsub (vec_at (of_int 0) data (x + y * w))
                     (fst (min_max_positive data w h))))
            (fsub (snd (min_max_positive data w h)) (fst (min_max_positive data w h))))
    = true.

Module CopyExamples.

(** Four pixels of three channels, and the same with a fourth channel. *)
Definition rgb_data : list Qc :=
  (fun n : Z => of_int n) <$> [1; 2; 3; 4; 5; 6; 7; 8; 9; 10; 11; 12].

(** Four samples of one channel, none of them positive. *)
Definition dark_data : list Qc := (fun n : Z => of_int n) <$> [0; -1; 0; -2].

(** Four samples of one channel in single precision: 1, 2, 3 and 4. *)
Definition ramp_data : list spec_float := (fun n : Z => of_int n) <$> [1; 2; 3; 4].

End CopyExamples.

(* ================================================================== *)
(** * Results of the load cascade *)
(* ================================================================== *)

(** A result that is a success without error message. *)
Definition quiet_success {F : Type} (r : LoadResult F) : Prop :=
  outcome r = Returned true /\ console_error r = [].

(** The file [f] with another array behind the NPY reader. *)
Definition with_npy {F : Type} (f : File F) (arr : NpyArray F) : File F :=
  mkFile (filename f) (isSTBImage f) (stbi_loadf f) (stbi_failure_reason f)
    (stbi_load_main f) (stbi_is_hdr f) (isPFMImage f) (loadPFMImage f)
    arr (isOpenExrFile f) (RgbaInputFile f) (LoadDNG f).

(** The file [f] with other results of the second stb decoder. *)
Definition with_stbi_load_main {F : Type} (f : File F) (m : StbMain) : File F :=
  mkFile (filename f) (isSTBImage f) (stbi_loadf f) (stbi_failure_reason f)
    m (stbi_is_hdr f) (isPFMImage f) (loadPFMImage f)
    (npy f) (isOpenExrFile f) (RgbaInputFile f) (LoadDNG f).

Module PathExamples.

(** Two pixels of four channels and two pixels of three channels. *)
Definition rgba_data : list Qc := (fun n : Z => of_int n) <$> [1; 2; 3; 1; 4; 5; 6; 1].
Definition rgb_data : list Qc := (fun n : Z => of_int n) <$> [1; 2; 3; 4; 5; 6].

(** A Radiance file of 2 by 1 pixels as stb decodes it. *)
Definition hdr_file : File Qc :=
  mkFile "probe.hdr" true
    (mkStbImage 2 1 3 (Some rgba_data))
    EmptyString (mkStbMain 0 0 0 0 []) true false PfmNull
    (mkNpyArray (Some "cannot open") [] NpyOther []) false
    (inl "Cannot read image file.") (inl "File not found or cannot open file").

(** A PFM file of 1 by 2 pixels with three channels. *)
Definition pfm_file : File Qc :=
  mkFile "probe.pfm" false (mkStbImage 0 0 0 None) "unknown image type"
    (mkStbMain 0 0 0 0 []) false true
    (PfmLoaded 1 2 3 rgb_data)
    (mkNpyArray (Some "cannot open") [] NpyOther []) false
    (inl "Cannot read image file.") (inl "File not found or cannot open file").

(** An array of 1 by 2 by 3 floats. *)
Definition npy_file : File Qc :=
  mkFile "probe.npy" false (mkStbImage 0 0 0 None) "unknown image type"
    (mkStbMain 0 0 0 0 []) false false PfmNull
    (mkNpyArray None [1; 2; 3] NpyFloat rgb_data)
    false (inl "Cannot read image file.") (inl "File not found or cannot open file").

(** An OpenEXR file whose data window spans (3, 5) to (4, 5). *)
Definition exr_pixels : list (Color4 Qc) :=
  [mkColor4 (of_int 1) (of_int 2) (of_int 3) (of_int 1);
   mkColor4 (of_int 4) (of_int 5) (of_int 6) (of_int 0)].

Definition exr_file : File Qc :=
  mkFile "probe.exr" false (mkStbImage 0 0 0 None) "unknown image type"
    (mkStbMain 0 0 0 0 []) false false PfmNull
    (mkNpyArray (Some "cannot open") [] NpyOther []) true
    (inr (mkExrFile 3 5 4 5 (inr exr_pixels)))
    (inl "File not found or cannot open file").

(** Two images of a raw container, the second one wider and rotated. *)
Definition two_images : list (tinydng.DNGImage Qc) :=
  [Examples.capture 2 2 16 1 0 []; Examples.capture 4 2 16 1 6 []].

End PathExamples.

(* ================================================================== *)
(** * The extensions that save knows *)
(* ================================================================== *)

(** The extensions, in lower case, for which [save] calls a writer. *)
Definition known_extensions : list string :=
  ["hdr"; "pfm"; "exr"; "ppm"; "png"; "bmp"; "tga"; "jpg"; "jpeg"].

(** The extensions [save] treats as HDR formats. *)
Definition hdr_extensions : list string := ["hdr"; "pfm"; "exr"].


(* ================================================================== *)
(** * Properties *)
(* ================================================================== *)

(** ** Loops *)

Lemma for_loop_nil {St : Type} (lo hi : Z) (body : Z -> St -> St) (s : St) :
  hi <= lo -> for_loop lo hi body s = s.
Proof.
  intros Hle. unfold for_loop. rewrite seqZ_nil by lia. reflexivity.
Qed.

Lemma for_loop_snoc {St : Type} (lo hi : Z) (body : Z -> St -> St) (s : St) :
  lo <= hi -> for_loop lo (hi + 1) body s = body hi (for_loop lo hi body s).
Proof.
  intros Hle. unfold for_loop.
  replace (hi + 1 - lo) with ((hi - lo) + 1) by lia.
  rewrite seqZ_app by lia.
  rewrite foldl_app.
  replace (lo + (hi - lo)) with hi by lia.
  rewrite (seqZ_cons hi 1) by lia. rewrite (seqZ_nil (Z.succ hi)) by lia. reflexivity.
Qed.

(** The invariant rule: [P i] holds of the state before iteration [i]. *)
Lemma for_loop_ind {St : Type} (P : Z -> St -> Prop) (lo hi : Z)
    (body : Z -> St -> St) (s : St) :
  lo <= hi ->
  P lo s ->
  (forall i t, lo <= i < hi -> P i t -> P (i + 1) (body i t)) ->
  P hi (for_loop lo hi body s).
Proof.
  intros Hle Hinit Hstep.
  assert (Hgen : forall n : nat, lo + Z.of_nat n <= hi ->
            P (lo + Z.of_nat n) (for_loop lo (lo + Z.of_nat n) body s)).
  { induction n as [|n IH]; intros Hn.
    - rewrite Z.add_0_r. rewrite for_loop_nil by lia. exact Hinit.
    - replace (lo + Z.of_nat (S n)) with (lo + Z.of_nat n + 1) by lia.
      rewrite for_loop_snoc by lia.
      apply Hstep; [lia|]. apply IH. lia. }
  specialize (Hgen (Z.to_nat (hi - lo))).
  replace (lo + Z.of_nat (Z.to_nat (hi - lo))) with hi in Hgen by lia.
  apply Hgen. lia.
Qed.

(** ** Vectors *)

Lemma length_vec_set {A : Type} (v : list A) (i : Z) (x : A) :
  length (vec_set v i x) = length v.
Proof.
  unfold vec_set. destruct (0 <=? i); [apply length_insert | reflexivity].
Qed.

Lemma vec_at_set_eq {A : Type} (d : A) (v : list A) (i : Z) (x : A) :
  0 <= i -> (Z.to_nat i < length v)%nat -> vec_at d (vec_set v i x) i = x.
Proof.
  intros Hi Hlen. unfold vec_at, vec_set.
  destruct (Z.leb_spec 0 i); [|lia].
  rewrite list_lookup_insert_eq by exact Hlen. reflexivity.
Qed.

Lemma vec_at_set_ne {A : Type} (d : A) (v : list A) (i j : Z) (x : A) :
  0 <= j -> i <> j -> vec_at d (vec_set v i x) j = vec_at d v j.
Proof.
  intros Hj Hne. unfold vec_at, vec_set.
  destruct (Z.leb_spec 0 j); [|lia].
  destruct (Z.leb_spec 0 i); [|reflexivity].
  rewrite list_lookup_insert_ne by lia. reflexivity.
Qed.

Lemma vec_at_lookup {A : Type} (d : A) (v : list A) (i : Z) (x : A) :
  0 <= i -> v !! Z.to_nat i = Some x -> vec_at d v i = x.
Proof.
  intros Hi Hl. unfold vec_at. destruct (Z.leb_spec 0 i); [|lia].
  rewrite Hl. reflexivity.
Qed.

Lemma lookup_vec_at {A : Type} (d : A) (v : list A) (i : Z) :
  0 <= i -> (Z.to_nat i < length v)%nat -> v !! Z.to_nat i = Some (vec_at d v i).
Proof.
  intros Hi Hlen. unfold vec_at. destruct (Z.leb_spec 0 i); [|lia].
  destruct (lookup_lt_is_Some_2 v (Z.to_nat i) Hlen) as [x Hx].
  rewrite Hx. reflexivity.
Qed.

(** Two vectors of one length with the same cells are equal. *)
Lemma vec_ext {A : Type} (d : A) (u v : list A) :
  length u = length v ->
  (forall i, 0 <= i < Z.of_nat (length u) -> vec_at d u i = vec_at d v i) ->
  u = v.
Proof.
  intros Hlen Hcells. apply list_eq. intros k.
  destruct (decide (k < length u)%nat) as [Hk|Hk].
  - specialize (Hcells (Z.of_nat k)).
    rewrite <- (Nat2Z.id k).
    rewrite (lookup_vec_at d u) by lia.
    rewrite (lookup_vec_at d v) by lia.
    f_equal. apply Hcells. lia.
  - rewrite (proj2 (lookup_ge_None u k)) by lia.
    rewrite (proj2 (lookup_ge_None v k)) by lia. reflexivity.
Qed.

Lemma vec_at_tabulated {A : Type} (d : A) (f : Z -> A) (n i : Z) :
  0 <= i < n -> vec_at d (f <$> seqZ 0 n) i = f i.
Proof.
  intros Hi. apply vec_at_lookup; [lia|].
  rewrite list_lookup_fmap. rewrite lookup_seqZ_lt by lia.
  rewrite Z2Nat.id by lia. reflexivity.
Qed.

Lemma length_tabulated {A : Type} (f : Z -> A) (n : Z) :
  length (f <$> seqZ 0 n) = Z.to_nat n.
Proof. rewrite length_fmap. apply length_seqZ. Qed.

(** ** Loop nests that fill a buffer block by block *)

Section Fill.
Context {St A : Type} (cells : St -> list A) (Inv : St -> Prop) (d : A).
Context (w h m : Z) (body : Z -> Z -> St -> St) (R : Z -> A -> A).
Hypothesis Hw : 0 <= w.
Hypothesis Hh : 0 <= h.
Hypothesis Hm : 0 < m.
Hypothesis body_inv : forall x y s,
  0 <= x < w -> 0 <= y < h -> Inv s -> Inv (body x y s).
Hypothesis body_length : forall x y s,
  0 <= x < w -> 0 <= y < h -> Inv s -> length (cells (body x y s)) = length (cells s).
Hypothesis body_cells : forall x y s i,
  0 <= x < w -> 0 <= y < h -> Inv s ->
  length (cells s) = Z.to_nat (m * (w * h)) -> 0 <= i < m * (w * h) ->
  vec_at d (cells (body x y s)) i =
    if (m * (x + y * w) <=? i) && (i <? m * (x + y * w) + m)
    then R i (vec_at d (cells s) i)
    else vec_at d (cells s) i.

Let upto := filled_upto cells Inv d (m * (w * h)) R.

Lemma fill_step s0 x y t :
  0 <= x < w -> 0 <= y < h ->
  length (cells s0) = Z.to_nat (m * (w * h)) ->
  upto s0 (m * (y * w + x)) t -> upto s0 (m * (y * w + (x + 1))) (body x y t).
Proof.
  intros Hx Hy Hlen (Hinv & Hl & Hc).
  split; [auto|]. split; [rewrite body_length by auto; exact Hl|].
  intros i Hi.
  rewrite body_cells by (auto; congruence).
  rewrite (Hc i Hi).
  assert (Hxy : 0 <= y * w + x) by nia.
  replace (x + y * w) with (y * w + x) by lia.
  replace (y * w + (x + 1)) with (y * w + x + 1) by lia.
  set (k := y * w + x) in *.
  destruct (Z.leb_spec (m * k) i); destruct (Z.ltb_spec i (m * k + m));
    destruct (Z.ltb_spec i (m * k)); destruct (Z.ltb_spec i (m * (k + 1)));
    simpl; try reflexivity; lia.
Qed.

Lemma fill_row s0 y t :
  0 <= y < h ->
  length (cells s0) = Z.to_nat (m * (w * h)) ->
  upto s0 (m * (y * w)) t ->
  upto s0 (m * ((y + 1) * w)) (for_loop 0 w (fun x s => body x y s) t).
Proof.
  intros Hy Hlen Hstart.
  replace ((y + 1) * w) with (y * w + w) by lia.
  apply (for_loop_ind (fun x s => upto s0 (m * (y * w + x)) s)); [exact Hw| |].
  - rewrite Z.add_0_r. exact Hstart.
  - intros x t' Hx Ht'. apply fill_step; auto.
Qed.

Lemma fill_spec s0 :
  Inv s0 -> length (cells s0) = Z.to_nat (m * (w * h)) ->
  let s' := parallel_for 0 h (fun y s => for_loop 0 w (fun x s => body x y s) s) s0 in
  Inv s' /\
  cells s' = (fun i => R i (vec_at d (cells s0) i)) <$> seqZ 0 (m * (w * h)).
Proof.
  intros Hinv Hlen s'.
  assert (Hfin : upto s0 (m * (h * w)) s').
  { subst s'. unfold parallel_for.
    apply (for_loop_ind (fun y s => upto s0 (m * (y * w)) s)); [exact Hh| |].
    - split; [exact Hinv|]. split; [reflexivity|].
      intros i Hi. destruct (Z.ltb_spec i (m * (0 * w))); [lia|reflexivity].
    - intros y t Hy Ht. apply fill_row; auto. }
  destruct Hfin as (Hinv' & Hl & Hc).
  split; [exact Hinv'|].
  apply (vec_ext d).
  - rewrite length_tabulated. congruence.
  - intros i Hi. rewrite Hl, Hlen in Hi.
    assert (Hi' : 0 <= i < m * (w * h)) by nia.
    rewrite (Hc i Hi'). rewrite vec_at_tabulated by exact Hi'.
    destruct (Z.ltb_spec i (m * (h * w))); [reflexivity|lia].
Qed.

End Fill.

(** ** Cell indices of a grid *)

Lemma cell_div (w x y : Z) : 0 <= x < w -> (x + y * w) `div` w = y.
Proof.
  intros Hx. rewrite Z.div_add by lia. rewrite Z.div_small by lia. lia.
Qed.

Lemma cell_mod (w x y : Z) : 0 <= x < w -> (x + y * w) `mod` w = x.
Proof.
  intros Hx. rewrite Z.mod_add by lia. apply Z.mod_small. lia.
Qed.

Lemma cell_split (w i : Z) : 0 < w -> i `mod` w + i `div` w * w = i.
Proof.
  intros Hw. pose proof (Z.div_mod i w). lia.
Qed.

Lemma cell_bounds (w h i : Z) :
  0 <= i < w * h -> 0 <= h -> 0 <= i `mod` w < w /\ 0 <= i `div` w < h.
Proof.
  intros Hi Hh. assert (Hw : 0 < w) by nia.
  split; [apply Z.mod_pos_bound; lia|].
  split; [apply Z.div_pos; lia|].
  apply Z.div_lt_upper_bound; lia.
Qed.

Lemma tabulated_ext {A : Type} (f g : Z -> A) (n : Z) :
  (forall i, 0 <= i < n -> f i = g i) -> f <$> seqZ 0 n = g <$> seqZ 0 n.
Proof.
  intros Hfg. apply (list_eq_same_length _ _ (Z.to_nat n)).
  - apply length_tabulated.
  - apply length_tabulated.
  - intros k u v Hk. rewrite !list_lookup_fmap.
    rewrite lookup_seqZ_lt by lia. simpl. intros ? ?. simplify_eq.
    apply Hfg. lia.
Qed.

(** ** The loop nest of the unpackers *)

Lemma length_vec_resize {A : Type} (d : A) (n : Z) (v : list A) :
  length (vec_resize d n v) = Z.to_nat n.
Proof. apply length_resize. Qed.

(** A nest that stores [g y x] at [image[y * w + x]] leaves the samples in
    row order. *)
Lemma sample_loop_spec {A : Type} (d : A) (g : Z -> Z -> A) (w h : Z) (v : list A) :
  0 <= w -> 0 <= h ->
  parallel_for 0 h (fun y image =>
    for_loop 0 w (fun x image => vec_set image (y * w + x) (g y x)) image)
    (vec_resize d (w * h) v)
  = (fun i => g (i `div` w) (i `mod` w)) <$> seqZ 0 (w * h).
Proof.
  intros Hw Hh.
  pose proof (fill_spec (fun v : list A => v) (fun _ => True) d w h 1
                (fun x y image => vec_set image (y * w + x) (g y x))
                (fun i _ => g (i `div` w) (i `mod` w)) Hw Hh) as Hfill.
  rewrite Z.mul_1_l in Hfill.
  apply Hfill; clear Hfill; try done.
  - intros. apply length_vec_set.
  - intros x y s i Hx Hy _ Hlen Hi.
    replace (y * w + x) with (x + y * w) by lia.
    rewrite Z.mul_1_l.
    destruct (Z.leb_spec (x + y * w) i); destruct (Z.ltb_spec i (x + y * w + 1)); simpl.
    + assert (i = x + y * w) by lia. subst i.
      rewrite vec_at_set_eq by lia.
      rewrite cell_div, cell_mod by lia. reflexivity.
    + apply vec_at_set_ne; lia.
    + apply vec_at_set_ne; lia.
    + lia.
  - apply length_vec_resize.
Qed.

Section UnpackerFacts.
Context {F : Type} {FA : FloatArith F}.

Lemma decode16BitToFloat_spec (image : list F) (data : list byte) (w h : Z) (swap : bool) :
  0 <= w -> 0 <= h ->
  decode16BitToFloat image data w h swap
  = (fun i => of_int (let val := ushort_at data i in
                      if swap then endianSwap val else val)) <$> seqZ 0 (w * h).
Proof.
  intros Hw Hh. unfold decode16BitToFloat.
  rewrite (sample_loop_spec (of_int 0) (decode16_sample data w swap)) by assumption.
  apply tabulated_ext. intros i Hi.
  unfold decode16_sample.
  assert (0 < w) by nia.
  replace (i `div` w * w + i `mod` w) with i by (pose proof (cell_split w i); lia).
  reflexivity.
Qed.

End UnpackerFacts.

Lemma byte_val_range (b : byte) : 0 <= byte_val b < 256.
Proof.
  unfold byte_val. pose proof (Byte.to_N_bounded b). lia.
Qed.

Lemma byte_at_range (data : list byte) (i : Z) : 0 <= byte_at data i < 256.
Proof.
  unfold byte_at, vec_at. destruct (0 <=? i); [|lia].
  rewrite list_lookup_fmap. destruct (data !! Z.to_nat i); simpl; [apply byte_val_range|lia].
Qed.

Lemma ushort_at_range (data : list byte) (i : Z) : 0 <= ushort_at data i < 65536.
Proof.
  unfold ushort_at.
  pose proof (byte_at_range data (2 * i)). pose proof (byte_at_range data (2 * i + 1)). lia.
Qed.

Lemma all_from_spec (f : Z -> bool) (n : nat) (k j : Z) :
  all_from f n k = true -> k <= j < k + Z.of_nat n -> f j = true.
Proof.
  revert k. induction n as [|n IH]; intros k Hall Hj; [lia|].
  simpl in Hall. apply andb_prop in Hall. destruct Hall as [Hk Hrest].
  destruct (decide (j = k)) as [->|Hne]; [exact Hk|].
  apply (IH (k + 1)); [exact Hrest | lia].
Qed.

(** Single precision holds every 16-bit integer without rounding. *)
Lemma binary32_exact_u16 (n : Z) :
  0 <= n < 65536 -> (Binary32.value (Binary32.of_Z n) == inject_Z n)%Q.
Proof.
  intros Hn. apply Qeq_bool_iff.
  apply (all_from_spec
           (fun k => Qeq_bool (Binary32.value (Binary32.of_Z k)) (inject_Z k))
           (Z.to_nat 65536) 0 n); [vm_compute; reflexivity | rewrite Z2Nat.id; lia].
Qed.

Section ImageFacts.
Context {F : Type} {FA : FloatArith F}.

Lemma tabulate_well_formed (w h : Z) (f : Z -> Z -> Color4 F) :
  0 <= w -> 0 <= h -> well_formed (tabulate w h f).
Proof.
  intros Hw Hh. unfold well_formed, tabulate. simpl.
  rewrite length_tabulated. rewrite !Z.max_r by lia. auto.
Qed.

Lemma get_pixel_tabulate (w h : Z) (f : Z -> Z -> Color4 F) (x y : Z) :
  0 <= x < w -> 0 <= y < h -> get_pixel (tabulate w h f) x y = f x y.
Proof.
  intros Hx Hy. unfold get_pixel, tabulate. simpl.
  rewrite vec_at_tabulated by nia.
  rewrite cell_div, cell_mod by lia. reflexivity.
Qed.

Lemma tabulate_ext (w h : Z) (f g : Z -> Z -> Color4 F) :
  (forall x y, 0 <= x < w -> 0 <= y < h -> f x y = g x y) ->
  tabulate w h f = tabulate w h g.
Proof.
  intros Hfg. unfold tabulate. f_equal.
  apply tabulated_ext. intros i Hi.
  destruct (Z.max_spec 0 w) as [[? Hmw]|[? Hmw]];
    destruct (Z.max_spec 0 h) as [[? Hmh]|[? Hmh]];
    rewrite Hmw, Hmh in Hi; try lia.
  destruct (cell_bounds w h i) as [? ?]; [lia|lia|].
  apply Hfg; assumption.
Qed.

Lemma resize_image_well_formed (w h : Z) (img : HDRImage F) :
  0 <= w -> 0 <= h -> well_formed (resize_image w h img).
Proof.
  intros Hw Hh. unfold well_formed, resize_image. simpl.
  rewrite length_vec_resize. auto.
Qed.

(** A pass over all pixels of a well-formed image rewrites each pixel
    from its own old value. *)
Lemma sweep_pixels_spec (g : Z -> Z -> Color4 F -> Color4 F) (img : HDRImage F) :
  well_formed img ->
  sweep_pixels (width img) (height img) g img
  = tabulate (width img) (height img) (fun x y => g x y (get_pixel img x y)).
Proof.
  intros (Hw & Hh & Hlen).
  set (w := width img) in *. set (h := height img) in *.
  pose proof (fill_spec (@pixels F) (fun s => width s = w /\ height s = h) black w h 1
                (fun x y s => set_pixel s x y (g x y (get_pixel s x y)))
                (fun i old => g (i `mod` w) (i `div` w) old) Hw Hh) as Hfill.
  rewrite Z.mul_1_l in Hfill.
  destruct (Hfill ltac:(lia)) with (s0 := img) as [[Hw' Hh'] Hpix]; clear Hfill.
  - intros x y s _ _ [? ?]. simpl. auto.
  - intros x y s _ _ _. simpl. apply length_vec_set.
  - intros x y s i Hx Hy [Hws Hhs] Hl Hi. simpl.
    unfold get_pixel. rewrite Hws. rewrite Z.mul_1_l.
    destruct (Z.leb_spec (x + y * w) i); destruct (Z.ltb_spec i (x + y * w + 1)); simpl.
    + assert (i = x + y * w) by lia. subst i.
      rewrite vec_at_set_eq by lia.
      rewrite cell_div, cell_mod by lia. reflexivity.
    + apply vec_at_set_ne; lia.
    + apply vec_at_set_ne; lia.
    + lia.
  - auto.
  - exact Hlen.
  - unfold sweep_pixels.
    destruct (parallel_for 0 h _ img) as [w' h' px]. simpl in *. subst w' h' px.
    unfold tabulate. f_equal.
    rewrite !Z.max_r by lia. apply tabulated_ext. intros i Hi.
    unfold get_pixel. fold w.
    rewrite cell_split by nia. reflexivity.
Qed.

Lemma update_pixels_spec (g : Z -> Z -> Color4 F -> Color4 F) (img : HDRImage F) :
  well_formed img ->
  update_pixels g img
  = tabulate (width img) (height img) (fun x y => g x y (get_pixel img x y)).
Proof. apply sweep_pixels_spec. Qed.

End ImageFacts.

Section DeveloperFacts.
Context {F : Type} {FA : FloatArith F} {EX : Externals F}.

Lemma new_image_well_formed (w h : Z) :
  0 <= w -> 0 <= h -> well_formed (new_image (F:=F) w h).
Proof. apply tabulate_well_formed. Qed.

(** The two passes of [develop] around the demosaic kernel, pixel by
    pixel. *)
Lemma develop_spec (raw : list F) (param1 param2 : tinydng.DNGImage F) :
  demosaic_keeps_size ->
  0 <= tinydng.width param1 ->
  0 <= tinydng.height param1 ->
  develop raw param1 param2 = developed normalize_by_reciprocal raw param1 param2.
Proof.
  intros Hdemosaic Hw Hh.
  set (w := tinydng.width param1) in *. set (h := tinydng.height param1) in *.
  assert (Hmosaic : forall norm, well_formed (white_balanced_mosaic norm raw param1 param2))
    by (intros norm; apply tabulate_well_formed; assumption).
  unfold develop. cbv zeta. fold w h.
  rewrite (update_pixels_spec _ (new_image w h)) by (apply new_image_well_formed; lia).
  change (width (new_image w h)) with w. change (height (new_image w h)) with h.
  change (tabulate w h _)
    with (white_balanced_mosaic normalize_by_reciprocal raw param1 param2).
  set (pre := white_balanced_mosaic _ _ _ _) in *.
  set (ro := (Z.rem _ 2, Z.rem _ 2)).
  set (hint := mat_mul XYZD50ToXYZD65 _).
  destruct (Hdemosaic pre ro hint (Hmosaic _)) as (Hwf' & Hdw & Hdh).
  rewrite update_pixels_spec by exact Hwf'.
  rewrite Hdw, Hdh. reflexivity.
Qed.

(** In arithmetic that satisfies [reciprocal_law] the product with the
    reciprocal is the quotient. *)
Lemma developed_quotient_form (raw : list F) (param1 param2 : tinydng.DNGImage F) :
  reciprocal_law ->
  developed normalize_by_reciprocal raw param1 param2
  = developed normalize raw param1 param2.
Proof.
  intros Hrecip. unfold developed.
  replace (white_balanced_mosaic normalize raw param1 param2)
    with (white_balanced_mosaic normalize_by_reciprocal raw param1 param2);
    [reflexivity|].
  apply tabulate_ext. intros x y Hx Hy.
  unfold normalize_by_reciprocal, normalize. rewrite Hrecip. reflexivity.
Qed.

(** C2. Colour-matrix builder, default path: for every metadata record
    the camera to XYZ(D50) matrix is the inverse of the colour matrix of
    the second interpolation set, whatever the other fields hold; and the
    matrix through which [develop] sends every pixel in its last pass is
    the constant XYZD50TosRGB times that inverse: pixel [(x, y)] of the
    result is that product applied to the demosaiced pixel times the white
    balance.  The demosaic kernel is assumed to return an image of the
    same size. *)
Theorem camera_matrix_default_path (raw : list F) (param1 param2 : tinydng.DNGImage F) :
  demosaic_keeps_size ->
  0 <= tinydng.width param1 ->
  0 <= tinydng.height param1 ->
  (forall param : tinydng.DNGImage F,
     computeCameraToXYZD50 param = mat_inverse (tinydng.color_matrix2 param)) /\
  (forall x y, 0 <= x < tinydng.width param1 -> 0 <= y < tinydng.height param1 ->
     let M := mat_mul XYZD50TosRGB (mat_inverse (tinydng.color_matrix2 param2)) in
     let wb := tinydng.as_shot_neutral param2 in
     let demosaiced :=
       demosaicAHD (white_balanced_mosaic normalize_by_reciprocal raw param1 param2)
         (Z.rem (vec_at 0 (tinydng.active_area param1) 1) 2,
          Z.rem (vec_at 0 (tinydng.active_area param1) 0) 2)
         (mat_mul XYZD50ToXYZD65 (mat_inverse (tinydng.color_matrix2 param2))) in
     let c := get_pixel demosaiced x y in
     let sRGB := mat_vec M (fmul (red c) (vec_x wb), fmul (green c) (vec_y wb),
                            fmul (blue c) (vec_z wb)) in
     get_pixel (develop raw param1 param2) x y
     = mkColor4 (vec_x sRGB) (vec_y sRGB) (vec_z sRGB) (of_int 1)).
Proof.
  intros Hdemosaic Hw Hh. split.
  - intros param. unfold computeCameraToXYZD50. reflexivity.
  - intros x y Hx Hy. cbv zeta.
    rewrite develop_spec by assumption. unfold developed.
    rewrite get_pixel_tabulate by assumption. reflexivity.
Qed.

(** C1 (as amended). Raw development: every mosaic sample is normalised
    to clamp((raw[i] - b) * (1 / (W - b)), 0, 1), the quotient by W - b
    being taken as the product with the reciprocal, and divided by the
    white balance before the demosaic kernel runs; afterwards each pixel
    is multiplied by the white balance and sent through the camera to sRGB
    matrix; alpha is 1 before and after.  The kernel is assumed to return
    an image of the same size. *)
Theorem develop_pipeline (raw : list F) (param1 param2 : tinydng.DNGImage F) :
  demosaic_keeps_size ->
  0 <= tinydng.width param1 ->
  0 <= tinydng.height param1 ->
  develop raw param1 param2 = developed normalize_by_reciprocal raw param1 param2 /\
  (forall x y, 0 <= x < tinydng.width param1 -> 0 <= y < tinydng.height param1 ->
     alpha (get_pixel (white_balanced_mosaic normalize_by_reciprocal raw param1 param2) x y)
     = of_int 1 /\
     alpha (get_pixel (develop raw param1 param2) x y) = of_int 1).
Proof.
  intros Hdemosaic Hw Hh.
  pose proof (develop_spec raw param1 param2 Hdemosaic Hw Hh) as Hdev.
  split; [exact Hdev|].
  intros x y Hx Hy. split.
  - unfold white_balanced_mosaic.
    rewrite get_pixel_tabulate by assumption. reflexivity.
  - rewrite Hdev. unfold developed.
    rewrite get_pixel_tabulate by assumption. reflexivity.
Qed.

End DeveloperFacts.

(** ** The bit unpacker on concrete buffers *)

(** C3 (as amended). The unpacker reads 12-bit samples most significant
    bits first: the buffer [0xBC, 0x2A, 0x13], decoded as two samples
    without endian swap, yields [0xBC2, 0xA13]; the samples
    [0xABC, 0x123] are what the buffer [0xAB, 0xC1, 0x23] decodes to. *)
Theorem decode12_golden_vectors :
  decode12BitToFloat (F := spec_float) [] Examples.packed_spec 2 1 false
  = [of_int 0xBC2; of_int 0xA13] /\
  decode12BitToFloat (F := spec_float) [] Examples.packed_msb_first 2 1 false
  = [of_int 0xABC; of_int 0x123].
Proof. split; vm_compute; reflexivity. Qed.

(** C3 as stated fails: [0xBC, 0x2A, 0x13] does not decode to
    [0xABC, 0x123]. *)
Lemma decode12_golden_counterexample :
  decode12BitToFloat (F := spec_float) [] Examples.packed_spec 2 1 false
  <> [of_int 0xABC; of_int 0x123].
Proof. vm_compute. discriminate. Qed.

(** C4. Without endian swap the 16-bit unpacker returns one float per
    sample, and float [i] is exactly the integer that the bytes at offsets
    [2 i] (low) and [2 i + 1] (high) form, a value from 0 to 65535. *)
Theorem decode16_identity (image : list spec_float) (data : list byte) (w h : Z) :
  0 <= w -> 0 <= h -> length data = Z.to_nat (2 * (w * h)) ->
  length (decode16BitToFloat image data w h false) = Z.to_nat (w * h) /\
  forall i, 0 <= i < w * h ->
    exists b0 b1 v,
      data !! Z.to_nat (2 * i) = Some b0 /\
      data !! Z.to_nat (2 * i + 1) = Some b1 /\
      decode16BitToFloat image data w h false !! Z.to_nat i = Some v /\
      v = of_int (byte_val b0 + 256 * byte_val b1) /\
      (Binary32.value v == inject_Z (byte_val b0 + 256 * byte_val b1))%Q /\
      0 <= byte_val b0 + 256 * byte_val b1 <= 65535.
Proof.
  intros Hw Hh Hlen.
  rewrite decode16BitToFloat_spec by assumption.
  split; [apply length_tabulated|].
  intros i Hi.
  destruct (lookup_lt_is_Some_2 data (Z.to_nat (2 * i))) as [b0 Hb0]; [lia|].
  destruct (lookup_lt_is_Some_2 data (Z.to_nat (2 * i + 1))) as [b1 Hb1]; [lia|].
  assert (Hshort : ushort_at data i = byte_val b0 + 256 * byte_val b1).
  { unfold ushort_at, byte_at.
    rewrite (vec_at_lookup 0 _ (2 * i) (byte_val b0));
      [|lia|rewrite list_lookup_fmap, Hb0; reflexivity].
    rewrite (vec_at_lookup 0 _ (2 * i + 1) (byte_val b1));
      [|lia|rewrite list_lookup_fmap, Hb1; reflexivity].
    reflexivity. }
  pose proof (ushort_at_range data i) as Hrange. rewrite Hshort in Hrange.
  exists b0, b1, (of_int (byte_val b0 + 256 * byte_val b1)).
  split; [exact Hb0|]. split; [exact Hb1|]. split.
  - rewrite list_lookup_fmap. rewrite lookup_seqZ_lt by lia.
    rewrite Z2Nat.id by lia. cbn [fmap option_fmap option_map].
    rewrite Z.add_0_l, Hshort. reflexivity.
  - split; [reflexivity|]. split; [|lia].
    apply binary32_exact_u16. lia.
Qed.

Lemma decode16_identity_witness :
  length (decode16BitToFloat (F := spec_float) [] Examples.two_shorts 2 1 false)
  = Z.to_nat (2 * 1) /\
  forall i, 0 <= i < 2 * 1 ->
    exists b0 b1 v,
      Examples.two_shorts !! Z.to_nat (2 * i) = Some b0 /\
      Examples.two_shorts !! Z.to_nat (2 * i + 1) = Some b1 /\
      decode16BitToFloat [] Examples.two_shorts 2 1 false !! Z.to_nat i = Some v /\
      v = of_int (byte_val b0 + 256 * byte_val b1) /\
      (Binary32.value v == inject_Z (byte_val b0 + 256 * byte_val b1))%Q /\
      0 <= byte_val b0 + 256 * byte_val b1 <= 65535.
Proof.
  apply (decode16_identity [] Examples.two_shorts 2 1); [lia | lia | reflexivity].
Defined.

(** The two samples of the example, read back. *)
Example decode16_two_shorts :
  Binary32.trunc <$> decode16BitToFloat (F := spec_float) [] Examples.two_shorts 2 1 false
  = [0x1234; 0xFFFF].
Proof. vm_compute. reflexivity. Qed.

(** ** The raw developer on an example *)

Lemma exact_reciprocal_law : reciprocal_law (F := Qc).
Proof.
  intros x k. simpl. unfold Qcdiv.
  change (Exact.of_Z 1) with 1%Qc. rewrite Qcmult_1_l. reflexivity.
Qed.

Lemma stand_in_keeps_size {F : Type} {FA : FloatArith F} (table : Z -> Z) :
  demosaic_keeps_size (F := F) (EX := stand_in table).
Proof. intros img ro hint Hwf. simpl. auto. Qed.

Lemma develop_pipeline_witness :
  let raw : list spec_float := DevelopExamples.ten_bit_raw in
  let param : tinydng.DNGImage spec_float := DevelopExamples.ten_bit_capture in
  develop (EX := Examples.binary32_lib) raw param param
  = developed (EX := Examples.binary32_lib) normalize_by_reciprocal raw param param /\
  (forall x y, 0 <= x < tinydng.width param -> 0 <= y < tinydng.height param ->
     alpha (get_pixel (white_balanced_mosaic normalize_by_reciprocal raw param param) x y)
     = of_int 1 /\
     alpha (get_pixel (develop (EX := Examples.binary32_lib) raw param param) x y) = of_int 1).
Proof.
  intros raw param.
  apply (develop_pipeline (EX := Examples.binary32_lib) raw param param).
  - apply stand_in_keeps_size.
  - simpl. lia.
  - simpl. lia.
Defined.

(** C1 as stated fails in single precision: for the sample 464 between
    the levels 0 and 1023 the claim's quotient 464 / 1023 is
    15219215 * 2^-25, and [develop] computes 464 * (1 / 1023), which is
    15219214 * 2^-25; the developed images differ. *)
Lemma develop_counterexample :
  normalize DevelopExamples.ten_bit_raw 0 1023 0 = S754_finite false 15219215 (-25) /\
  normalize_by_reciprocal DevelopExamples.ten_bit_raw 0 1023 0
  = S754_finite false 15219214 (-25) /\
  develop (EX := Examples.binary32_lib) DevelopExamples.ten_bit_raw
    DevelopExamples.ten_bit_capture DevelopExamples.ten_bit_capture
  <> developed (EX := Examples.binary32_lib) normalize DevelopExamples.ten_bit_raw
       DevelopExamples.ten_bit_capture DevelopExamples.ten_bit_capture.
Proof. vm_compute. repeat split; discriminate. Qed.

Lemma camera_matrix_default_path_witness :
  let raw : list spec_float := DevelopExamples.ten_bit_raw in
  let param : tinydng.DNGImage spec_float := DevelopExamples.ten_bit_capture in
  (forall param : tinydng.DNGImage spec_float,
     computeCameraToXYZD50 (EX := Examples.binary32_lib) param
     = mat_inverse (Externals := Examples.binary32_lib) (tinydng.color_matrix2 param)) /\
  (forall x y, 0 <= x < tinydng.width param -> 0 <= y < tinydng.height param ->
     let M := mat_mul (Externals := Examples.binary32_lib) XYZD50TosRGB
                (mat_inverse (Externals := Examples.binary32_lib)
                   (tinydng.color_matrix2 param)) in
     let wb := tinydng.as_shot_neutral param in
     let demosaiced :=
       demosaicAHD (Externals := Examples.binary32_lib)
         (white_balanced_mosaic normalize_by_reciprocal raw param param)
         (Z.rem (vec_at 0 (tinydng.active_area param) 1) 2,
          Z.rem (vec_at 0 (tinydng.active_area param) 0) 2)
         (mat_mul (Externals := Examples.binary32_lib) XYZD50ToXYZD65
            (mat_inverse (Externals := Examples.binary32_lib)
               (tinydng.color_matrix2 param))) in
     let c := get_pixel demosaiced x y in
     let sRGB := mat_vec (Externals := Examples.binary32_lib) M
                   (fmul (red c) (vec_x wb), fmul (green c) (vec_y wb),
                    fmul (blue c) (vec_z wb)) in
     get_pixel (develop (EX := Examples.binary32_lib) raw param param) x y
     = mkColor4 (vec_x sRGB) (vec_y sRGB) (vec_z sRGB) (of_int 1)).
Proof.
  intros raw param.
  apply (camera_matrix_default_path (EX := Examples.binary32_lib) raw param param).
  - apply stand_in_keeps_size.
  - simpl. lia.
  - simpl. lia.
Defined.

(** The developed pixels of the example: the samples 5 and 12 between the
    levels 0 and 10 become 1/2 and 1, and the matrices are the identity up
    to the constant XYZD50TosRGB. *)
Example develop_example_mosaic :
  pixels (white_balanced_mosaic (F := Qc) normalize [of_int 5; of_int 12]
            (Examples.capture 2 1 16 1 0 []) (Examples.capture 2 1 16 1 0 []))
  = [mkColor4 (of_ratio 1 4) (of_ratio 1 2) (of_ratio 1 8) (of_int 1);
     mkColor4 (of_ratio 1 2) (of_int 1) (of_ratio 1 4) (of_int 1)].
Proof. vm_compute. repeat f_equal; apply Qc_is_canon; reflexivity. Qed.

(** ** The load dispatcher *)



Section DispatcherFacts.
Context {F : Type} {FA : FloatArith F} {EX : Externals F}.

Lemma resize_to_empty (img : HDRImage F) : resize_image 0 0 img = empty_image.
Proof. unfold resize_image, vec_resize. destruct (pixels img); reflexivity. Qed.







End DispatcherFacts.


(** The diagnostic of the example. *)
Example unrecognised_diagnostic :
  console_error (load (F := Qc) (EX := Examples.exact_lib)
                   (unrecognised "notes.dng") Examples.four_pixels)
  = ["ERROR: Unable to read image file " +:+ dquote +:+ "notes.dng" +:+ dquote +:+ ":"
     +:+ newline +:+ tab +:+ "Failed to load DNG. File not found or cannot open file"
     +:+ newline].
Proof. vm_compute. reflexivity. Qed.

(** ** Single loops over a buffer *)

Lemma for_loop_cells {A : Type} (d : A) (n : Z) (body : Z -> list A -> list A)
    (R : Z -> A -> A) (v : list A) :
  0 <= n -> length v = Z.to_nat n ->
  (forall i s, length (body i s) = length s) ->
  (forall i s j, 0 <= i < n -> length s = Z.to_nat n -> 0 <= j < n ->
     vec_at d (body i s) j = if j =? i then R i (vec_at d s i) else vec_at d s j) ->
  for_loop 0 n body v = (fun i => R i (vec_at d v i)) <$> seqZ 0 n.
Proof.
  intros Hn Hlen Hbl Hbc.
  assert (Hcells : for_loop 0 1 (fun y s => for_loop 0 n (fun x s => body x s) s) v
                   = (fun i => R i (vec_at d v i)) <$> seqZ 0 (1 * (n * 1))).
  { apply (fill_spec (fun s : list A => s) (fun _ => True) d n 1 1
             (fun x _ s => body x s) R Hn ltac:(lia) ltac:(lia)).
    - intros; exact I.
    - intros; apply Hbl.
    - intros x y s i Hx Hy _ Hl Hi.
      rewrite (Hbc x s i) by lia.
      replace (1 * (x + y * n)) with x by lia.
      destruct (Z.eqb_spec i x) as [Heq|Hne];
        destruct (Z.leb_spec x i); destruct (Z.ltb_spec i (x + 1));
        simpl; try lia; try reflexivity.
      rewrite Heq. reflexivity.
    - exact I.
    - rewrite Hlen. f_equal. lia. }
  replace (1 * (n * 1)) with n in Hcells by lia.
  rewrite <- Hcells. reflexivity.
Qed.

Section RawPathFacts.
Context {F : Type} {FA : FloatArith F} {EX : Externals F}.

Lemma decode12BitToFloat_length (image : list F) (data : list byte) (w h : Z) (swap : bool) :
  0 <= w -> 0 <= h -> length (decode12BitToFloat image data w h swap) = Z.to_nat (w * h).
Proof.
  intros Hw Hh. unfold decode12BitToFloat.
  rewrite (sample_loop_spec (of_int 0) (decode12_sample data w swap)) by assumption.
  apply length_tabulated.
Qed.

Lemma decode14BitToFloat_length (image : list F) (data : list byte) (w h : Z) (swap : bool) :
  0 <= w -> 0 <= h -> length (decode14BitToFloat image data w h swap) = Z.to_nat (w * h).
Proof.
  intros Hw Hh. unfold decode14BitToFloat.
  rewrite (sample_loop_spec (of_int 0) (decode14_sample data w swap)) by assumption.
  apply length_tabulated.
Qed.

Lemma decode16BitToFloat_length (image : list F) (data : list byte) (w h : Z) (swap : bool) :
  0 <= w -> 0 <= h -> length (decode16BitToFloat image data w h swap) = Z.to_nat (w * h).
Proof.
  intros Hw Hh. rewrite decode16BitToFloat_spec by assumption. apply length_tabulated.
Qed.

Lemma unpack_length (image : tinydng.DNGImage F) (w h spp : Z) (raw : list F) :
  0 <= w -> 0 <= h * spp ->
  unpack image w h spp = inr raw -> length raw = Z.to_nat (w * (h * spp)).
Proof.
  intros Hw Hh. unfold unpack, data_from_0, checked_resize.
  destruct (tinydng.bits_per_sample image =? 12);
    [|destruct (tinydng.bits_per_sample image =? 14);
      [|destruct (tinydng.bits_per_sample image =? 16); [|discriminate]]].
  all: destruct (tinydng.data image); simpl; [discriminate|].
  all: destruct (Z.ltb_spec (w * (h * spp)) 0); simpl; [discriminate|].
  all: intros Hraw; injection Hraw as <-.
  - apply decode12BitToFloat_length; assumption.
  - apply decode14BitToFloat_length; assumption.
  - apply decode16BitToFloat_length; assumption.
Qed.

(** The branch for three samples per pixel scales every sample twice
    before it adds the channel number. *)
Lemma develop_spp3_spec (raw : list F) (w h : Z) (invScale : F) (this : HDRImage F) :
  0 <= w -> 0 <= h -> length raw = Z.to_nat (w * (h * 3)) ->
  develop_spp3 raw w h invScale this = tabulate w h (spp3_pixel raw w invScale).
Proof.
  intros Hw Hh Hlen. unfold develop_spp3, parallel_for.
  rewrite (for_loop_cells (of_int 0) (Z.of_nat (length raw))
             (fun i hdr => vec_set hdr i (fmul (vec_at (of_int 0) hdr i) invScale))
             (fun _ old => fmul old invScale)).
  - pose proof (resize_image_well_formed w h this Hw Hh) as Hwf.
    pose proof (sweep_pixels_spec (F := F)) as Hsweep.
    specialize (Hsweep
      (fun x y _ =>
         let index := 3 * y * w + x in
         let hdr := (fun i => fmul (vec_at (of_int 0) raw i) invScale)
                      <$> seqZ 0 (Z.of_nat (length raw)) in
         mkColor4 (fadd (fmul (vec_at (of_int 0) hdr index) invScale) (of_int 0))
                  (fadd (fmul (vec_at (of_int 0) hdr index) invScale) (of_int 1))
                  (fadd (fmul (vec_at (of_int 0) hdr index) invScale) (of_int 2))
                  (of_int 1)) (resize_image w h this) Hwf).
    change (width (resize_image w h this)) with w in Hsweep.
    change (height (resize_image w h this)) with h in Hsweep.
    cbv zeta in Hsweep. rewrite Hsweep.
    apply tabulate_ext. intros x y Hx Hy.
    unfold spp3_pixel, spp3_channel.
    rewrite vec_at_tabulated by (rewrite Hlen; nia).
    reflexivity.
  - lia.
  - lia.
  - intros. apply length_vec_set.
  - intros i s j Hi Hl Hj.
    destruct (Z.eqb_spec j i) as [->|Hne].
    + apply vec_at_set_eq; lia.
    + apply vec_at_set_ne; lia.
Qed.

(** C9 (as amended). A raw container whose widest image has three samples
    per pixel is developed without the demosaic kernel: before the crop to
    the active area and the orientation, channel [c] of pixel [(x, y)] is
    [(raw[3 y w + x] * invScale) * invScale + c] with
    [invScale = 1 / 2^bits_per_sample] and [raw] the unpacked samples, and
    alpha is 1. *)
Theorem spp3_raw_path (f : File F) (this : HDRImage F)
    (images : list (tinydng.DNGImage F)) (raw : list F) :
  let image := image_at images (find_largest images) in
  let w := tinydng.width image in
  let h := tinydng.height image in
  let invScale := fdiv (of_int 1) (of_int (2 ^ tinydng.bits_per_sample image)) in
  isSTBImage f = false -> isPFMImage f = false ->
  has_suffix4 (filename f) ".npy" = false -> isOpenExrFile f = false ->
  LoadDNG f = inr images ->
  tinydng.samples_per_pixel image = 3 ->
  0 <= w -> 0 <= h -> 0 <= tinydng.bits_per_sample image ->
  unpack image w h 3 = inr raw ->
  load f this
  = mkLoadResult (Returned true)
      (apply_orientation (find_orientation images)
         (crop_active_area image w h (tabulate w h (spp3_pixel raw w invScale))))
      [].
Proof.
  intros image w h invScale Hstb Hpfm Hnpy Hexr Hdng Hspp Hw Hh Hbits Hraw.
  unfold load, load_stb, load_pfm, load_npy, load_exr.
  rewrite Hstb, Hpfm, Hnpy, Hexr.
  unfold try_dng. rewrite Hdng. cbn [bind ret].
  fold image. fold w. fold h. rewrite Hspp, Hraw. cbn [bind ret Z.eqb Pos.eqb].
  rewrite develop_spp3_spec; try assumption.
  - rewrite Z.shiftl_1_l. reflexivity.
  - apply (unpack_length image w h 3); [assumption|lia|assumption].
Qed.

End RawPathFacts.

Lemma spp3_raw_path_witness :
  load (F := spec_float) (EX := Examples.binary32_lib) LoadExamples.rgb_dng empty_image
  = mkLoadResult (Returned true)
      (apply_orientation 0
         (crop_active_area (Examples.capture 1 1 16 3 0 LoadExamples.rgb_samples) 1 1
            (tabulate 1 1
               (spp3_pixel (decode16BitToFloat [] LoadExamples.rgb_samples 1 3 false) 1
                  (fdiv (of_int 1) (of_int (2 ^ 16)))))))
      [].
Proof.
  apply (spp3_raw_path (EX := Examples.binary32_lib) LoadExamples.rgb_dng empty_image
           [Examples.capture 1 1 16 3 0 LoadExamples.rgb_samples]
           (decode16BitToFloat [] LoadExamples.rgb_samples 1 3 false));
    first [reflexivity | vm_compute; discriminate].
Defined.

(** C9 as stated fails: the container [rgb_dng] has the single sample
    0x8000 at index 0, so the claim gives 0x8000 / 0x10000 + 0 = 1/2 for the
    red channel of pixel (0, 0); [load] stores 2^-17. *)
Lemma spp3_counterexample :
  let r := load (F := spec_float) (EX := Examples.binary32_lib)
             LoadExamples.rgb_dng empty_image in
  let raw := decode16BitToFloat (F := spec_float) [] LoadExamples.rgb_samples 1 3 false in
  outcome r = Returned true /\
  raw = [of_int 0x8000; of_int 0; of_int 0] /\
  spp3_channel_spec raw 1 (fdiv (of_int 1) (of_int (2 ^ 16))) 0 0 0 = of_ratio 1 2 /\
  red (get_pixel (image r) 0 0) = of_ratio 1 131072 /\
  red (get_pixel (image r) 0 0)
  <> spp3_channel_spec raw 1 (fdiv (of_int 1) (of_int (2 ^ 16))) 0 0 0.
Proof.
  vm_compute. repeat split; discriminate.
Qed.

Section DispatcherPaths.
Context {F : Type} {FA : FloatArith F} {EX : Externals F}.

(** C10. A file named [.npy] that holds a three-dimensional array with
    four channels of bytes, and that neither the stb nor the PFM probe
    recognises: [load] returns true and the image is the one it was
    before the call, neither resized nor written. *)
Theorem npy_uint8_silent_success (f : File F) (this : HDRImage F) (w h : Z) :
  isSTBImage f = false -> isPFMImage f = false ->
  has_suffix4 (filename f) ".npy" = true ->
  LoadNPY (npy f) = None ->
  Shape (npy f) = [h; w; 4] ->
  ValueType (npy f) = NpyUInt8 ->
  load f this = mkLoadResult (Returned true) this [].
Proof.
  intros Hstb Hpfm Hname Hload Hshape Htype.
  unfold load, load_stb, load_pfm, load_npy, try_npy.
  rewrite Hstb, Hpfm, Hname, Hload, Hshape, Htype. reflexivity.
Qed.

(** C7. The orientation switch leaves the image as it is for code 1 and
    for every code below 1 or above 8, and for code 3 it yields the image
    flipped horizontally and then vertically, pixel for pixel. *)
Theorem orientation_normalizer (orientation : Z) (img : HDRImage F) :
  orientation = 1 \/ orientation < 1 \/ 8 < orientation ->
  apply_orientation orientation img = img /\
  apply_orientation 3 img = flippedVertical (flippedHorizontal img).
Proof.
  intros Hcode. split.
  - unfold apply_orientation, ORIENTATION_TOPRIGHT, ORIENTATION_BOTRIGHT,
      ORIENTATION_BOTLEFT, ORIENTATION_LEFTTOP, ORIENTATION_RIGHTTOP,
      ORIENTATION_RIGHTBOT, ORIENTATION_LEFTBOT.
    repeat match goal with
           | |- context [?a =? ?b] => destruct (Z.eqb_spec a b); [lia|]
           end.
    reflexivity.
  - change (apply_orientation 3 img) with (flippedHorizontal (flippedVertical img)).
    unfold flippedHorizontal, flippedVertical.
    change (width (tabulate (width img) (height img) ?g)) with (width img).
    change (height (tabulate (width img) (height img) ?g)) with (height img).
    apply tabulate_ext. intros x y Hx Hy.
    rewrite !get_pixel_tabulate by lia. reflexivity.
Qed.

Lemma depth_scalars_spec (data16 : list Z) (w h : Z) :
  0 <= w -> 0 <= h ->
  depth_scalars data16 w h
  = (fun i => depth_value (vec_at 0 data16 i)) <$> seqZ 0 (w * h).
Proof.
  intros Hw Hh. unfold depth_scalars.
  rewrite (for_loop_cells (of_int 0) (w * h) _
             (fun i _ => depth_value (vec_at 0 data16 i))).
  - reflexivity.
  - nia.
  - apply length_vec_resize.
  - intros i s. destruct (flt _ _); rewrite ?length_vec_set; reflexivity.
  - intros i s j Hi Hl Hj. cbv zeta.
    rewrite (vec_at_set_eq (of_int 0) s i) by lia.
    unfold depth_value.
    destruct (flt (of_int 5) (fdiv (of_int (vec_at 0 data16 i)) (of_int 1000)));
      destruct (Z.eqb_spec j i) as [Heq|Hne]; try rewrite Heq.
    + apply vec_at_set_eq; [lia|]. rewrite length_vec_set. lia.
    + rewrite !vec_at_set_ne by lia. reflexivity.
    + apply vec_at_set_eq; lia.
    + apply vec_at_set_ne; lia.
Qed.

(** C8. A file that the stb probe recognises, named [.png], with one
    channel and decoded at 16 bits per channel: the scalars that [load]
    hands to the conversion to four channels are, pixel by pixel, the raw
    16-bit integer divided by 1000, with 0 in place of every quotient
    above 5. *)
Theorem depth_png_scalars (f : File F) (this : HDRImage F) :
  let m := stbi_load_main f in
  let w := main_w m in
  let h := main_h m in
  isSTBImage f = true ->
  stb_n (stbi_loadf f) = 1 ->
  has_suffix4 (filename f) ".png" = true ->
  bits_per_channel m = 16 ->
  0 <= w -> 0 <= h ->
  exists data : list F,
    length data = Z.to_nat (w * h) /\
    (forall i, 0 <= i < w * h ->
       data !! Z.to_nat i
       = Some (let v := fdiv (of_int (vec_at 0 (data16 m) i)) (of_int 1000) in
               if flt (of_int 5) v then of_int 0 else v)) /\
    load f this
    = match copyPixelsFromArray (resize_image w h this) data w h (main_n m) false true with
      | inr img => mkLoadResult (Returned true) img []
      | inl what => mkLoadResult (Thrown what) (resize_image w h this) []
      end.
Proof.
  intros m w h Hstb Hn Hname Hbits Hw Hh.
  exists (depth_scalars (data16 m) w h).
  rewrite depth_scalars_spec by assumption.
  split; [apply length_tabulated|]. split.
  - intros i Hi. rewrite list_lookup_fmap, lookup_seqZ_lt by lia.
    rewrite Z2Nat.id by lia. reflexivity.
  - rewrite <- depth_scalars_spec by assumption.
    unfold load, load_stb. fold m. rewrite Hstb, Hn, Hname, Hbits.
    cbn [Z.eqb Pos.eqb andb]. fold w h.
    destruct (copyPixelsFromArray _ _ _ _ _ _ _); reflexivity.
Qed.

End DispatcherPaths.

Lemma npy_uint8_silent_success_witness :
  load (F := Qc) (EX := Examples.exact_lib)
    (LoadExamples.npy_rgba8 "scan_rgba.npy" 3 2) Examples.four_pixels
  = mkLoadResult (Returned true) Examples.four_pixels [].
Proof.
  apply (npy_uint8_silent_success (EX := Examples.exact_lib)
           (LoadExamples.npy_rgba8 "scan_rgba.npy" 3 2) Examples.four_pixels 3 2);
    reflexivity.
Defined.

Lemma orientation_normalizer_witness :
  apply_orientation 0 (Examples.four_pixels (F := Qc)) = Examples.four_pixels /\
  apply_orientation 3 (Examples.four_pixels (F := Qc))
  = flippedVertical (flippedHorizontal Examples.four_pixels).
Proof.
  apply (orientation_normalizer 0 (Examples.four_pixels (F := Qc))). right. left. lia.
Defined.

(** Code 3 on the example: the four pixels in reverse order. *)
Example orientation_3_four_pixels :
  pixels (apply_orientation 3 (Examples.four_pixels (F := Qc)))
  = rev (pixels Examples.four_pixels).
Proof. vm_compute. reflexivity. Qed.

Lemma depth_png_scalars_witness :
  exists data : list spec_float,
    length data = Z.to_nat (2 * 1) /\
    (forall i, 0 <= i < 2 * 1 ->
       data !! Z.to_nat i
       = Some (let v := fdiv (of_int (vec_at 0 [1500; 7000] i)) (of_int 1000) in
               if flt (of_int 5) v then of_int 0 else v)) /\
    load (EX := Examples.binary32_lib) LoadExamples.depth_file empty_image
    = match copyPixelsFromArray (EX := Examples.binary32_lib)
              (resize_image 2 1 empty_image) data 2 1 1 false true with
      | inr img => mkLoadResult (Returned true) img []
      | inl what => mkLoadResult (Thrown what) (resize_image 2 1 empty_image) []
      end.
Proof.
  apply (depth_png_scalars (EX := Examples.binary32_lib) LoadExamples.depth_file empty_image);
    first [reflexivity | vm_compute; discriminate].
Defined.

(** The scalars of the example: 1500 / 1000 is kept, 7000 / 1000 becomes 0. *)
Example depth_file_scalars :
  depth_scalars (F := spec_float) [1500; 7000] 2 1 = [of_ratio 3 2; of_int 0].
Proof. vm_compute. reflexivity. Qed.

(** ** The quantiser of [save] *)

Section SaveFacts.
Context {F : Type} {FA : FloatArith F} {EX : Externals F}.

Lemma channel_quantize_pixel (dither : bool) (x y k : Z) (c : Color4 F) :
  0 <= k < 3 ->
  ftrunc (channel (quantize_pixel dither x y c) k) = quantized dither x y (channel c k).
Proof.
  intros Hk. unfold quantize_pixel, quantized, channel, color_map, color_zip.
  destruct (Z.eqb_spec k 0); [destruct dither; reflexivity|].
  destruct (Z.eqb_spec k 1); [destruct dither; reflexivity|].
  destruct (Z.eqb_spec k 2); [destruct dither; reflexivity|lia].
Qed.

(** The buffer of [to_8bit]: three bytes per pixel, row after row. *)
Lemma to_8bit_spec (this img : HDRImage F) (dither : bool) :
  0 <= width this -> 0 <= height this ->
  to_8bit this img dither
  = (fun i => let q := i `div` 3 in
              quantized dither (q `mod` width this) (q `div` width this)
                (channel (get_pixel img (q `mod` width this) (q `div` width this))
                         (i `mod` 3)))
    <$> seqZ 0 (3 * (width this * height this)).
Proof.
  intros Hw Hh. unfold to_8bit. set (w := width this). set (h := height this).
  pose proof (fill_spec (fun s : list Z => s) (fun _ => True) 0 w h 3
    (fun x y data =>
       let c := quantize_pixel dither x y (get_pixel img x y) in
       let data := vec_set data (3 * x + 3 * y * w + 0) (ftrunc (channel c 0)) in
       let data := vec_set data (3 * x + 3 * y * w + 1) (ftrunc (channel c 1)) in
       let data := vec_set data (3 * x + 3 * y * w + 2) (ftrunc (channel c 2)) in
       data)
    (fun i _ => let q := i `div` 3 in
                quantized dither (q `mod` w) (q `div` w)
                  (channel (get_pixel img (q `mod` w) (q `div` w)) (i `mod` 3)))
    Hw Hh ltac:(lia)) as Hfill.
  apply Hfill; clear Hfill.
  - intros; exact I.
  - intros. cbv zeta. rewrite !length_vec_set. reflexivity.
  - intros x y s i Hx Hy _ Hl Hi. cbv zeta.
    assert (Hcell : 0 <= x + y * w) by nia.
    destruct (Z.leb_spec (3 * (x + y * w)) i);
      destruct (Z.ltb_spec i (3 * (x + y * w) + 3)); simpl.
    + assert (Hq : i `div` 3 = x + y * w)
        by (symmetry; apply Z.div_unique with (r := i - 3 * (x + y * w)); lia).
      assert (Hk : i `mod` 3 = i - 3 * (x + y * w))
        by (symmetry; apply Z.mod_unique with (q := x + y * w); lia).
      rewrite Hq, cell_mod, cell_div by lia. rewrite Hk.
      rewrite <- channel_quantize_pixel by lia.
      assert (Hcases : i = 3 * x + 3 * y * w + 0 \/ i = 3 * x + 3 * y * w + 1
                       \/ i = 3 * x + 3 * y * w + 2) by lia.
      destruct Hcases as [Hi0|[Hi1|Hi2]].
      * rewrite vec_at_set_ne by lia. rewrite vec_at_set_ne by lia.
        rewrite Hi0 at 1. rewrite vec_at_set_eq by lia.
        replace (i - 3 * (x + y * w)) with 0 by lia. reflexivity.
      * rewrite vec_at_set_ne by lia.
        rewrite Hi1 at 1. rewrite vec_at_set_eq by (rewrite ?length_vec_set; lia).
        replace (i - 3 * (x + y * w)) with 1 by lia. reflexivity.
      * rewrite Hi2 at 1. rewrite vec_at_set_eq by (rewrite ?length_vec_set; lia).
        replace (i - 3 * (x + y * w)) with 2 by lia. reflexivity.
    + rewrite !vec_at_set_ne by lia. reflexivity.
    + rewrite !vec_at_set_ne by lia. reflexivity.
    + rewrite !vec_at_set_ne by lia. reflexivity.
  - exact I.
  - rewrite length_replicate. f_equal. lia.
Qed.

Lemma save_eight_bit (this : HDRImage F) (filename : string) (gain gamma : F)
    (sRGB dither : bool) :
  eight_bit_extension (tolower_string (getExtension filename)) = true ->
  written_bytes (save this filename gain gamma sRGB dither)
  = Some (3, to_8bit this (tonemap this false gain gamma sRGB) dither).
Proof.
  unfold save, eight_bit_extension.
  set (e := tolower_string (getExtension filename)).
  destruct (String.eqb_spec e "hdr") as [->|_]; [discriminate|].
  destruct (String.eqb_spec e "pfm") as [->|_]; [discriminate|].
  destruct (String.eqb_spec e "exr") as [->|_]; [discriminate|].
  cbn [orb].
  destruct (String.eqb e "ppm"); [reflexivity|].
  destruct (String.eqb e "png"); [reflexivity|].
  destruct (String.eqb e "bmp"); [reflexivity|].
  destruct (String.eqb e "tga"); [reflexivity|].
  destruct (String.eqb e "jpg"); [reflexivity|].
  destruct (String.eqb e "jpeg"); [reflexivity|discriminate].
Qed.

(** C5 (as amended). Saving to an 8-bit format writes three bytes per
    pixel, alpha left out; the byte of channel [k] of pixel [(x, y)] is
    truncate(min(max(255 * (c + d), 0), 255)), where [c] is the channel of
    the tone-mapped image and [d] is the dither offset
    (table[x mod 256 + 256 (y mod 256)] / 65536 - 0.5) / 255, which is
    added to [c] before the scaling by 255; without dither nothing is
    added. *)
Theorem save_8bit_quantization (this : HDRImage F) (filename : string)
    (gain gamma : F) (sRGB dither : bool) :
  let img := tonemap this false gain gamma sRGB in
  eight_bit_extension (tolower_string (getExtension filename)) = true ->
  0 <= width this -> 0 <= height this ->
  exists data : list Z,
    written_bytes (save this filename gain gamma sRGB dither) = Some (3, data) /\
    length data = Z.to_nat (3 * (width this * height this)) /\
    forall x y k, 0 <= x < width this -> 0 <= y < height this -> 0 <= k < 3 ->
      data !! Z.to_nat (3 * x + 3 * y * width this + k)
      = Some (quantized dither x y (channel (get_pixel img x y) k)).
Proof.
  intros img Hext Hw Hh.
  exists (to_8bit this img dither).
  split; [apply save_eight_bit; exact Hext|].
  rewrite to_8bit_spec by assumption.
  split; [apply length_tabulated|].
  intros x y k Hx Hy Hk.
  assert (Hcell : 0 <= x + y * width this) by nia.
  rewrite list_lookup_fmap, lookup_seqZ_lt by nia.
  rewrite Z2Nat.id by lia. cbn [fmap option_fmap option_map]. cbv zeta.
  rewrite Z.add_0_l.
  assert (Hq : (3 * x + 3 * y * width this + k) `div` 3 = x + y * width this)
    by (symmetry; apply Z.div_unique with (r := k); lia).
  assert (Hr : (3 * x + 3 * y * width this + k) `mod` 3 = k)
    by (symmetry; apply Z.mod_unique with (q := x + y * width this); lia).
  rewrite Hq, Hr, cell_mod, cell_div by lia. reflexivity.
Qed.

End SaveFacts.

Lemma save_8bit_quantization_witness :
  exists data : list Z,
    written_bytes (save (F := spec_float) (EX := Examples.binary32_lib)
                     SaveExamples.grey_pixel "out.png" (of_int 1) (of_int 1) false true)
    = Some (3, data) /\
    length data = Z.to_nat (3 * (1 * 1)) /\
    forall x y k, 0 <= x < 1 -> 0 <= y < 1 -> 0 <= k < 3 ->
      data !! Z.to_nat (3 * x + 3 * y * 1 + k)
      = Some (quantized (EX := Examples.binary32_lib) true x y
                (channel (get_pixel
                            (tonemap (EX := Examples.binary32_lib) SaveExamples.grey_pixel
                               false (of_int 1) (of_int 1) false) x y) k)).
Proof.
  apply (save_8bit_quantization (EX := Examples.binary32_lib)
           SaveExamples.grey_pixel "out.png" (of_int 1) (of_int 1) false true);
    first [reflexivity | vm_compute; discriminate].
Defined.

(** C5 as stated fails: with dither, the table entry 0 at pixel (0, 0) and
    the channel value 3/4, the claim gives
    truncate(255 * 0.75 - 0.5 / 255) = 191; [save] writes
    truncate(255 * (0.75 - 0.5 / 255)) = 190. *)
Lemma save_8bit_counterexample :
  written_bytes (save (F := spec_float) (EX := Examples.binary32_lib)
                   SaveExamples.grey_pixel "out.png" (of_int 1) (of_int 1) false true)
  = Some (3, [190; 190; 190]) /\
  quantized_spec (F := spec_float) (EX := Examples.binary32_lib) true 0 0 (of_ratio 3 4) = 191.
Proof. vm_compute. split; reflexivity. Qed.

(** In single precision the quotient of a 16-bit sample by 1000 exceeds 5
    exactly for the samples above 5000. *)
Lemma depth_threshold_binary32 (n : Z) :
  0 <= n < 65536 ->
  flt (of_int 5) (fdiv (of_int n) (of_int 1000) : spec_float) = (5000 <? n).
Proof.
  intros Hn. apply Bool.eqb_prop.
  apply (all_from_spec
           (fun k => Bool.eqb (flt (of_int 5) (fdiv (of_int k) (of_int 1000) : spec_float))
                              (5000 <? k))
           (Z.to_nat 65536) 0 n); [vm_compute; reflexivity | rewrite Z2Nat.id; lia].
Qed.

(** ** The stand-in matrix inverse in exact arithmetic *)

(** With exact arithmetic the cofactor formula of the stand-in is the
    inverse of every matrix whose determinant is not zero. *)
Lemma exact_inverse_is_inverse (m : Matrix3f Qc) :
  determinant m <> 0%Qc ->
  product m (inverse m)
  = ((1%Qc, 0%Qc, 0%Qc), (0%Qc, 1%Qc, 0%Qc), (0%Qc, 0%Qc, 1%Qc)).
Proof.
  destruct m as [[[[a b] c] [[d e] f]] [[g h] i]].
  cbv beta iota zeta delta
    [determinant product inverse column dot3 fadd fsub fmul fdiv exact Z.eqb Pos.eqb].
  intros Hdet.
  repeat (apply f_equal2); field; exact Hdet.
Qed.

(* ================================================================== *)
(** * Further properties of the code *)
(* ================================================================== *)

(** ** Bit fields as arithmetic *)

Lemma lor_shiftl_add (a b k : Z) :
  0 <= k -> 0 <= b < 2 ^ k -> Z.lor (Z.shiftl a k) b = a * 2 ^ k + b.
Proof.
  intros Hk Hb.
  assert (Hland : Z.land (Z.shiftl a k) b = 0).
  { apply Z.bits_inj'. intros n Hn.
    rewrite Z.land_spec, Z.bits_0, Z.shiftl_mul_pow2 by lia.
    destruct (Z.lt_ge_cases n k) as [Hlt|Hge].
    - rewrite Z.mul_pow2_bits_low by lia. reflexivity.
    - rewrite <- (Z.mod_small b (2 ^ k)) by lia.
      rewrite Z.mod_pow2_bits_high by lia. apply andb_false_r. }
  rewrite <- Z.lxor_lor by exact Hland.
  rewrite <- Z.add_nocarry_lxor by exact Hland.
  rewrite Z.shiftl_mul_pow2 by lia. reflexivity.
Qed.

Lemma land_255_byte (d : Z) : 0 <= d < 256 -> Z.land d 255 = d.
Proof.
  intros Hd. change 255 with (Z.ones 8). rewrite Z.land_ones by lia.
  apply Z.mod_small. change (2 ^ 8) with 256. lia.
Qed.

Lemma land_mask (x k : Z) : 0 <= k -> Z.land (Z.ones k) x = x `mod` 2 ^ k.
Proof. intros Hk. rewrite Z.land_comm. apply Z.land_ones. exact Hk. Qed.

(** Two bytes joined by shift and or. *)
Lemma join2 (x y : Z) :
  0 <= x < 256 -> 0 <= y < 256 ->
  Z.lor (Z.shiftl (Z.land x 255) 8) (Z.land y 255) = 256 * x + y.
Proof.
  intros Hx Hy. rewrite !land_255_byte by assumption.
  rewrite lor_shiftl_add by (change (2 ^ 8) with 256; lia).
  change (2 ^ 8) with 256. lia.
Qed.

(** Three bytes joined by shifts and ors. *)
Lemma join3 (x y z : Z) :
  0 <= x < 256 -> 0 <= y < 256 -> 0 <= z < 256 ->
  Z.lor (Z.lor (Z.shiftl (Z.land x 255) 16) (Z.shiftl (Z.land y 255) 8)) (Z.land z 255)
  = 65536 * x + 256 * y + z.
Proof.
  intros Hx Hy Hz. rewrite !land_255_byte by assumption.
  change 16 with (8 + 8). rewrite <- Z.shiftl_shiftl by lia.
  rewrite <- Z.shiftl_lor.
  rewrite (lor_shiftl_add x y 8) by (change (2 ^ 8) with 256; lia).
  rewrite lor_shiftl_add by (change (2 ^ 8) with 256; lia).
  change (2 ^ 8) with 256. lia.
Qed.

Lemma mask_shift (val shift bits : Z) :
  0 <= shift -> 0 <= bits ->
  Z.land (Z.ones bits) (Z.shiftr val shift) = (val / 2 ^ shift) `mod` 2 ^ bits.
Proof.
  intros Hs Hb. rewrite land_mask by exact Hb.
  rewrite Z.shiftr_div_pow2 by exact Hs. reflexivity.
Qed.

Lemma for_loop_ext {St : Type} (lo hi : Z) (f g : Z -> St -> St) (s : St) :
  (forall i t, lo <= i < hi -> f i t = g i t) ->
  for_loop lo hi f s = for_loop lo hi g s.
Proof.
  intros Hfg.
  destruct (Z.le_gt_cases lo hi) as [Hle|Hgt].
  - apply (for_loop_ind (fun i t => t = for_loop lo i g s) lo hi f s Hle).
    + rewrite for_loop_nil by lia. reflexivity.
    + intros i t Hi ->. rewrite for_loop_snoc by lia. apply Hfg. exact Hi.
  - rewrite !for_loop_nil by lia. reflexivity.
Qed.

Section UnpackerLayout.
Context {F : Type} {FA : FloatArith F}.

Lemma decode12_sample_layout (data : list byte) (w y x : Z) :
  0 <= y * w + x ->
  decode12_sample data w false y x = of_int (bit_field 12 2 3 data (y * w + x)).
Proof.
  intros Hn. unfold decode12_sample, bit_field. cbv zeta.
  set (n := y * w + x) in *.
  rewrite Z.rem_mod_nonneg, Z.quot_div_nonneg by lia.
  pose proof (Z.mod_pos_bound n 2 ltac:(lia)) as Hr.
  f_equal.
  change 4095 with (Z.ones 12).
  set (a := n `div` 2 * 3).
  replace (Z.of_nat 3 * (n `div` 2)) with a by (unfold a; lia).
  cbn [big_endian]. change (256 ^ Z.of_nat 2) with 65536.
  change (256 ^ Z.of_nat 1) with 256. change (256 ^ Z.of_nat 0) with 1.
  rewrite Z.add_0_r.
  replace (a + 1 + 1) with (a + 2) by lia.
  pose proof (byte_at_range data a) as H0.
  pose proof (byte_at_range data (a + 1)) as H1.
  pose proof (byte_at_range data (a + 2)) as H2.
  assert (Hcase : n `mod` 2 = 0 \/ n `mod` 2 = 1) by lia.
  destruct Hcase as [-> | ->].
  - change (vec_at 0 bitShifts12 0) with 4.
    change (table2 offsets12 0 0) with 0. change (table2 offsets12 0 1) with 1.
    rewrite Z.add_0_r. rewrite (vec_at_lookup 0 _ 0 (byte_at data a)) by (lia || reflexivity).
    rewrite (vec_at_lookup 0 _ 1 (byte_at data (a + 1))) by (lia || reflexivity).
    rewrite join2 by assumption. rewrite mask_shift by lia.
    change (2 ^ 4) with 16. change (2 ^ 12) with 4096.
    change (2 ^ (12 * (2 - 1 - 0))) with 4096.
    generalize dependent (byte_at data a). generalize dependent (byte_at data (a + 1)).
    generalize dependent (byte_at data (a + 2)). clear. intros.
    Z.div_mod_to_equations. lia.
  - change (vec_at 0 bitShifts12 1) with 0.
    change (table2 offsets12 1 0) with 1. change (table2 offsets12 1 1) with 2.
    rewrite (vec_at_lookup 0 _ 1 (byte_at data (a + 1))) by (lia || reflexivity).
    rewrite (vec_at_lookup 0 _ 2 (byte_at data (a + 2))) by (lia || reflexivity).
    rewrite join2 by assumption. rewrite mask_shift by lia.
    change (2 ^ 0) with 1. change (2 ^ 12) with 4096.
    change (2 ^ (12 * (2 - 1 - 1))) with 1.
    generalize dependent (byte_at data a). generalize dependent (byte_at data (a + 1)).
    generalize dependent (byte_at data (a + 2)). clear. intros.
    Z.div_mod_to_equations. lia.
Qed.

Lemma decode14_sample_layout (data : list byte) (w y x : Z) :
  0 <= y * w + x ->
  decode14_sample data w false y x = of_int (bit_field 14 4 7 data (y * w + x)).
Proof.
  intros Hn. unfold decode14_sample, bit_field. cbv zeta.
  set (n := y * w + x) in *.
  rewrite Z.rem_mod_nonneg, Z.quot_div_nonneg by lia.
  pose proof (Z.mod_pos_bound n 4 ltac:(lia)) as Hr.
  f_equal.
  change 16383 with (Z.ones 14).
  set (a := n `div` 4 * 7).
  replace (Z.of_nat 7 * (n `div` 4)) with a by (unfold a; lia).
  cbn [big_endian].
  change (256 ^ Z.of_nat 6) with 281474976710656.
  change (256 ^ Z.of_nat 5) with 1099511627776.
  change (256 ^ Z.of_nat 4) with 4294967296.
  change (256 ^ Z.of_nat 3) with 16777216.
  change (256 ^ Z.of_nat 2) with 65536.
  change (256 ^ Z.of_nat 1) with 256. change (256 ^ Z.of_nat 0) with 1.
  rewrite Z.add_0_r.
  replace (a + 1 + 1) with (a + 2) by lia.
  replace (a + 2 + 1) with (a + 3) by lia.
  replace (a + 3 + 1) with (a + 4) by lia.
  replace (a + 4 + 1) with (a + 5) by lia.
  replace (a + 5 + 1) with (a + 6) by lia.
  pose proof (byte_at_range data a) as H0.
  pose proof (byte_at_range data (a + 1)) as H1.
  pose proof (byte_at_range data (a + 2)) as H2.
  pose proof (byte_at_range data (a + 3)) as H3.
  pose proof (byte_at_range data (a + 4)) as H4.
  pose proof (byte_at_range data (a + 5)) as H5.
  pose proof (byte_at_range data (a + 6)) as H6.
  assert (Hbuf : forall k, 0 <= k < 7 ->
            vec_at 0 ((fun k => byte_at data (a + k)) <$> seqZ 0 7) k = byte_at data (a + k)).
  { intros k Hk. apply (vec_at_tabulated 0 (fun k => byte_at data (a + k))). exact Hk. }
  assert (Hcase : n `mod` 4 = 0 \/ n `mod` 4 = 1 \/ n `mod` 4 = 2 \/ n `mod` 4 = 3) by lia.
  destruct Hcase as [-> | [-> | [-> | ->]]].
  - change (vec_at 0 bitShifts14 0) with 2.
    change (table2 offsets14 0 0) with 0. change (table2 offsets14 0 1) with 0.
    change (table2 offsets14 0 2) with 1.
    rewrite !Hbuf by lia. rewrite Z.add_0_r.
    rewrite join3 by assumption. rewrite mask_shift by lia.
    change (2 ^ 2) with 4. change (2 ^ 14) with 16384.
    change (2 ^ (14 * (4 - 1 - 0))) with 4398046511104.
    generalize dependent (byte_at data a). generalize dependent (byte_at data (a + 1)).
    generalize dependent (byte_at data (a + 2)). generalize dependent (byte_at data (a + 3)).
    generalize dependent (byte_at data (a + 4)). generalize dependent (byte_at data (a + 5)).
    generalize dependent (byte_at data (a + 6)). clear. intros.
    Z.div_mod_to_equations. lia.
  - change (vec_at 0 bitShifts14 1) with 4.
    change (table2 offsets14 1 0) with 1. change (table2 offsets14 1 1) with 2.
    change (table2 offsets14 1 2) with 3.
    rewrite !Hbuf by lia.
    rewrite join3 by assumption. rewrite mask_shift by lia.
    change (2 ^ 4) with 16. change (2 ^ 14) with 16384.
    change (2 ^ (14 * (4 - 1 - 1))) with 268435456.
    generalize dependent (byte_at data a). generalize dependent (byte_at data (a + 1)).
    generalize dependent (byte_at data (a + 2)). generalize dependent (byte_at data (a + 3)).
    generalize dependent (byte_at data (a + 4)). generalize dependent (byte_at data (a + 5)).
    generalize dependent (byte_at data (a + 6)). clear. intros.
    Z.div_mod_to_equations. lia.
  - change (vec_at 0 bitShifts14 2) with 6.
    change (table2 offsets14 2 0) with 3. change (table2 offsets14 2 1) with 4.
    change (table2 offsets14 2 2) with 5.
    rewrite !Hbuf by lia.
    rewrite join3 by assumption. rewrite mask_shift by lia.
    change (2 ^ 6) with 64. change (2 ^ 14) with 16384.
    change (2 ^ (14 * (4 - 1 - 2))) with 16384.
    generalize dependent (byte_at data a). generalize dependent (byte_at data (a + 1)).
    generalize dependent (byte_at data (a + 2)). generalize dependent (byte_at data (a + 3)).
    generalize dependent (byte_at data (a + 4)). generalize dependent (byte_at data (a + 5)).
    generalize dependent (byte_at data (a + 6)). clear. intros.
    Z.div_mod_to_equations. lia.
  - change (vec_at 0 bitShifts14 3) with 0.
    change (table2 offsets14 3 0) with 5. change (table2 offsets14 3 1) with 5.
    change (table2 offsets14 3 2) with 6.
    rewrite !Hbuf by lia.
    rewrite join3 by assumption. rewrite mask_shift by lia.
    change (2 ^ 0) with 1. change (2 ^ 14) with 16384.
    change (2 ^ (14 * (4 - 1 - 3))) with 1.
    generalize dependent (byte_at data a). generalize dependent (byte_at data (a + 1)).
    generalize dependent (byte_at data (a + 2)). generalize dependent (byte_at data (a + 3)).
    generalize dependent (byte_at data (a + 4)). generalize dependent (byte_at data (a + 5)).
    generalize dependent (byte_at data (a + 6)). clear. intros.
    Z.div_mod_to_equations. lia.
Qed.

End UnpackerLayout.

(** ** Byte-swapped buffers *)

Lemma pair_ind {A : Type} (P : list A -> Prop) :
  P [] -> (forall a, P [a]) -> (forall a b l, P l -> P (a :: b :: l)) ->
  forall l, P l.
Proof.
  intros Hnil Hone Hstep.
  assert (Hboth : forall l, P l /\ forall a, P (a :: l)).
  { induction l as [|b l [IH1 IH2]].
    - split; [exact Hnil | exact Hone].
    - split; [apply IH2|]. intros a. apply Hstep. exact IH1. }
  intros l. apply Hboth.
Qed.

Lemma length_swap_pairs (data : list byte) : length (swap_pairs data) = length data.
Proof.
  induction data as [| a | a b l IH] using pair_ind; try reflexivity.
  simpl. rewrite IH. reflexivity.
Qed.

Lemma swap_pairs_lookup (data : list byte) (i : nat) :
  Nat.even (length data) = true ->
  swap_pairs data !! i = data !! (if Nat.even i then S i else Nat.pred i).
Proof.
  revert i. induction data as [| a | a b l IH] using pair_ind; intros i Hev.
  - destruct (Nat.even i); reflexivity.
  - discriminate Hev.
  - destruct i as [|[|i]]; try reflexivity.
    change (swap_pairs l !! i = (a :: b :: l) !! (if Nat.even i then S (S (S i)) else Nat.pred (S (S i)))).
    rewrite IH by exact Hev.
    destruct i as [|i]; [reflexivity|].
    destruct (Nat.even (S i)); reflexivity.
Qed.

Lemma even_of_nat (n : nat) : Z.even (Z.of_nat n) = Nat.even n.
Proof.
  induction n as [|n IH]; [reflexivity|].
  rewrite Nat2Z.inj_succ, Z.even_succ, Nat.even_succ.
  rewrite <- Z.negb_even, <- Nat.negb_even, IH. reflexivity.
Qed.

Lemma byte_at_swap_pairs (data : list byte) (i : Z) :
  Nat.even (length data) = true ->
  byte_at (swap_pairs data) i = byte_at data (partner i).
Proof.
  intros Hev. unfold byte_at, vec_at, partner.
  destruct (Z.leb_spec 0 i) as [Hi|Hi].
  - rewrite !list_lookup_fmap. rewrite swap_pairs_lookup by exact Hev.
    assert (Hpar : Nat.even (Z.to_nat i) = Z.even i).
    { rewrite <- (Z2Nat.id i) at 2 by exact Hi. symmetry. apply even_of_nat. }
    rewrite Hpar. destruct (Z.even i) eqn:He.
    + destruct (Z.leb_spec 0 (i + 1)); [|lia].
      replace (Z.to_nat (i + 1)) with (S (Z.to_nat i)) by lia. reflexivity.
    + assert (i <> 0) by (intros ->; discriminate He).
      destruct (Z.leb_spec 0 (i - 1)); [|lia].
      replace (Z.to_nat (i - 1)) with (Nat.pred (Z.to_nat i)) by lia. reflexivity.
  - destruct (Z.even i) eqn:He.
    + assert (i <> -1) by (intros ->; discriminate He).
      destruct (Z.leb_spec 0 (i + 1)); [lia|reflexivity].
    + destruct (Z.leb_spec 0 (i - 1)); [lia|reflexivity].
Qed.

Lemma rem_2_even (a : Z) : (Z.rem a 2 =? 0) = Z.even a.
Proof.
  destruct (Z.even a) eqn:He.
  - apply Z.eqb_eq. apply Z.even_spec in He. destruct He as [k ->].
    rewrite Z.mul_comm. apply Z.rem_mul. lia.
  - apply Z.eqb_neq. intros Hrem.
    apply Z.rem_divide in Hrem; [|lia]. destruct Hrem as [k ->].
    rewrite Z.mul_comm in He. rewrite Z.even_mul in He. discriminate He.
Qed.

Lemma partner_shift (a k : Z) :
  partner (a + k) = if Bool.eqb (Z.even a) (Z.even k) then a + k + 1 else a + k - 1.
Proof.
  unfold partner. rewrite Z.even_add. reflexivity.
Qed.

Lemma endianSwap_bytes (lo hi : Z) :
  0 <= lo < 256 -> 0 <= hi < 256 -> endianSwap (lo + 256 * hi) = hi + 256 * lo.
Proof.
  intros Hlo Hhi. unfold endianSwap. cbv zeta.
  change 255 with (Z.ones 8). rewrite !Z.land_ones by lia.
  rewrite Z.shiftr_div_pow2 by lia. change (2 ^ 8) with 256.
  replace ((lo + 256 * hi) `mod` 256) with lo by (Z.div_mod_to_equations; lia).
  replace (((lo + 256 * hi) `div` 256) `mod` 256) with hi by (Z.div_mod_to_equations; lia).
  rewrite Z.lor_comm. rewrite lor_shiftl_add by (change (2 ^ 8) with 256; lia).
  change (2 ^ 8) with 256. lia.
Qed.

Section SwapFacts.
Context {F : Type} {FA : FloatArith F}.

Lemma decode12_sample_swap (data : list byte) (w y x : Z) :
  Nat.even (length data) = true ->
  decode12_sample data w true y x = decode12_sample (F := F) (swap_pairs data) w false y x.
Proof.
  intros Hev. unfold decode12_sample. cbv zeta.
  rewrite !byte_at_swap_pairs by exact Hev.
  rewrite rem_2_even. rewrite !partner_shift.
  destruct (Z.even (Z.quot (y * w + x) 2 * 3)); cbn [negb Bool.eqb Z.even];
    rewrite ?Z.add_0_r;
    repeat match goal with
           | |- context [?a + ?k + 1] => replace (a + k + 1) with (a + (k + 1)) by lia
           | |- context [?a + ?k - 1] => replace (a + k - 1) with (a + (k - 1)) by lia
           end;
    cbn [Z.add Z.sub Z.opp Z.pos_sub Pos.add Pos.succ Pos.pred_double Z.succ_double Z.pred_double Z.double];
    rewrite ?Z.add_0_r; try reflexivity.
Qed.

Lemma decode14_sample_swap (data : list byte) (w y x : Z) :
  Nat.even (length data) = true ->
  decode14_sample data w true y x = decode14_sample (F := F) (swap_pairs data) w false y x.
Proof.
  intros Hev. unfold decode14_sample. cbv zeta.
  change (seqZ 0 7) with [0; 1; 2; 3; 4; 5; 6]. cbn [fmap list_fmap].
  rewrite !byte_at_swap_pairs by exact Hev.
  rewrite rem_2_even. rewrite !partner_shift.
  destruct (Z.even (Z.quot (y * w + x) 4 * 7)); cbn [negb Bool.eqb Z.even];
    rewrite ?Z.add_0_r;
    repeat match goal with
           | |- context [?a + ?k + 1] => replace (a + k + 1) with (a + (k + 1)) by lia
           | |- context [?a + ?k - 1] => replace (a + k - 1) with (a + (k - 1)) by lia
           end;
    cbn [Z.add Z.sub Z.opp Z.pos_sub Pos.add Pos.succ Pos.pred_double Z.succ_double Z.pred_double Z.double];
    rewrite ?Z.add_0_r; try reflexivity.
Qed.

Lemma decode16_sample_swap (data : list byte) (w y x : Z) :
  Nat.even (length data) = true ->
  decode16_sample data w true y x = decode16_sample (F := F) (swap_pairs data) w false y x.
Proof.
  intros Hev. unfold decode16_sample, ushort_at. cbv zeta. f_equal.
  rewrite endianSwap_bytes by apply byte_at_range.
  rewrite !byte_at_swap_pairs by exact Hev.
  unfold partner. rewrite Z.even_add, Z.even_mul. cbn [Z.even orb Bool.eqb].
  replace (2 * (y * w + x) + 1 - 1) with (2 * (y * w + x)) by lia. lia.
Qed.

(** The loop nest of the unpackers depends on the samples only. *)
Lemma sample_loop_ext (g1 g2 : Z -> Z -> F) (w h : Z) (v : list F) :
  (forall y x, g1 y x = g2 y x) ->
  parallel_for 0 h (fun y image =>
    for_loop 0 w (fun x image => vec_set image (y * w + x) (g1 y x)) image) v
  = parallel_for 0 h (fun y image =>
    for_loop 0 w (fun x image => vec_set image (y * w + x) (g2 y x)) image) v.
Proof.
  intros Hg. unfold parallel_for. apply for_loop_ext. intros y t _.
  apply for_loop_ext. intros x t' _. rewrite Hg. reflexivity.
Qed.

End SwapFacts.

(** ** The unpackers on every buffer *)

Section UnpackerTheorems.
Context {F : Type} {FA : FloatArith F}.

(** X1. Without endian swap the 12-bit unpacker reads the buffer as a
    stream of 12-bit fields, most significant bit first: sample [i] is
    field [i mod 2] of the 24-bit big-endian number formed by the three
    bytes from offset [3 * (i / 2)] on. *)
Theorem decode12_bit_layout (image : list F) (data : list byte) (w h : Z) :
  0 <= w -> 0 <= h ->
  decode12BitToFloat image data w h false
  = (fun i => of_int (bit_field 12 2 3 data i)) <$> seqZ 0 (w * h).
Proof.
  intros Hw Hh. unfold decode12BitToFloat.
  rewrite (sample_loop_spec (of_int 0) (decode12_sample data w false)) by assumption.
  apply tabulated_ext. intros i Hi.
  assert (0 < w) by nia.
  rewrite decode12_sample_layout;
    replace (i `div` w * w + i `mod` w) with i by (pose proof (cell_split w i); lia);
    [reflexivity | lia].
Qed.

(** X2. Without endian swap the 14-bit unpacker reads the buffer as a
    stream of 14-bit fields, most significant bit first: sample [i] is
    field [i mod 4] of the 56-bit big-endian number formed by the seven
    bytes from offset [7 * (i / 4)] on. *)
Theorem decode14_bit_layout (image : list F) (data : list byte) (w h : Z) :
  0 <= w -> 0 <= h ->
  decode14BitToFloat image data w h false
  = (fun i => of_int (bit_field 14 4 7 data i)) <$> seqZ 0 (w * h).
Proof.
  intros Hw Hh. unfold decode14BitToFloat.
  rewrite (sample_loop_spec (of_int 0) (decode14_sample data w false)) by assumption.
  apply tabulated_ext. intros i Hi.
  assert (0 < w) by nia.
  rewrite decode14_sample_layout;
    replace (i `div` w * w + i `mod` w) with i by (pose proof (cell_split w i); lia);
    [reflexivity | lia].
Qed.

(** X3. On a buffer of whole 16-bit words, the 12-bit and the 14-bit
    unpacker with endian swap return what they return without endian swap
    on the buffer whose words have their two bytes exchanged. *)
Theorem packed_swap_is_byte_exchange (image : list F) (data : list byte) (w h : Z) :
  Nat.even (length data) = true ->
  decode12BitToFloat image data w h true
  = decode12BitToFloat image (swap_pairs data) w h false /\
  decode14BitToFloat image data w h true
  = decode14BitToFloat image (swap_pairs data) w h false.
Proof.
  intros Hev. split.
  - unfold decode12BitToFloat. cbv zeta. apply sample_loop_ext.
    intros y x. apply decode12_sample_swap. exact Hev.
  - unfold decode14BitToFloat. cbv zeta. apply sample_loop_ext.
    intros y x. apply decode14_sample_swap. exact Hev.
Qed.

(** X4. On a buffer of whole 16-bit words, the 16-bit unpacker with endian
    swap returns what it returns without endian swap on the buffer whose
    words have their two bytes exchanged. *)
Theorem decode16_swap_is_byte_exchange (image : list F) (data : list byte) (w h : Z) :
  Nat.even (length data) = true ->
  decode16BitToFloat image data w h true
  = decode16BitToFloat image (swap_pairs data) w h false.
Proof.
  intros Hev. unfold decode16BitToFloat. cbv zeta. apply sample_loop_ext.
  intros y x. apply decode16_sample_swap. exact Hev.
Qed.

End UnpackerTheorems.

(** X5. On a 16-bit value [endianSwap] exchanges the low and the high
    byte; the result is again a 16-bit value, and swapping twice gives the
    value back. *)
Theorem endianSwap_exchanges_bytes (val : Z) :
  0 <= val < 65536 ->
  endianSwap val = 256 * (val `mod` 256) + val `div` 256 /\
  0 <= endianSwap val < 65536 /\
  endianSwap (endianSwap val) = val.
Proof.
  intros Hv.
  assert (Hlo : 0 <= val `mod` 256 < 256) by (apply Z.mod_pos_bound; lia).
  assert (Hhi : 0 <= val `div` 256 < 256) by (Z.div_mod_to_equations; lia).
  assert (Hval : val = val `mod` 256 + 256 * (val `div` 256))
    by (Z.div_mod_to_equations; lia).
  assert (Hswap : endianSwap val = val `div` 256 + 256 * (val `mod` 256)).
  { rewrite Hval at 1. apply endianSwap_bytes; assumption. }
  split; [lia|]. split; [lia|].
  rewrite Hswap. rewrite endianSwap_bytes by assumption. lia.
Qed.

Lemma decode12_sample_range {F : Type} {FA : FloatArith F}
    (data : list byte) (w : Z) (swap : bool) (y x : Z) :
  exists n, 0 <= n < 4096 /\ decode12_sample data w swap y x = of_int n.
Proof.
  unfold decode12_sample. cbv zeta. eexists. split; [|reflexivity].
  change 4095 with (Z.ones 12). rewrite land_mask by lia.
  change (2 ^ 12) with 4096. apply Z.mod_pos_bound. lia.
Qed.

Lemma decode14_sample_range {F : Type} {FA : FloatArith F}
    (data : list byte) (w : Z) (swap : bool) (y x : Z) :
  exists n, 0 <= n < 16384 /\ decode14_sample data w swap y x = of_int n.
Proof.
  unfold decode14_sample. cbv zeta. eexists. split; [|reflexivity].
  change 16383 with (Z.ones 14). rewrite land_mask by lia.
  change (2 ^ 14) with 16384. apply Z.mod_pos_bound. lia.
Qed.

(** X6. Whatever the buffer holds and whichever byte order is asked for,
    every float that the 12-bit unpacker returns is an integer from 0 to
    4095 and every float that the 14-bit unpacker returns is an integer
    from 0 to 16383, each held in single precision without rounding. *)
Theorem unpacked_samples_in_range (image : list spec_float) (data : list byte)
    (w h : Z) (swap : bool) :
  0 <= w -> 0 <= h ->
  (forall v, v ∈ decode12BitToFloat image data w h swap ->
     exists n, 0 <= n < 4096 /\ v = of_int n /\ (Binary32.value v == inject_Z n)%Q) /\
  (forall v, v ∈ decode14BitToFloat image data w h swap ->
     exists n, 0 <= n < 16384 /\ v = of_int n /\ (Binary32.value v == inject_Z n)%Q).
Proof.
  intros Hw Hh. split; intros v Hin.
  - unfold decode12BitToFloat in Hin.
    rewrite (sample_loop_spec (of_int 0) (decode12_sample data w swap)) in Hin by assumption.
    apply list_elem_of_fmap in Hin. destruct Hin as (i & -> & _).
    destruct (decode12_sample_range (F := spec_float) data w swap (i `div` w) (i `mod` w))
      as (n & Hn & ->).
    exists n. split; [exact Hn|]. split; [reflexivity|].
    apply binary32_exact_u16. lia.
  - unfold decode14BitToFloat in Hin.
    rewrite (sample_loop_spec (of_int 0) (decode14_sample data w swap)) in Hin by assumption.
    apply list_elem_of_fmap in Hin. destruct Hin as (i & -> & _).
    destruct (decode14_sample_range (F := spec_float) data w swap (i `div` w) (i `mod` w))
      as (n & Hn & ->).
    exists n. split; [exact Hn|]. split; [reflexivity|].
    apply binary32_exact_u16. lia.
Qed.

Lemma decode12_bit_layout_witness :
  decode12BitToFloat (F := spec_float) [] UnpackerExamples.two_samples12 2 1 false
  = (fun i => of_int (bit_field 12 2 3 UnpackerExamples.two_samples12 i)) <$> seqZ 0 (2 * 1).
Proof.
  apply (decode12_bit_layout [] UnpackerExamples.two_samples12 2 1); lia.
Defined.

Lemma decode14_bit_layout_witness :
  decode14BitToFloat (F := spec_float) [] UnpackerExamples.four_samples14 4 1 false
  = (fun i => of_int (bit_field 14 4 7 UnpackerExamples.four_samples14 i)) <$> seqZ 0 (4 * 1).
Proof.
  apply (decode14_bit_layout [] UnpackerExamples.four_samples14 4 1); lia.
Defined.

Lemma packed_swap_is_byte_exchange_witness :
  decode12BitToFloat (F := spec_float) [] UnpackerExamples.two_samples12 2 1 true
  = decode12BitToFloat [] (swap_pairs UnpackerExamples.two_samples12) 2 1 false /\
  decode14BitToFloat (F := spec_float) [] UnpackerExamples.two_samples12 2 1 true
  = decode14BitToFloat [] (swap_pairs UnpackerExamples.two_samples12) 2 1 false.
Proof.
  apply (packed_swap_is_byte_exchange [] UnpackerExamples.two_samples12 2 1). reflexivity.
Defined.

Lemma decode16_swap_is_byte_exchange_witness :
  decode16BitToFloat (F := spec_float) [] Examples.two_shorts 2 1 true
  = decode16BitToFloat [] (swap_pairs Examples.two_shorts) 2 1 false.
Proof.
  apply (decode16_swap_is_byte_exchange [] Examples.two_shorts 2 1). reflexivity.
Defined.

Lemma endianSwap_exchanges_bytes_witness :
  endianSwap 0x1234 = 256 * (0x1234 `mod` 256) + 0x1234 `div` 256 /\
  0 <= endianSwap 0x1234 < 65536 /\
  endianSwap (endianSwap 0x1234) = 0x1234.
Proof.
  apply (endianSwap_exchanges_bytes 0x1234). lia.
Defined.

Lemma unpacked_samples_in_range_witness :
  (forall v, v ∈ decode12BitToFloat [] UnpackerExamples.four_samples14 4 1 true ->
     exists n, 0 <= n < 4096 /\ v = of_int n /\ (Binary32.value v == inject_Z n)%Q) /\
  (forall v, v ∈ decode14BitToFloat [] UnpackerExamples.four_samples14 4 1 true ->
     exists n, 0 <= n < 16384 /\ v = of_int n /\ (Binary32.value v == inject_Z n)%Q).
Proof.
  apply (unpacked_samples_in_range [] UnpackerExamples.four_samples14 4 1 true); lia.
Defined.

(** The samples of the examples, read back. *)
Example decode14_four_samples :
  Binary32.trunc <$> decode14BitToFloat (F := spec_float) [] UnpackerExamples.four_samples14 4 1 false
  = [0x3FFF; 0; 0x2AAA; 0x1555].
Proof. vm_compute. reflexivity. Qed.

(** ** Loop nests that store one pixel per cell, rows mirrored or not *)

Section Scatter.
Context {F : Type} {FA : FloatArith F}.

(** The row that [flip ? h - y - 1 : y] names. *)
Lemma mirrored_row_bounds (flip : bool) (h y : Z) :
  0 <= y < h -> 0 <= (if flip then h - y - 1 else y) < h.
Proof. destruct flip; lia. Qed.

Lemma cell_index_inj (w x y x' y' : Z) :
  0 <= x < w -> 0 <= x' < w -> x + y * w = x' + y' * w -> x = x' /\ y = y'.
Proof.
  intros Hx Hx' Heq.
  assert (Hy : y = y').
  { rewrite <- (cell_div w x y Hx), <- (cell_div w x' y' Hx'). rewrite Heq. reflexivity. }
  subst y'. lia.
Qed.

Lemma scatter_loop_spec (g : Z -> Z -> Color4 F) (flip : bool) (img : HDRImage F) :
  well_formed img ->
  parallel_for 0 (height img) (fun y s =>
    for_loop 0 (width img) (fun x s =>
      set_pixel s x (if flip then height img - y - 1 else y) (g x y)) s) img
  = tabulate (width img) (height img)
      (fun x y => g x (if flip then height img - y - 1 else y)).
Proof.
  intros (Hw & Hh & Hlen).
  set (res := parallel_for 0 (height img) _ img).
  set (w := width img) in *. set (h := height img) in *.
  set (row := fun y => if flip then h - y - 1 else y).
  pose (Inv := fun (k : Z) (s : HDRImage F) =>
          width s = w /\ height s = h /\ length (pixels s) = Z.to_nat (w * h) /\
          forall x' y', 0 <= x' < w -> 0 <= y' < h -> y' * w + x' < k ->
            vec_at black (pixels s) (x' + row y' * w) = g x' y').
  assert (Hfin : Inv (h * w) res).
  { subst res. unfold parallel_for.
    apply (for_loop_ind (fun y s => Inv (y * w) s)); [exact Hh| |].
    - repeat split; try reflexivity; try exact Hlen. intros x' y' Hx' Hy' Hk. nia.
    - intros y t Hy Ht.
      replace ((y + 1) * w) with (y * w + w) by lia.
      apply (for_loop_ind (fun x s => Inv (y * w + x) s)); [exact Hw| |].
      + rewrite Z.add_0_r. exact Ht.
      + intros x s Hx (Hws & Hhs & Hls & Hcells).
        pose proof (mirrored_row_bounds flip h y Hy) as Hrow. fold (row y) in Hrow.
        repeat split; try assumption.
        * simpl. rewrite length_vec_set. exact Hls.
        * intros x' y' Hx' Hy' Hk. simpl. rewrite Hws.
          pose proof (mirrored_row_bounds flip h y' Hy') as Hrow'. fold (row y') in Hrow'.
          destruct (decide (x' = x /\ y' = y)) as [[-> ->]|Hne].
          -- apply vec_at_set_eq; nia.
          -- rewrite vec_at_set_ne.
             ++ apply Hcells; try assumption.
                assert (y' * w + x' <> y * w + x).
                { intros Heq. apply Hne.
                  apply (cell_index_inj w); try assumption. lia. }
                lia.
             ++ nia.
             ++ intros Heq. apply Hne.
                destruct (cell_index_inj w x (row y) x' (row y')) as [? Hr]; try assumption.
                split; [congruence|].
                unfold row in Hr. destruct flip; lia. }
  destruct Hfin as (Hws & Hhs & Hls & Hcells).
  clearbody res. destruct res as [w' h' px]. simpl in *. subst w' h'.
  unfold tabulate. f_equal. rewrite !Z.max_r by lia.
  apply (vec_ext black).
  - rewrite length_tabulated. exact Hls.
  - intros i Hi. rewrite Hls in Hi. rewrite Z2Nat.id in Hi by nia.
    rewrite vec_at_tabulated by exact Hi.
    destruct (cell_bounds w h i Hi Hh) as [Hx Hy].
    pose proof (mirrored_row_bounds flip h (i `div` w) Hy) as Hrow.
    fold (row (i `div` w)) in Hrow. fold (row (i `div` w)).
    rewrite <- (Hcells (i `mod` w) (row (i `div` w))); try assumption.
    + f_equal. replace (row (row (i `div` w))) with (i `div` w)
        by (unfold row; destruct flip; lia).
      symmetry. apply cell_split. nia.
    + nia.
Qed.

End Scatter.

Section CopyFacts.
Context {F : Type} {FA : FloatArith F} {EX : Externals F}.

Lemma copy_colour_spec (img : HDRImage F) (data : list F) (n : Z)
    (convertToLinear flip : bool) :
  well_formed img -> n = 3 \/ n = 4 ->
  copyPixelsFromArray img data (width img) (height img) n convertToLinear flip
  = inr (tabulate (width img) (height img) (fun x y =>
           interleaved_colour data n convertToLinear
             (x + (if flip then height img - y - 1 else y) * width img))).
Proof.
  intros Hwf Hn. unfold copyPixelsFromArray.
  assert (Hsel : negb (n =? 1) && negb (n =? 3) && negb (n =? 4) = false)
    by (destruct Hn as [-> | ->]; reflexivity).
  assert (Hone : (n =? 1) = false) by (destruct Hn as [-> | ->]; reflexivity).
  rewrite Hsel, Hone. unfold ret. f_equal.
  rewrite <- (scatter_loop_spec
                (fun x y => interleaved_colour data n convertToLinear (x + y * width img))
                flip img Hwf).
  unfold parallel_for. apply for_loop_ext. intros y s _.
  apply for_loop_ext. intros x t _.
  unfold interleaved_colour. cbv zeta. rewrite Z.add_0_r. reflexivity.
Qed.

Lemma copy_one_channel_spec (img : HDRImage F) (data : list F)
    (convertToLinear flip : bool) :
  well_formed img ->
  copyPixelsFromArray img data (width img) (height img) 1 convertToLinear flip
  = inr (tabulate (width img) (height img) (fun x y =>
           let mm := min_max_positive data (width img) (height img) in
           false_colour (fst mm) (fsub (snd mm) (fst mm))
             (vec_at (of_int 0) data
                (x + (if flip then height img - y - 1 else y) * width img)))).
Proof.
  intros Hwf. unfold copyPixelsFromArray.
  change (negb (1 =? 1) && negb (1 =? 3) && negb (1 =? 4)) with false.
  change (1 =? 1) with true. cbv iota.
  destruct (min_max_positive data (width img) (height img)) as [minVal maxVal] eqn:Hmm.
  unfold ret. f_equal. cbn [fst snd].
  rewrite <- (scatter_loop_spec
                (fun x y => false_colour minVal (fsub maxVal minVal)
                              (vec_at (of_int 0) data (x + y * width img)))
                flip img Hwf).
  unfold parallel_for. apply for_loop_ext. intros y s _.
  apply for_loop_ext. intros x t _.
  unfold false_colour. cbv zeta.
  destruct (fle (vec_at (of_int 0) data (x + y * width img)) (of_int 0)); [reflexivity|].
  destruct (turboRGBf _) as [[t0 t1] t2]. reflexivity.
Qed.

(** A nest of [img(x, r) = c] statements leaves the size of the image as
    it was. *)
Lemma set_pixel_loop_size (row : Z -> Z) (g : Z -> Z -> Color4 F) (w h : Z)
    (img : HDRImage F) :
  let res := parallel_for 0 h (fun y s =>
               for_loop 0 w (fun x s => set_pixel s x (row y) (g x y)) s) img in
  width res = width img /\ height res = height img /\
  length (pixels res) = length (pixels img).
Proof.
  cbv zeta. unfold parallel_for.
  destruct (Z.le_gt_cases 0 h) as [Hh|Hh]; [|rewrite for_loop_nil by lia; auto].
  apply (for_loop_ind (fun _ s => width s = width img /\ height s = height img /\
                                  length (pixels s) = length (pixels img))); [exact Hh|auto|].
  intros y s _ Hs.
  destruct (Z.le_gt_cases 0 w) as [Hw|Hw]; [|rewrite for_loop_nil by lia; auto].
  apply (for_loop_ind (fun _ s => width s = width img /\ height s = height img /\
                                  length (pixels s) = length (pixels img))); [exact Hw|auto|].
  intros x t _ (Hwt & Hht & Hlt). simpl. rewrite length_vec_set. auto.
Qed.

Lemma copy_outcome (img : HDRImage F) (data : list F) (w h n : Z)
    (convertToLinear flip : bool) :
  match copyPixelsFromArray img data w h n convertToLinear flip with
  | inl what =>
      n <> 1 /\ n <> 3 /\ n <> 4 /\
      what = "Only 1- 3- and 4-channel images are supported."
  | inr img' =>
      (n = 1 \/ n = 3 \/ n = 4) /\
      width img' = width img /\ height img' = height img /\
      length (pixels img') = length (pixels img)
  end.
Proof.
  unfold copyPixelsFromArray.
  destruct (Z.eqb_spec n 1) as [H1|H1]; cbn [negb andb].
  - destruct (min_max_positive data w h) as [minVal maxVal].
    unfold ret. split; [auto|].
    pose proof (set_pixel_loop_size (fun y => if flip then h - y - 1 else y)
                  (fun x y => false_colour minVal (fsub maxVal minVal)
                                (vec_at (of_int 0) data (x + y * w))) w h img) as Hsize.
    cbv zeta in Hsize.
    match goal with
    | |- width ?a = _ /\ _ =>
        match type of Hsize with
        | width ?b = _ /\ _ => replace a with b; [exact Hsize|]
        end
    end.
    unfold parallel_for. apply for_loop_ext. intros y s _.
    apply for_loop_ext. intros x t _.
    unfold false_colour. cbv zeta.
    destruct (fle (vec_at (of_int 0) data (x + y * w)) (of_int 0)); [reflexivity|].
    destruct (turboRGBf _) as [[t0 t1] t2]. reflexivity.
  - destruct (Z.eqb_spec n 3) as [H3|H3]; cbn [negb andb];
      [|destruct (Z.eqb_spec n 4) as [H4|H4]; cbn [negb andb]].
    3: { unfold throw. auto. }
    all: unfold ret; split; [auto|].
    all: apply (set_pixel_loop_size (fun y => if flip then h - y - 1 else y)).
Qed.

End CopyFacts.

Section CopyTheorems.
Context {F : Type} {FA : FloatArith F} {EX : Externals F}.

(** X7. Called with the size of the image and an array of 3 or 4
    interleaved channels, [copyPixelsFromArray] returns the image whose
    pixel [(x, y)] holds the channels of array element [x + r * w], where
    [r] is [y], or [h - y - 1] when [flip] is set: red, green and blue
    from offsets [n k], [n k + 1], [n k + 2], alpha 1 for three channels
    and the fourth channel otherwise, sent through [SRGBToLinear] exactly
    when [convertToLinear] is set. *)
Theorem copy_interleaved_channels (img : HDRImage F) (data : list F) (n : Z)
    (convertToLinear flip : bool) :
  well_formed img -> n = 3 \/ n = 4 ->
  copyPixelsFromArray img data (width img) (height img) n convertToLinear flip
  = inr (tabulate (width img) (height img) (fun x y =>
           let k := x + (if flip then height img - y - 1 else y) * width img in
           let c := mkColor4 (vec_at (of_int 0) data (n * k))
                             (vec_at (of_int 0) data (n * k + 1))
                             (vec_at (of_int 0) data (n * k + 2))
                             (if n =? 3 then of_int 1
                              else vec_at (of_int 0) data (n * k + 3)) in
           if convertToLinear then SRGBToLinear c else c)).
Proof.
  intros Hwf Hn. rewrite copy_colour_spec by assumption. f_equal.
  apply tabulate_ext. intros x y _ _. unfold interleaved_colour. cbv zeta.
  destruct Hn as [-> | ->]; reflexivity.
Qed.

(** X9. A one-channel array without a positive sample gives the image
    whose pixels are all (0, 0, 0, 0), alpha included. *)
Theorem one_channel_without_positive_sample (img : HDRImage F) (data : list F)
    (convertToLinear flip : bool) :
  well_formed img ->
  (forall x y, 0 <= x < width img -> 0 <= y < height img ->
     fle (vec_at (of_int 0) data (x + y * width img)) (of_int 0) = true) ->
  copyPixelsFromArray img data (width img) (height img) 1 convertToLinear flip
  = inr (tabulate (width img) (height img)
           (fun _ _ => mkColor4 (of_int 0) (of_int 0) (of_int 0) (of_int 0))).
Proof.
  intros Hwf Hdark. rewrite copy_one_channel_spec by exact Hwf. f_equal.
  apply tabulate_ext. intros x y Hx Hy. cbv zeta.
  unfold false_colour. rewrite Hdark; [reflexivity|exact Hx|].
  apply mirrored_row_bounds. exact Hy.
Qed.

(** X10. [copyPixelsFromArray] throws exactly when the channel count is
    not 1, 3 or 4, with the message "Only 1- 3- and 4-channel images are
    supported."; when it returns, the image has the width, the height and
    the number of pixels it had before, whatever [w] and [h] are. *)
Theorem copy_channel_count (img : HDRImage F) (data : list F) (w h n : Z)
    (convertToLinear flip : bool) :
  match copyPixelsFromArray img data w h n convertToLinear flip with
  | inl what =>
      n <> 1 /\ n <> 3 /\ n <> 4 /\
      what = "Only 1- 3- and 4-channel images are supported."
  | inr img' =>
      (n = 1 \/ n = 3 \/ n = 4) /\
      width img' = width img /\ height img' = height img /\
      length (pixels img') = length (pixels img)
  end.
Proof. apply copy_outcome. Qed.

End CopyTheorems.

Lemma copy_interleaved_channels_witness :
  copyPixelsFromArray (EX := Examples.exact_lib) Examples.four_pixels CopyExamples.rgb_data
    2 2 3 false true
  = inr (tabulate 2 2 (fun x y =>
           interleaved_colour (EX := Examples.exact_lib) CopyExamples.rgb_data 3 false
             (x + (2 - y - 1) * 2))).
Proof.
  apply (copy_interleaved_channels (EX := Examples.exact_lib)
           Examples.four_pixels CopyExamples.rgb_data 3 false true);
    [unfold well_formed; simpl; repeat split; lia | left; reflexivity].
Defined.

(** X8. In single precision, called with the size of the image and a
    one-channel array for which every read of the colour table is defined
    (for each positive sample the quotient is a number that rounds to an
    index from 0 to 255), [copyPixelsFromArray] stores false colours: a
    sample that is not positive becomes the pixel (0, 0, 0, 0); a positive
    sample [p] becomes [SRGBToLinear] of the entry
    [round(255 (p - min) / (max - min))] of the colour table, its three
    numbers in reverse order, with alpha 1, [min] and [max] being the
    values the first pass leaves.  The rows are mirrored when [flip] is
    set, and [convertToLinear] has no effect. *)
Theorem one_channel_false_colours {EX : Externals spec_float}
    (img : HDRImage spec_float) (data : list spec_float) (convertToLinear flip : bool) :
  well_formed img ->
  one_channel_defined data (width img) (height img) ->
  copyPixelsFromArray img data (width img) (height img) 1 convertToLinear flip
  = inr (tabulate (width img) (height img) (fun x y =>
           let mm := min_max_positive data (width img) (height img) in
           false_colour (fst mm) (fsub (snd mm) (fst mm))
             (vec_at (of_int 0) data
                (x + (if flip then height img - y - 1 else y) * width img)))) /\
  copyPixelsFromArray img data (width img) (height img) 1 convertToLinear flip
  = copyPixelsFromArray img data (width img) (height img) 1 (negb convertToLinear) flip.
Proof.
  intros Hwf _. split; [apply copy_one_channel_spec; exact Hwf|].
  rewrite !copy_one_channel_spec by exact Hwf. reflexivity.
Qed.

Lemma one_channel_false_colours_witness :
  copyPixelsFromArray (EX := Examples.binary32_lib) Examples.four_pixels
    CopyExamples.ramp_data 2 2 1 false true
  = inr (tabulate 2 2 (fun x y =>
           let mm := min_max_positive CopyExamples.ramp_data 2 2 in
           false_colour (EX := Examples.binary32_lib) (fst mm) (fsub (snd mm) (fst mm))
             (vec_at (of_int 0) CopyExamples.ramp_data (x + (2 - y - 1) * 2)))) /\
  copyPixelsFromArray (EX := Examples.binary32_lib) Examples.four_pixels
    CopyExamples.ramp_data 2 2 1 false true
  = copyPixelsFromArray (EX := Examples.binary32_lib) Examples.four_pixels
      CopyExamples.ramp_data 2 2 1 true true.
Proof.
  apply (one_channel_false_colours (EX := Examples.binary32_lib)
           Examples.four_pixels CopyExamples.ramp_data false true).
  - unfold well_formed; simpl; repeat split; lia.
  - intros x y Hx Hy. simpl in Hx, Hy.
    assert (Hxs : x = 0 \/ x = 1) by lia. assert (Hys : y = 0 \/ y = 1) by lia.
    destruct Hxs as [-> | ->]; destruct Hys as [-> | ->]; intros _; vm_compute; reflexivity.
Defined.

(** The table entries read for the example: 0, 85, 170 and 255. *)
Example ramp_data_indices :
  (fun p => fround (fdiv (fmul (of_int 255) (fsub p (of_int 1))) (of_int 3)))
    <$> CopyExamples.ramp_data
  = [0; 85; 170; 255].
Proof. vm_compute. reflexivity. Qed.

Lemma one_channel_without_positive_sample_witness :
  copyPixelsFromArray (EX := Examples.exact_lib) Examples.four_pixels CopyExamples.dark_data
    2 2 1 false false
  = inr (tabulate 2 2 (fun _ _ => mkColor4 (of_int 0) (of_int 0) (of_int 0) (of_int 0))).
Proof.
  apply (one_channel_without_positive_sample (EX := Examples.exact_lib)
           Examples.four_pixels CopyExamples.dark_data false false).
  - unfold well_formed; simpl; repeat split; lia.
  - simpl. intros x y Hx Hy.
    assert (Hxs : x = 0 \/ x = 1) by lia. assert (Hys : y = 0 \/ y = 1) by lia.
    destruct Hxs as [-> | ->]; destruct Hys as [-> | ->]; reflexivity.
Defined.

(** The example array of three channels, copied with mirrored rows. *)
Example copy_rgb_flipped :
  copyPixelsFromArray (EX := Examples.exact_lib) Examples.four_pixels CopyExamples.rgb_data
    2 2 3 false true
  = inr (mkImage 2 2
           [mkColor4 (of_int 7) (of_int 8) (of_int 9) (of_int 1);
            mkColor4 (of_int 10) (of_int 11) (of_int 12) (of_int 1);
            mkColor4 (of_int 1) (of_int 2) (of_int 3) (of_int 1);
            mkColor4 (of_int 4) (of_int 5) (of_int 6) (of_int 1)]).
Proof. vm_compute. reflexivity. Qed.

(** ** The two scans over the images of a raw container *)

Section ContainerScans.
Context {F : Type} {FA : FloatArith F}.

(** X11. In a container with at least one image the loader develops the
    first image of greatest width: the index found lies in the vector, no
    image is wider than the one found, and every image before it is
    narrower. *)
Theorem find_largest_first_widest (images : list (tinydng.DNGImage F)) :
  images <> [] ->
  let j := find_largest images in
  0 <= j < Z.of_nat (length images) /\
  (forall k, 0 <= k < Z.of_nat (length images) ->
     tinydng.width (image_at images k) <= tinydng.width (image_at images j)) /\
  (forall k, 0 <= k < j ->
     tinydng.width (image_at images k) < tinydng.width (image_at images j)).
Proof.
  intros Hne. cbv zeta. unfold find_largest.
  set (n := Z.of_nat (length images)).
  assert (Hn : 0 < n) by (unfold n; destruct images; [congruence|simpl; lia]).
  pose (Inv := fun (i : Z) (st : Z * Z) =>
          snd st = tinydng.width (image_at images (fst st)) /\
          0 <= fst st /\ (fst st < i \/ fst st = 0) /\
          (forall k, 0 <= k < i -> tinydng.width (image_at images k) <= snd st) /\
          (forall k, 0 <= k < fst st -> tinydng.width (image_at images k) < snd st)).
  assert (Hfin : Inv n (for_loop 0 n (fun i st =>
            let '(largest, largestWidth) := st in
            if largestWidth <? tinydng.width (image_at images i)
            then (i, tinydng.width (image_at images i))
            else st) (0, tinydng.width (image_at images 0)))).
  { apply (for_loop_ind Inv); [lia| |].
    - unfold Inv. simpl. repeat split; try lia; intros; lia.
    - intros i [largest largestWidth] Hi (Hw & Hpos & Hlt & Hall & Hbefore).
      simpl in *. subst largestWidth.
      destruct (Z.ltb_spec (tinydng.width (image_at images largest))
                  (tinydng.width (image_at images i))) as [Hless|Hge];
        unfold Inv; simpl.
      + repeat split; try lia.
        * intros k Hk. destruct (decide (k = i)) as [->|]; [lia|].
          specialize (Hall k ltac:(lia)). lia.
        * intros k Hk. specialize (Hall k ltac:(lia)). lia.
      + repeat split; try lia; try assumption.
        intros k Hk. destruct (decide (k = i)) as [->|]; [lia|].
        apply Hall. lia. }
  destruct (for_loop 0 n _ _) as [largest largestWidth].
  destruct Hfin as (Hw & Hpos & Hlt & Hall & Hbefore). simpl in *. subst largestWidth.
  repeat split; try lia; assumption.
Qed.

(** X12. The orientation the loader applies is the one of the last image
    of the container whose orientation is not 0; it is 0 exactly when no
    image has one. *)
Theorem find_orientation_last_set (images : list (tinydng.DNGImage F)) :
  let r := find_orientation images in
  (r = 0 /\ forall k, 0 <= k < Z.of_nat (length images) ->
              tinydng.orientation (image_at images k) = 0) \/
  (r <> 0 /\ exists i, 0 <= i < Z.of_nat (length images) /\
     tinydng.orientation (image_at images i) = r /\
     forall k, i < k < Z.of_nat (length images) ->
       tinydng.orientation (image_at images k) = 0).
Proof.
  cbv zeta. unfold find_orientation.
  set (n := Z.of_nat (length images)).
  pose (Inv := fun (m : Z) (r : Z) =>
          (r = 0 /\ forall k, 0 <= k < m -> tinydng.orientation (image_at images k) = 0) \/
          (r <> 0 /\ exists i, 0 <= i < m /\
             tinydng.orientation (image_at images i) = r /\
             forall k, i < k < m -> tinydng.orientation (image_at images k) = 0)).
  apply (for_loop_ind Inv); [unfold n; lia| |].
  - left. split; [reflexivity|]. intros; lia.
  - intros i r Hi Hr.
    destruct (Z.eqb_spec (tinydng.orientation (image_at images i)) 0) as [Hz|Hnz];
      cbn [negb].
    + destruct Hr as [[-> Hall]|(Hr & j & Hj & Hor & Hafter)].
      * left. split; [reflexivity|]. intros k Hk.
        destruct (decide (k = i)) as [->|]; [exact Hz|apply Hall; lia].
      * right. split; [exact Hr|]. exists j. repeat split; try lia; try assumption.
        intros k Hk. destruct (decide (k = i)) as [->|]; [exact Hz|apply Hafter; lia].
    + right. split; [exact Hnz|]. exists i. repeat split; try lia; intros; lia.
Qed.

End ContainerScans.

(** ** What the blocks of the cascade can end in *)

Section CascadeFacts.
Context {F : Type} {FA : FloatArith F} {EX : Externals F}.

Lemma load_stb_float_cases (f : File F) (this : HDRImage F) (errors : string) (w h : Z) :
  match load_stb_float f this errors w h with
  | Done r => quiet_success r
  | Next this' _ => this' = this
  end.
Proof.
  unfold load_stb_float. destruct (stb_data (stbi_loadf f)) as [float_data|]; [|reflexivity].
  pose proof (copy_outcome (resize_image w h this) float_data w h 4
                (negb (stbi_is_hdr f)) false) as Hcopy.
  destruct (copyPixelsFromArray _ _ _ _ _ _ _); [|split; reflexivity].
  destruct Hcopy as (_ & _ & H4 & _). congruence.
Qed.

Lemma load_stb_cases (f : File F) (this : HDRImage F) (errors : string) :
  match load_stb f this errors with
  | Done r =>
      quiet_success r \/
      (outcome r = Thrown "Only 1- 3- and 4-channel images are supported." /\
       console_error r = [] /\ isSTBImage f = true /\ depth_png f = true /\
       main_n (stbi_load_main f) <> 1 /\ main_n (stbi_load_main f) <> 3 /\
       main_n (stbi_load_main f) <> 4)
  | Next this' _ => this' = this
  end.
Proof.
  unfold load_stb, depth_png.
  destruct (isSTBImage f); [|reflexivity].
  destruct ((stb_n (stbi_loadf f) =? 1) && has_suffix4 (filename f) ".png").
  - destruct (bits_per_channel (stbi_load_main f) =? 16).
    + pose proof (copy_outcome
                    (resize_image (main_w (stbi_load_main f)) (main_h (stbi_load_main f)) this)
                    (depth_scalars (data16 (stbi_load_main f))
                       (main_w (stbi_load_main f)) (main_h (stbi_load_main f)))
                    (main_w (stbi_load_main f)) (main_h (stbi_load_main f))
                    (main_n (stbi_load_main f)) false true) as Hcopy.
      destruct (copyPixelsFromArray _ _ _ _ _ _ _).
      * destruct Hcopy as (H1 & H3 & H4 & ->). right. simpl. auto 10.
      * left. split; reflexivity.
    + pose proof (load_stb_float_cases f this errors
                    (main_w (stbi_load_main f)) (main_h (stbi_load_main f))) as Hfloat.
      destruct (load_stb_float _ _ _ _ _); [left|]; exact Hfloat.
  - pose proof (load_stb_float_cases f this errors
                  (stb_w (stbi_loadf f)) (stb_h (stbi_loadf f))) as Hfloat.
    destruct (load_stb_float _ _ _ _ _); [left|]; exact Hfloat.
Qed.

Lemma load_pfm_cases (f : File F) (this : HDRImage F) (errors : string) :
  match load_pfm f this errors with
  | Done r => quiet_success r
  | Next _ _ => True
  end.
Proof.
  unfold load_pfm. destruct (isPFMImage f); [|exact I].
  destruct (try_pfm f this); [exact I|split; reflexivity].
Qed.

Lemma load_npy_cases (f : File F) (this : HDRImage F) (errors : string) :
  match load_npy f this errors with
  | Done r => quiet_success r
  | Next _ _ => True
  end.
Proof.
  unfold load_npy. destruct (has_suffix4 (filename f) ".npy"); [|exact I].
  destruct (try_npy f this); [exact I|split; reflexivity].
Qed.

Lemma load_exr_cases (f : File F) (this : HDRImage F) (errors : string) :
  match load_exr f this errors with
  | Done r => quiet_success r
  | Next _ _ => True
  end.
Proof.
  unfold load_exr. destruct (isOpenExrFile f); [|exact I].
  destruct (try_exr f this); [exact I|split; reflexivity].
Qed.

(** X13. However [load] ends: if it returns true, nothing was sent to the
    error console; if it returns false, the image is the empty 0 by 0
    image and exactly one message, the "Unable to read image file" one,
    was sent; and an exception leaves [load] only from the branch of the
    one-channel 16-bit PNG, when the second stb decoder reports a channel
    count other than 1, 3 or 4. *)
Theorem load_outcomes (f : File F) (this : HDRImage F) :
  match outcome (load f this) with
  | Returned true => console_error (load f this) = []
  | Returned false =>
      image (load f this) = empty_image /\
      exists errors, console_error (load f this) = [unable_to_read (filename f) errors]
  | Thrown what =>
      what = "Only 1- 3- and 4-channel images are supported." /\
      console_error (load f this) = [] /\
      isSTBImage f = true /\ depth_png f = true /\
      main_n (stbi_load_main f) <> 1 /\ main_n (stbi_load_main f) <> 3 /\
      main_n (stbi_load_main f) <> 4
  end.
Proof.
  unfold load.
  pose proof (load_stb_cases f this EmptyString) as Hstb.
  destruct (load_stb f this EmptyString) as [r|this1 errors1].
  { destruct Hstb as [[Ho He]|(Ho & He & Hrest)]; rewrite Ho; [exact He|].
    split; [reflexivity|]. split; [exact He|exact Hrest]. }
  pose proof (load_pfm_cases f this1 errors1) as Hpfm.
  destruct (load_pfm f this1 errors1) as [r|this2 errors2].
  { destruct Hpfm as [Ho He]. rewrite Ho. exact He. }
  pose proof (load_npy_cases f this2 errors2) as Hnpy.
  destruct (load_npy f this2 errors2) as [r|this3 errors3].
  { destruct Hnpy as [Ho He]. rewrite Ho. exact He. }
  pose proof (load_exr_cases f this3 errors3) as Hexr.
  destruct (load_exr f this3 errors3) as [r|this4 errors4].
  { destruct Hexr as [Ho He]. rewrite Ho. exact He. }
  destruct (try_dng f this4) as [what|this5]; simpl.
  - split; [apply resize_to_empty|]. eexists. reflexivity.
  - reflexivity.
Qed.

End CascadeFacts.

(** ** The successful paths of the cascade *)

Section PathFacts.
Context {F : Type} {FA : FloatArith F} {EX : Externals F}.

Lemma color_eta (p : Color4 F) : mkColor4 (red p) (green p) (blue p) (alpha p) = p.
Proof. destruct p. reflexivity. Qed.

Lemma copy_after_resize (this : HDRImage F) (data : list F) (w h n : Z)
    (convertToLinear flip : bool) :
  0 <= w -> 0 <= h -> n = 3 \/ n = 4 ->
  copyPixelsFromArray (resize_image w h this) data w h n convertToLinear flip
  = inr (tabulate w h (fun x y =>
           interleaved_colour data n convertToLinear
             (x + (if flip then h - y - 1 else y) * w))).
Proof.
  intros Hw Hh Hn.
  apply (copy_colour_spec (resize_image w h this) data n convertToLinear flip);
    [apply resize_image_well_formed; assumption | exact Hn].
Qed.

End PathFacts.

Section CascadeTheorems.
Context {F : Type} {FA : FloatArith F} {EX : Externals F}.

(** X14. A file that stb recognises and decodes, and that is not a
    one-channel file named [.png]: [load] returns true and the image has
    the size stb reports; pixel [(x, y)] holds the four floats of element
    [x + y * w] of the decoded data, whatever channel count stb reports,
    sent through [SRGBToLinear] unless stb tells that the file is an HDR
    file. *)
Theorem load_stb_image (f : File F) (this : HDRImage F) (float_data : list F) :
  isSTBImage f = true ->
  (stb_n (stbi_loadf f) =? 1) && has_suffix4 (filename f) ".png" = false ->
  stb_data (stbi_loadf f) = Some float_data ->
  0 <= stb_w (stbi_loadf f) -> 0 <= stb_h (stbi_loadf f) ->
  load f this
  = mkLoadResult (Returned true)
      (tabulate (stb_w (stbi_loadf f)) (stb_h (stbi_loadf f)) (fun x y =>
         let k := x + y * stb_w (stbi_loadf f) in
         let c := mkColor4 (vec_at (of_int 0) float_data (4 * k))
                           (vec_at (of_int 0) float_data (4 * k + 1))
                           (vec_at (of_int 0) float_data (4 * k + 2))
                           (vec_at (of_int 0) float_data (4 * k + 3)) in
         if stbi_is_hdr f then c else SRGBToLinear c))
      [].
Proof.
  intros Hstb Hpng Hdata Hw Hh.
  unfold load, load_stb, load_stb_float. rewrite Hstb, Hpng, Hdata.
  rewrite copy_after_resize by (auto; lia).
  f_equal. apply tabulate_ext. intros x y _ _.
  unfold interleaved_colour. cbv zeta.
  destruct (stbi_is_hdr f); reflexivity.
Qed.

(** X15. A three-channel PFM file that stb does not recognise: [load]
    returns true; the rows of the file are stored bottom row first in the
    image, pixel [(x, y)] holding the three floats of element
    [x + (h - y - 1) * w] and alpha 1, with no colour conversion. *)
Theorem load_pfm_image (f : File F) (this : HDRImage F) (w h : Z) (float_data : list F) :
  isSTBImage f = false -> isPFMImage f = true ->
  loadPFMImage f = PfmLoaded w h 3 float_data ->
  0 <= w -> 0 <= h ->
  load f this
  = mkLoadResult (Returned true)
      (tabulate w h (fun x y =>
         let k := x + (h - y - 1) * w in
         mkColor4 (vec_at (of_int 0) float_data (3 * k))
                  (vec_at (of_int 0) float_data (3 * k + 1))
                  (vec_at (of_int 0) float_data (3 * k + 2))
                  (of_int 1)))
      [].
Proof.
  intros Hstb Hpfm Hdata Hw Hh.
  unfold load, load_stb, load_pfm, try_pfm. rewrite Hstb, Hpfm, Hdata.
  change ((3 =? 3) || (3 =? 1)) with true. cbv iota.
  rewrite copy_after_resize by (auto; lia).
  reflexivity.
Qed.

(** X16. A file named [.npy] that holds an array of [h] by [w] by [n]
    floats, [n] being 3 or 4, and that neither the stb nor the PFM probe
    recognises: [load] returns true; pixel [(x, y)] holds the channels of
    element [x + y * w], rows in file order, alpha 1 for three channels,
    with no colour conversion. *)
Theorem load_npy_float_image (f : File F) (this : HDRImage F) (w h n : Z) :
  isSTBImage f = false -> isPFMImage f = false ->
  has_suffix4 (filename f) ".npy" = true ->
  LoadNPY (npy f) = None ->
  Shape (npy f) = [h; w; n] -> n = 3 \/ n = 4 ->
  ValueType (npy f) = NpyFloat ->
  0 <= w -> 0 <= h ->
  load f this
  = mkLoadResult (Returned true)
      (tabulate w h (fun x y =>
         let k := x + y * w in
         mkColor4 (vec_at (of_int 0) (Data (npy f)) (n * k))
                  (vec_at (of_int 0) (Data (npy f)) (n * k + 1))
                  (vec_at (of_int 0) (Data (npy f)) (n * k + 2))
                  (if n =? 3 then of_int 1
                   else vec_at (of_int 0) (Data (npy f)) (n * k + 3))))
      [].
Proof.
  intros Hstb Hpfm Hname Hload Hshape Hn Htype Hw Hh.
  unfold load, load_stb, load_pfm, load_npy, try_npy.
  rewrite Hstb, Hpfm, Hname, Hload, Hshape, Htype.
  cbn [length is_Some_bool]. change (Z.of_nat 3 <? 2) with false.
  change (3 <? Z.of_nat 3) with false. change (Z.of_nat 3 =? 2) with false.
  cbn [orb]. cbv iota.
  change (vec_at 0 [h; w; n] 1) with w. change (vec_at 0 [h; w; n] 0) with h.
  change (vec_at 0 [h; w; n] 2) with n.
  assert (Hsel : ((n =? 3) || (n =? 4) || (n =? 1))
                 && bool_decide (NpyFloat = NpyFloat) = true)
    by (destruct Hn as [-> | ->]; reflexivity).
  rewrite Hsel.
  rewrite copy_after_resize by assumption.
  f_equal. apply tabulate_ext. intros x y _ _.
  unfold interleaved_colour. destruct Hn as [-> | ->]; reflexivity.
Qed.

(** X17. An OpenEXR file that the earlier probes do not recognise and
    whose pixels can be read: [load] returns true; the image has the size
    of the data window, [max - min + 1] in each direction, and pixel
    [(x, y)] is element [y * w + x] of the pixels read, unchanged. *)
Theorem load_exr_image (f : File F) (this : HDRImage F) (file : ExrFile F)
    (exr_pixels : list (Color4 F)) :
  isSTBImage f = false -> isPFMImage f = false ->
  has_suffix4 (filename f) ".npy" = false ->
  isOpenExrFile f = true ->
  RgbaInputFile f = inr file -> readPixels file = inr exr_pixels ->
  0 <= dw_max_x file - dw_min_x file + 1 ->
  0 <= dw_max_y file - dw_min_y file + 1 ->
  load f this
  = mkLoadResult (Returned true)
      (tabulate (dw_max_x file - dw_min_x file + 1) (dw_max_y file - dw_min_y file + 1)
         (fun x y =>
            vec_at black exr_pixels (y * (dw_max_x file - dw_min_x file + 1) + x)))
      [].
Proof.
  intros Hstb Hpfm Hname Hexr Hfile Hpixels Hw Hh.
  unfold load, load_stb, load_pfm, load_npy, load_exr, try_exr.
  rewrite Hstb, Hpfm, Hname, Hexr, Hfile. cbn [bind]. rewrite Hpixels. cbn [bind ret].
  set (w := dw_max_x file - dw_min_x file + 1) in *.
  set (h := dw_max_y file - dw_min_y file + 1) in *.
  rewrite (sweep_pixels_spec _ (resize_image w h this))
    by (apply resize_image_well_formed; assumption).
  f_equal. apply tabulate_ext. intros x y _ _. apply color_eta.
Qed.

(** X18. The guard [filename.size() > 5]: for a file whose name has at
    most five characters, [a.npy] or [a.png] for instance, [load] does
    not depend on what the NPY reader or the second stb decoder would
    find; such a file is never read as NPY nor as a 16-bit PNG. *)
Theorem load_short_name (f : File F) (this : HDRImage F) (arr : NpyArray F) (m : StbMain) :
  (String.length (filename f) <= 5)%nat ->
  load (with_npy f arr) this = load f this /\
  load (with_stbi_load_main f m) this = load f this.
Proof.
  intros Hlen.
  assert (Hsuffix : forall suffix, has_suffix4 (filename f) suffix = false).
  { intros suffix. unfold has_suffix4.
    destruct (Nat.ltb_spec 5 (String.length (filename f))); [lia|reflexivity]. }
  split.
  - unfold load, load_stb, load_pfm, load_npy.
    cbn [with_npy filename isSTBImage stbi_loadf stbi_failure_reason stbi_load_main
         stbi_is_hdr isPFMImage loadPFMImage npy isOpenExrFile RgbaInputFile LoadDNG].
    rewrite !Hsuffix. reflexivity.
  - unfold load, load_stb, load_pfm, load_npy.
    cbn [with_stbi_load_main filename isSTBImage stbi_loadf stbi_failure_reason
         stbi_load_main stbi_is_hdr isPFMImage loadPFMImage npy isOpenExrFile
         RgbaInputFile LoadDNG].
    rewrite !Hsuffix. rewrite !andb_false_r. reflexivity.
Qed.

End CascadeTheorems.

Lemma find_largest_first_widest_witness :
  let j := find_largest PathExamples.two_images in
  0 <= j < Z.of_nat (length PathExamples.two_images) /\
  (forall k, 0 <= k < Z.of_nat (length PathExamples.two_images) ->
     tinydng.width (image_at PathExamples.two_images k)
     <= tinydng.width (image_at PathExamples.two_images j)) /\
  (forall k, 0 <= k < j ->
     tinydng.width (image_at PathExamples.two_images k)
     < tinydng.width (image_at PathExamples.two_images j)).
Proof.
  apply (find_largest_first_widest PathExamples.two_images). discriminate.
Defined.

(** The second image of the example is the one developed, and its
    orientation the one applied. *)
Example two_images_scans :
  find_largest PathExamples.two_images = 1 /\ find_orientation PathExamples.two_images = 6.
Proof. split; reflexivity. Qed.

Lemma load_stb_image_witness :
  load (EX := Examples.exact_lib) PathExamples.hdr_file Examples.four_pixels
  = mkLoadResult (Returned true)
      (tabulate 2 1 (fun x y =>
         interleaved_colour (EX := Examples.exact_lib) PathExamples.rgba_data 4 false
           (x + y * 2)))
      [].
Proof.
  apply (load_stb_image (EX := Examples.exact_lib) PathExamples.hdr_file
           Examples.four_pixels PathExamples.rgba_data);
    first [reflexivity | vm_compute; discriminate].
Defined.

Lemma load_pfm_image_witness :
  load (EX := Examples.exact_lib) PathExamples.pfm_file Examples.four_pixels
  = mkLoadResult (Returned true)
      (tabulate 1 2 (fun x y =>
         interleaved_colour (EX := Examples.exact_lib) PathExamples.rgb_data 3 false
           (x + (2 - y - 1) * 1)))
      [].
Proof.
  apply (load_pfm_image (EX := Examples.exact_lib) PathExamples.pfm_file
           Examples.four_pixels 1 2 PathExamples.rgb_data);
    first [reflexivity | vm_compute; discriminate].
Defined.

Lemma load_npy_float_image_witness :
  load (EX := Examples.exact_lib) PathExamples.npy_file Examples.four_pixels
  = mkLoadResult (Returned true)
      (tabulate 2 1 (fun x y =>
         interleaved_colour (EX := Examples.exact_lib) PathExamples.rgb_data 3 false
           (x + y * 2)))
      [].
Proof.
  apply (load_npy_float_image (EX := Examples.exact_lib) PathExamples.npy_file
           Examples.four_pixels 2 1 3);
    first [reflexivity | left; reflexivity | vm_compute; discriminate].
Defined.

Lemma load_exr_image_witness :
  load (EX := Examples.exact_lib) PathExamples.exr_file Examples.four_pixels
  = mkLoadResult (Returned true)
      (tabulate 2 1 (fun x y => vec_at black PathExamples.exr_pixels (y * 2 + x)))
      [].
Proof.
  apply (load_exr_image (EX := Examples.exact_lib) PathExamples.exr_file
           Examples.four_pixels (mkExrFile 3 5 4 5 (inr PathExamples.exr_pixels))
           PathExamples.exr_pixels);
    first [reflexivity | vm_compute; discriminate].
Defined.

Lemma load_short_name_witness :
  load (EX := Examples.exact_lib)
    (with_npy (unrecognised "a.npy") (npy PathExamples.npy_file)) Examples.four_pixels
  = load (EX := Examples.exact_lib) (unrecognised "a.npy") Examples.four_pixels /\
  load (EX := Examples.exact_lib)
    (with_stbi_load_main (unrecognised "a.npy") (mkStbMain 2 1 1 16 [1500; 7000]))
    Examples.four_pixels
  = load (EX := Examples.exact_lib) (unrecognised "a.npy") Examples.four_pixels.
Proof.
  apply (load_short_name (EX := Examples.exact_lib) (unrecognised "a.npy")
           Examples.four_pixels (npy PathExamples.npy_file) (mkStbMain 2 1 1 16 [1500; 7000])).
  simpl. lia.
Defined.

(** The PFM file of the example: the second row of the file is the first
    row of the image. *)
Example load_pfm_file_rows :
  pixels (image (load (EX := Examples.exact_lib) PathExamples.pfm_file Examples.four_pixels))
  = [mkColor4 (of_int 4) (of_int 5) (of_int 6) (of_int 1);
     mkColor4 (of_int 1) (of_int 2) (of_int 3) (of_int 1)].
Proof. vm_compute. reflexivity. Qed.

(** A file named [a.npy] that holds a float array is not read: the name
    is too short for the NPY probe. *)
Example short_npy_name_fails :
  outcome (load (EX := Examples.exact_lib)
             (with_npy (unrecognised "a.npy") (npy PathExamples.npy_file))
             Examples.four_pixels)
  = Returned false.
Proof. vm_compute. reflexivity. Qed.

(** ** Tone mapping in save *)

Section ToneFacts.
Context {F : Type} {FA : FloatArith F} {EX : Externals F}.

(** For an HDR format only the gain is applied. *)
Lemma tonemap_hdr (this : HDRImage F) (gain gamma : F) (sRGB : bool) :
  tonemap this true gain gamma sRGB
  = if fne gain (of_int 1)
    then map_image (fun c => color_zip fmul c (mkColor4 gain gain gain (of_int 1))) this
    else this.
Proof.
  unfold tonemap. cbn [negb].
  destruct (fne gain (of_int 1)); cbn [orb]; [reflexivity|].
  destruct (sRGB || fne gamma (of_int 1)); reflexivity.
Qed.

Lemma tonemap_sRGB (this : HDRImage F) (hdrFormat : bool) (gain gamma gamma' : F) :
  tonemap this hdrFormat gain gamma true = tonemap this hdrFormat gain gamma' true.
Proof.
  unfold tonemap. rewrite !orb_true_r. cbn [orb].
  destruct (fne gain (of_int 1)); cbn [orb]; destruct hdrFormat; reflexivity.
Qed.

End ToneFacts.

Section SaveTheorems.
Context {F : Type} {FA : FloatArith F} {EX : Externals F}.

(** X19. [save] reaches its [throw invalid_argument] exactly when the
    extension of the file name, in lower case, is none of hdr, pfm, exr,
    ppm, png, bmp, tga, jpg and jpeg; the message is then "Could not
    determine desired file type from extension.".  For each of the nine
    it calls a writer instead. *)
Theorem save_unknown_extension (this : HDRImage F) (filename : string) (gain gamma : F)
    (sRGB dither : bool) :
  match save this filename gain gamma sRGB dither with
  | SaveThrows what =>
      what = "Could not determine desired file type from extension." /\
      tolower_string (getExtension filename) ∉ known_extensions
  | Writes _ => tolower_string (getExtension filename) ∈ known_extensions
  end.
Proof.
  unfold save, known_extensions.
  set (e := tolower_string (getExtension filename)).
  repeat match goal with
         | |- context [String.eqb e ?s] =>
             destruct (String.eqb_spec e s) as [->|?]; cbn [orb];
               [repeat first [apply list_elem_of_here | apply list_elem_of_further]|]
         end.
  split; [reflexivity|].
  rewrite !elem_of_cons, elem_of_nil. intuition congruence.
Qed.

(** X20. Saving to an HDR format (hdr, pfm, exr) applies the gain and
    nothing else: the call of the writer does not depend on the gamma, on
    the sRGB flag or on the dither flag. *)
Theorem save_hdr_ignores_tone_curve (this : HDRImage F) (filename : string)
    (gain gamma gamma' : F) (sRGB sRGB' dither dither' : bool) :
  tolower_string (getExtension filename) ∈ hdr_extensions ->
  save this filename gain gamma sRGB dither
  = save this filename gain gamma' sRGB' dither'.
Proof.
  unfold hdr_extensions. rewrite !elem_of_cons. intros Hext.
  unfold save. set (e := tolower_string (getExtension filename)) in *.
  destruct Hext as [-> | [-> | [-> | Hnil]]];
    [| | |apply elem_of_nil in Hnil; destruct Hnil];
    cbn [String.eqb Ascii.eqb Bool.eqb orb andb]; cbv iota;
    rewrite !tonemap_hdr; reflexivity.
Qed.

(** X21. With the sRGB flag set the gamma is never used: for every file
    name, [save] with sRGB does the same for any two gammas. *)
Theorem save_sRGB_overrides_gamma (this : HDRImage F) (filename : string)
    (gain gamma gamma' : F) (dither : bool) :
  save this filename gain gamma true dither = save this filename gain gamma' true dither.
Proof.
  unfold save. cbv zeta.
  rewrite (tonemap_sRGB this _ gain gamma gamma'). reflexivity.
Qed.

End SaveTheorems.

Lemma save_hdr_ignores_tone_curve_witness :
  save (EX := Examples.exact_lib) SaveExamples.grey_pixel "Out.HDR"
    (of_int 2) (of_int 1) false false
  = save (EX := Examples.exact_lib) SaveExamples.grey_pixel "Out.HDR"
      (of_int 2) (of_ratio 22 10) true true.
Proof.
  apply (save_hdr_ignores_tone_curve (EX := Examples.exact_lib) SaveExamples.grey_pixel
           "Out.HDR" (of_int 2) (of_int 1) (of_ratio 22 10) false true false true).
  vm_compute. apply list_elem_of_here.
Defined.

(** ** The range of the positive samples *)

Lemma exact_flt_spec (a b : Qc) : flt a b = true <-> (a < b)%Qc.
Proof.
  change (flt a b) with (Exact.ltb a b). unfold Exact.ltb.
  rewrite Qclt_alt.
  destruct (a ?= b)%Qc; split; intros H; try reflexivity; try discriminate; congruence.
Qed.

Lemma exact_fle_spec (a b : Qc) : fle a b = true <-> (a <= b)%Qc.
Proof.
  change (fle a b) with (Exact.leb a b). unfold Exact.leb.
  rewrite Qcle_alt.
  destruct (a ?= b)%Qc; split; intros H; try reflexivity; try discriminate; congruence.
Qed.

Lemma min_max_positive_cells (data : list Qc) (w h x y : Z) :
  0 <= x < w -> 0 <= y < h ->
  (0 < vec_at (of_int 0) data (x + y * w))%Qc ->
  (fst (min_max_positive data w h) <= vec_at (of_int 0) data (x + y * w))%Qc /\
  (vec_at (of_int 0) data (x + y * w) <= snd (min_max_positive data w h))%Qc.
Proof.
  intros Hx Hy Hpos.
  pose (Inv := fun (k : Z) (mm : Qc * Qc) =>
          forall x' y', 0 <= x' < w -> 0 <= y' < h -> y' * w + x' < k ->
            (0 < vec_at (of_int 0) data (x' + y' * w))%Qc ->
            (fst mm <= vec_at (of_int 0) data (x' + y' * w))%Qc /\
            (vec_at (of_int 0) data (x' + y' * w) <= snd mm)%Qc).
  assert (Hfin : Inv (h * w) (min_max_positive data w h)).
  { unfold min_max_positive.
    apply (for_loop_ind (fun y mm => Inv (y * w) mm)); [lia| |].
    - intros x' y' Hx' Hy' Hk. nia.
    - intros y0 mm Hy0 Hmm.
      replace ((y0 + 1) * w) with (y0 * w + w) by lia.
      apply (for_loop_ind (fun x mm => Inv (y0 * w + x) mm)); [lia| |].
      + rewrite Z.add_0_r. exact Hmm.
      + intros x0 [minVal maxVal] Hx0 Hin x' y' Hx' Hy' Hk Hp'.
        set (p := vec_at (of_int 0) data (x0 + y0 * w)).
        assert (Hprev : y' * w + x' < y0 * w + x0 ->
                  (minVal <= vec_at (of_int 0) data (x' + y' * w))%Qc /\
                  (vec_at (of_int 0) data (x' + y' * w) <= maxVal)%Qc).
        { intros Hlt. apply (Hin x' y' Hx' Hy' Hlt Hp'). }
        destruct (fle p (of_int 0)) eqn:Hle.
        * apply exact_fle_spec in Hle.
          destruct (decide (y' * w + x' = y0 * w + x0)) as [Heq|Hne];
            [|apply Hprev; lia].
          destruct (cell_index_inj w x' y' x0 y0) as [-> ->]; [lia|lia|lia|].
          fold p in Hp'. exfalso.
          apply (Qclt_not_eq 0 0); [|reflexivity].
          apply (Qclt_le_trans _ p); assumption.
        * cbn [fst snd].
          assert (Hmin : ((if flt p minVal then p else minVal) <= minVal)%Qc /\
                         ((if flt p minVal then p else minVal) <= p)%Qc).
          { destruct (flt p minVal) eqn:Hc.
            - apply exact_flt_spec in Hc. split; [apply Qclt_le_weak; exact Hc|apply Qcle_refl].
            - split; [apply Qcle_refl|]. apply Qcnot_lt_le. intros Hlt.
              apply exact_flt_spec in Hlt. congruence. }
          assert (Hmax : (maxVal <= (if flt maxVal p then p else maxVal))%Qc /\
                         (p <= (if flt maxVal p then p else maxVal))%Qc).
          { destruct (flt maxVal p) eqn:Hc.
            - apply exact_flt_spec in Hc. split; [apply Qclt_le_weak; exact Hc|apply Qcle_refl].
            - split; [apply Qcle_refl|]. apply Qcnot_lt_le. intros Hlt.
              apply exact_flt_spec in Hlt. congruence. }
          destruct Hmin as [Hmin1 Hmin2]. destruct Hmax as [Hmax1 Hmax2].
          destruct (decide (y' * w + x' = y0 * w + x0)) as [Heq|Hne].
          -- destruct (cell_index_inj w x' y' x0 y0) as [-> ->]; [lia|lia|lia|].
             fold p. split; assumption.
          -- destruct Hprev as [Hlo Hhi]; [lia|]. split.
             ++ apply (Qcle_trans _ minVal); assumption.
             ++ apply (Qcle_trans _ maxVal); assumption. }
  apply Hfin; try assumption. nia.
Qed.

(** X22. In arithmetic that does not round, the two numbers that the
    first pass of the one-channel branch leaves bound every positive
    sample of the array: the minimum is at most, and the maximum at least,
    each sample greater than 0 among the [w * h] samples. *)
Theorem min_max_positive_bounds (data : list Qc) (w h x y : Z) :
  0 <= x < w -> 0 <= y < h ->
  (0 < vec_at (of_int 0) data (x + y * w))%Qc ->
  (fst (min_max_positive data w h) <= vec_at (of_int 0) data (x + y * w))%Qc /\
  (vec_at (of_int 0) data (x + y * w) <= snd (min_max_positive data w h))%Qc.
Proof. apply min_max_positive_cells. Qed.

Lemma min_max_positive_bounds_witness :
  (fst (min_max_positive CopyExamples.rgb_data 2 2)
   <= vec_at (of_int 0) CopyExamples.rgb_data (1 + 0 * 2))%Qc /\
  (vec_at (of_int 0) CopyExamples.rgb_data (1 + 0 * 2)
   <= snd (min_max_positive CopyExamples.rgb_data 2 2))%Qc.
Proof.
  apply (min_max_positive_bounds CopyExamples.rgb_data 2 2 1 0); [lia | lia | reflexivity].
Defined.

(** ** The dither table *)

Section DitherFacts.
Context {F : Type} {FA : FloatArith F} {EX : Externals F}.

(** X24. For a pixel [(x, y)] with non-negative coordinates the dither
    offset comes from an entry of the 256 by 256 table, index
    [x mod 256 + 256 (y mod 256)] between 0 and 65535, and the offsets
    repeat every 256 pixels in each direction. *)
Theorem dither_tile (x y : Z) :
  0 <= x -> 0 <= y ->
  0 <= x `mod` 256 + y `mod` 256 * 256 < 65536 /\
  ditherValue x y
  = fdiv (fsub (fdiv (of_int (dither_matrix256 (x `mod` 256 + y `mod` 256 * 256)))
                     (of_int 65536))
               (of_ratio 1 2))
         (of_int 255) /\
  ditherValue (x + 256) y = ditherValue x y /\
  ditherValue x (y + 256) = ditherValue x y.
Proof.
  intros Hx Hy.
  pose proof (Z.mod_pos_bound x 256 ltac:(lia)).
  pose proof (Z.mod_pos_bound y 256 ltac:(lia)).
  assert (Hshift : forall a, 0 <= a -> Z.rem (a + 256) 256 = Z.rem a 256).
  { intros a Ha. rewrite !Z.rem_mod_nonneg by lia.
    replace (a + 256) with (a + 1 * 256) by lia. apply Z.mod_add. lia. }
  split; [lia|]. split; [|split].
  - unfold ditherValue. cbv zeta. rewrite !Z.rem_mod_nonneg by lia. reflexivity.
  - unfold ditherValue. cbv zeta. rewrite Hshift by exact Hx. reflexivity.
  - unfold ditherValue. cbv zeta. rewrite Hshift by exact Hy. reflexivity.
Qed.

End DitherFacts.

Lemma dither_tile_witness :
  0 <= 300 `mod` 256 + 7 `mod` 256 * 256 < 65536 /\
  ditherValue (EX := Examples.binary32_lib) 300 7
  = fdiv (fsub (fdiv (of_int (dither_matrix256 (Externals := Examples.binary32_lib)
                                (300 `mod` 256 + 7 `mod` 256 * 256)))
                     (of_int 65536))
               (of_ratio 1 2))
         (of_int 255) /\
  ditherValue (EX := Examples.binary32_lib) (300 + 256) 7
  = ditherValue (EX := Examples.binary32_lib) 300 7 /\
  ditherValue (EX := Examples.binary32_lib) 300 (7 + 256)
  = ditherValue (EX := Examples.binary32_lib) 300 7.
Proof.
  apply (dither_tile (EX := Examples.binary32_lib) 300 7); lia.
Defined.
